(** * roz: the mscape ingest validator

    A shallow embedding of [roz_scripts/mscape/mscape_ingest_validation.py]:
    the pipeline executor, the execution-trace interpreter, the Onyx record
    submission, the three publish operations and one iteration of the
    consumer loop of [run]; and of [roz/utils.py]: the credentials lookup
    and the S3 fetch.

    Conventions of the embedding.
    - The payload is one mutable Python dict shared by every stage; every
      stage returns that same object in its result tuple.  It is therefore
      kept in the state that is threaded through the stages, and a stage
      returns only the remaining component of its tuple.  A stage that
      raises leaves its mutations in place.
    - Everything a stage asks of its collaborators (the subprocess, the file
      system, S3, Onyx) is answered by a [world] of oracles; every such call
      is also recorded, in order, as an [event].
    - A Python local that has no binding on some path is an [option]; reading
      it while unbound raises [UnboundLocalError].
    - Log lines are not modelled.  Keys of the payload template of [run] are
      taken to be present; [site_code], which the template does not have, is
      optional. *)

From Stdlib Require Import Ascii String ZArith.
From stdpp Require Import base gmap list strings pretty.

Open Scope Z_scope.

(** ** Python values and control *)

Module Py.

(** The exception classes the source names, and one constructor for any
    other [Exception] a collaborator may raise. *)
Inductive exn :=
| UnboundLocalError (var : string)
| TypeError (msg : string)
| KeyError (key : string)
| IndexError (msg : string)
| ClientError (msg : string)
| HTTPError (msg : string)
| ValueError (msg : string)
| OtherError (msg : string).

(** [str(e)], as the f-strings of the handlers print it. *)
Definition exn_str (e : exn) : string :=
  match e with
  | UnboundLocalError v =>
      "cannot access local variable '" +:+ v +:+
      "' where it is not associated with a value"
  | KeyError k => "'" +:+ k +:+ "'"
  | TypeError m | IndexError m | ClientError m | HTTPError m
  | ValueError m | OtherError m => m
  end.

Definition is_ClientError (e : exn) : bool :=
  match e with ClientError _ => true | _ => false end.

Definition is_HTTPError (e : exn) : bool :=
  match e with HTTPError _ => true | _ => false end.

Inductive result (A : Type) :=
| Ret (a : A)
| Raise (e : exn).
Arguments Ret {A} a.
Arguments Raise {A} e.

(** Insertion-ordered dict with string keys: assigning to a key that is
    present keeps its position, a new key goes last. *)
Fixpoint dict_set {V} (k : string) (v : V) (d : list (string * V))
  : list (string * V) :=
  match d with
  | [] => [(k, v)]
  | (k', v') :: d' =>
      if String.eqb k k' then (k, v) :: d' else (k', v') :: dict_set k v d'
  end.

Fixpoint dict_get {V} (k : string) (d : list (string * V)) : option V :=
  match d with
  | [] => None
  | (k', v') :: d' => if String.eqb k k' then Some v' else dict_get k d'
  end.

(** [s.split(":")[-1]]: what follows the last colon, or all of [s]. *)
Fixpoint last_segment_from (acc s : string) : string :=
  match s with
  | EmptyString => acc
  | String c s' =>
      if Ascii.eqb c ":"%char then last_segment_from s' s'
      else last_segment_from acc s'
  end.

Definition last_segment (s : string) : string := last_segment_from s s.

Definition starts_with_slash (s : string) : bool :=
  match s with String c _ => Ascii.eqb c "/"%char | EmptyString => false end.

Fixpoint ends_with_slash (s : string) : bool :=
  match s with
  | EmptyString => false
  | String c EmptyString => Ascii.eqb c "/"%char
  | String _ s' => ends_with_slash s'
  end.

(** [os.path.join(a, b)] on POSIX. *)
Definition path_join (a b : string) : string :=
  if starts_with_slash b then b
  else if (String.eqb a "" || ends_with_slash a)%bool then a +:+ b
  else a +:+ "/" +:+ b.

(** Keyword-only call: Python raises [TypeError] when a keyword names no
    parameter of the callee. *)
Fixpoint unexpected_keyword (params kwargs : list string) : option string :=
  match kwargs with
  | [] => None
  | k :: ks =>
      if existsb (String.eqb k) params then unexpected_keyword params ks
      else Some k
  end.

End Py.
Export Py.

(** ** Data model *)

Record file_ref := mkFileRef { uri : string; etag : string }.

(** The payload dict.  [cid] and [onyx_status_code] start as Python's
    [False], here [None]. *)
Record payload := mkPayload {
  uuid : string;
  artifact : string;
  project : string;
  site : string;
  site_code : option string;
  platform : string;
  files : gmap string file_ref;
  cid : option string;
  created : bool;
  ingested : bool;
  onyx_test_create_status : bool;
  onyx_status_code : option Z;
  onyx_errors : gmap string (list string);
  onyx_create_status : bool;
  ingest_errors : list string;
  test_flag : bool;
  test_ingest_result : bool
}.

Definition set_cid (v : option string) (p : payload) : payload :=
  mkPayload (uuid p) (artifact p) (project p) (site p) (site_code p)
    (platform p) (files p) v (created p) (ingested p)
    (onyx_test_create_status p) (onyx_status_code p) (onyx_errors p)
    (onyx_create_status p) (ingest_errors p) (test_flag p)
    (test_ingest_result p).

Definition set_created (v : bool) (p : payload) : payload :=
  mkPayload (uuid p) (artifact p) (project p) (site p) (site_code p)
    (platform p) (files p) (cid p) v (ingested p)
    (onyx_test_create_status p) (onyx_status_code p) (onyx_errors p)
    (onyx_create_status p) (ingest_errors p) (test_flag p)
    (test_ingest_result p).

Definition set_ingested (v : bool) (p : payload) : payload :=
  mkPayload (uuid p) (artifact p) (project p) (site p) (site_code p)
    (platform p) (files p) (cid p) (created p) v
    (onyx_test_create_status p) (onyx_status_code p) (onyx_errors p)
    (onyx_create_status p) (ingest_errors p) (test_flag p)
    (test_ingest_result p).

Definition set_onyx_status_code (v : option Z) (p : payload) : payload :=
  mkPayload (uuid p) (artifact p) (project p) (site p) (site_code p)
    (platform p) (files p) (cid p) (created p) (ingested p)
    (onyx_test_create_status p) v (onyx_errors p)
    (onyx_create_status p) (ingest_errors p) (test_flag p)
    (test_ingest_result p).

Definition set_onyx_errors (v : gmap string (list string)) (p : payload)
  : payload :=
  mkPayload (uuid p) (artifact p) (project p) (site p) (site_code p)
    (platform p) (files p) (cid p) (created p) (ingested p)
    (onyx_test_create_status p) (onyx_status_code p) v
    (onyx_create_status p) (ingest_errors p) (test_flag p)
    (test_ingest_result p).

Definition set_onyx_create_status (v : bool) (p : payload) : payload :=
  mkPayload (uuid p) (artifact p) (project p) (site p) (site_code p)
    (platform p) (files p) (cid p) (created p) (ingested p)
    (onyx_test_create_status p) (onyx_status_code p) (onyx_errors p)
    v (ingest_errors p) (test_flag p) (test_ingest_result p).

Definition set_ingest_errors (v : list string) (p : payload) : payload :=
  mkPayload (uuid p) (artifact p) (project p) (site p) (site_code p)
    (platform p) (files p) (cid p) (created p) (ingested p)
    (onyx_test_create_status p) (onyx_status_code p) (onyx_errors p)
    (onyx_create_status p) v (test_flag p) (test_ingest_result p).

Definition set_test_ingest_result (v : bool) (p : payload) : payload :=
  mkPayload (uuid p) (artifact p) (project p) (site p) (site_code p)
    (platform p) (files p) (cid p) (created p) (ingested p)
    (onyx_test_create_status p) (onyx_status_code p) (onyx_errors p)
    (onyx_create_status p) (ingest_errors p) (test_flag p) v.

(** [f"{payload['cid']}"]: the CID, or the text of [False]. *)
Definition fmt_cid (p : payload) : string :=
  match cid p with Some c => c | None => "False" end.

(** The reserved bucket of [onyx_errors]. *)
Definition onyx_client_errors : string := "onyx_client_errors".

(** ** Collaborators *)

(** What [subprocess.run] did. *)
Inductive subprocess_outcome :=
| Completed (returncode : Z) (stdout stderr : string)
| TimeoutExpired.

(** One row of the tab-separated execution trace, as [csv.DictReader]
    yields it. *)
Record trace_row := mkTraceRow {
  tr_name : string;
  tr_exit : string;
  tr_status : string
}.

(** Reading the trace: [open] fails, or the reader yields [rows] and then
    either ends or fails on the next row. *)
Inductive trace_outcome :=
| TraceOpenError (e : exn)
| TraceRows (rows : list trace_row) (failure : option exn).

(** The part of a [requests] response the code looks at.  [None] for
    [resp_json] is a body on which [response.json()] raises. *)
Record json_body := mkJsonBody {
  messages : list (string * list string);
  data_cid : option string
}.

Record response := mkResponse {
  status_code : Z;
  resp_json : option json_body
}.

(** An entry of [reads_summary.json]. *)
Record taxon_summary := mkTaxonSummary {
  ts_taxon_id : string;
  ts_taxon : string;
  ts_human_readable : string;
  ts_num_reads : string;
  ts_avg_qual : string;
  ts_mean_len : string;
  ts_tax_level : string;
  ts_filenames : list string
}.

(** The nested record built per taxon; [td_reads] is the insertion-ordered
    tail of the dict, holding [reads_1] and [reads_2] when set. *)
Record taxon_dict := mkTaxonDict {
  td_taxon_id : string;
  td_human_readable : string;
  td_n_reads : string;
  td_avg_quality : string;
  td_mean_len : string;
  td_tax_level : string;
  td_reads : list (string * string)
}.

Inductive update_fields :=
| StrFields (kv : list (string * string))
| TaxaField (records : list taxon_dict).

Inductive body :=
| PayloadBody (p : payload)
| NewArtifactBody (ingest_timestamp : Z) (cid : option string)
    (site match_uuid : string).

(** External calls, in the order they are made. *)
Inductive event :=
| Subprocess (cmd : list string) (timeout : Z)
| WriteFile (path content : string)
| Send (exchange : string) (message : body)
| CsvCreate (project uri etag : string)
| Upload (path bucket key : string)
| Update (project : string) (cid : option string) (fields : update_fields).

Record world := mkWorld {
  subprocess_run : list string -> Z -> subprocess_outcome;
  read_trace : string -> trace_outcome;
  csv_create : string -> string -> string -> result response;
  upload_file : string -> string -> string -> option exn;
  onyx_update : string -> option string -> update_fields -> result response;
  read_summary : string -> result (list taxon_summary);
  time_ns : Z
}.

(** ** The state threaded through a pass, and its monad *)

(** [st_frame] holds the locals of the running function that are bound on
    some paths only. *)
Record state := mkState {
  st_payload : payload;
  st_events : list event;
  st_frame : list (string * bool)
}.

Definition M (A : Type) : Type := state -> result A * state.

Definition ret {A} (a : A) : M A := fun st => (Ret a, st).

Definition raise {A} (e : exn) : M A := fun st => (Raise e, st).

Definition bind {A B} (m : M A) (k : A -> M B) : M B :=
  fun st =>
    match m st with
    | (Ret a, st') => k a st'
    | (Raise e, st') => (Raise e, st')
    end.

Declare Scope py_scope.
Delimit Scope py_scope with py.
Notation "x <- m ;; k" := (bind m (fun x => k))
  (at level 100, m at next level, right associativity) : py_scope.
Notation "m ;; k" := (bind m (fun _ => k))
  (at level 100, right associativity) : py_scope.
Open Scope py_scope.

Definition get_payload : M payload := fun st => (Ret (st_payload st), st).

Definition modify (f : payload -> payload) : M unit :=
  fun st => (Ret tt, mkState (f (st_payload st)) (st_events st) (st_frame st)).

Definition emit (e : event) : M unit :=
  fun st => (Ret tt, mkState (st_payload st) (st_events st ++ [e]) (st_frame st)).

(** [x = b] for a local [x]. *)
Definition assign (x : string) (b : bool) : M unit :=
  fun st =>
    (Ret tt, mkState (st_payload st) (st_events st) (dict_set x b (st_frame st))).

(** Reading a local. *)
Definition read (x : string) : M bool :=
  fun st =>
    match dict_get x (st_frame st) with
    | Some b => (Ret b, st)
    | None => (Raise (UnboundLocalError x), st)
    end.

(** A function body runs in a frame of its own; the caller's frame is back
    when it returns or raises. *)
Definition in_new_frame {A} (body : M A) : M A :=
  fun st =>
    let '(r, st') := body (mkState (st_payload st) (st_events st) []) in
    (r, mkState (st_payload st') (st_events st') (st_frame st)).

Definition lift_result {A} (r : result A) : M A := fun st => (r, st).

(** [try: body / except <classes>: handler]. *)
Definition try_except {A} (catches : exn -> bool) (body : M A)
    (handler : exn -> M A) : M A :=
  fun st =>
    match body st with
    | (Raise e, st') => if catches e then handler e st' else (Raise e, st')
    | r => r
    end.

Definition any_Exception (e : exn) : bool := true.

(** [payload["ingest_errors"].append(msg)] *)
Definition append_ingest_error (msg : string) : M unit :=
  modify (fun p => set_ingest_errors (ingest_errors p ++ [msg]) p).

(** [payload["onyx_errors"]["onyx_client_errors"] = [msg]] *)
Definition assign_client_error (msg : string) : M unit :=
  modify (fun p =>
    set_onyx_errors (<[onyx_client_errors := [msg]]> (onyx_errors p)) p).

(** [varys_client.send(message=payload, exchange=..., queue_suffix=...)];
    the body is serialised when it is sent. *)
Definition send_payload (exchange : string) : M unit :=
  p <- get_payload ;; emit (Send exchange (PayloadBody p)).

Definition results_exchange (site : string) : string :=
  "inbound.results.mscape." +:+ site.

(** ** class pipeline *)

Record pipeline := mkPipeline {
  pipe : string;
  config : option string;
  nxf_executable : string;
  profile : option string;
  timeout_seconds : Z
}.

(** [pipeline.__init__] with its default [timeout_seconds=3600]. *)
Definition new_pipeline (pipe : string) (config : option string)
    (nxf_executable : string) (profile : option string) : pipeline :=
  mkPipeline pipe config nxf_executable profile 3600.

Definition build_cmd (self : pipeline) (params : list (string * string))
  : list string :=
  [nxf_executable self; "run"; "-r"; "main"; "-latest"; pipe self]
  ++ match config self with Some c => ["-c"; c] | None => [] end
  ++ match profile self with Some pr => ["-profile"; pr] | None => [] end
  ++ flat_map (fun kv => ["--" +:+ kv.1; kv.2]) params.

(** [pipeline.execute]: [proc] is bound only when [subprocess.run]
    returns. *)
Definition execute (w : world) (self : pipeline)
    (params : list (string * string)) : M (Z * bool * string * string) :=
  let cmd := build_cmd self params in
  emit (Subprocess cmd (timeout_seconds self)) ;;
  let '(proc, timeout) :=
    match subprocess_run w cmd (timeout_seconds self) with
    | Completed rc out err => (Some (rc, out, err), false)
    | TimeoutExpired => (None, true)
    end in
  match proc with
  | Some (rc, out, err) => ret (rc, timeout, out, err)
  | None => raise (UnboundLocalError "proc")
  end.

(** [payload["files"][ext]["uri"]] *)
Definition file_uri (ext : string) : M string :=
  p <- get_payload ;;
  match files p !! ext with
  | Some f => ret (uri f)
  | None => raise (KeyError ext)
  end.

Definition base_parameters (result_dir : string) (p : payload)
  : list (string * string) :=
  [("out_dir", result_dir); ("unique_id", uuid p); ("climb", "");
   ("max_human_reads_before_rejection", "10000");
   ("k2_host", "10.1.185.58"); ("k2_port", "8080");
   ("db", "/shared/public/db/kraken2/k2_pluspf/")].

Definition execute_validation_pipeline (w : world) (result_dir : string)
    (ingest_pipe : pipeline) : M (Z * bool * string * string) :=
  p <- get_payload ;;
  let parameters := base_parameters result_dir p in
  parameters <-
    (if String.eqb (platform p) "ont" then
       u <- file_uri ".fastq.gz" ;;
       ret (dict_set "fastq" u parameters)
     else if String.eqb (platform p) "illumina" then
       u1 <- file_uri ".1.fastq.gz" ;;
       u2 <- file_uri ".2.fastq.gz" ;;
       ret (dict_set "paired" ""
              (dict_set "fastq2" u2 (dict_set "fastq1" u1 parameters)))
     else ret parameters) ;;
  execute w ingest_pipe parameters.

(** [for x in xs: acc = body(acc, x)] *)
Fixpoint for_each {A B} (body : B -> A -> M B) (xs : list A) (acc : B)
  : M B :=
  match xs with
  | [] => ret acc
  | x :: xs' => acc' <- body acc x ;; for_each body xs' acc'
  end.

(** [response.json()] *)
Definition json (r : response) : M json_body :=
  match resp_json r with
  | Some b => ret b
  | None => raise (OtherError "response body is not valid JSON")
  end.

(** The merge loop shared by the create and the update paths:
    [[
    for field, messages in response.json()["messages"].items():
        if payload["onyx_errors"].get(field):
            payload["onyx_errors"][field].extend(messages)
        else:
            payload["onyx_errors"][field] = messages
    ]] *)
Definition merge_field (errors : gmap string (list string))
    (entry : string * list string) : gmap string (list string) :=
  match errors !! entry.1 with
  | Some (m :: ms) => <[entry.1 := (m :: ms) ++ entry.2]> errors
  | _ => <[entry.1 := entry.2]> errors
  end.

Definition merge_messages (msgs : list (string * list string)) : M unit :=
  modify (fun p => set_onyx_errors (fold_left merge_field msgs (onyx_errors p)) p).

(** ** ret_0_parser *)

Definition human_reads_error : string :=
  "Human reads detected above rejection threshold, please ensure pre-upload dehumanisation has been performed properly".

Definition process_error (process : string) (trace : trace_row) : string :=
  "MScape validation pipeline (Scylla) failed in process " +:+ process
  +:+ " with exit code " +:+ tr_exit trace
  +:+ " and status " +:+ tr_status trace.

Definition trace_path (result_path uuid : string) : string :=
  path_join (path_join result_path "pipeline_info")
            ("execution_trace_" +:+ uuid +:+ ".txt").

(** [trace_dict[process["name"].split(":")[-1]] = process], row by row. *)
Definition build_trace_dict (rows : list trace_row)
  : list (string * trace_row) :=
  fold_left (fun d r => dict_set (last_segment (tr_name r)) r d) rows [].

(** The condition of the inner [if], with Python's precedence: [and] binds
    tighter than [or]. *)
Definition human_reads_condition (process : string) (trace : trace_row)
  : bool :=
  String.eqb process "extract_paired_reads"
  || (String.eqb process "extract_reads" && String.eqb (tr_exit trace) "2").

Definition check_process (ingest_fail : bool) (entry : string * trace_row)
  : M bool :=
  let '(process, trace) := entry in
  if negb (String.eqb (tr_exit trace) "0") then
    if human_reads_condition process trace then
      append_ingest_error human_reads_error ;; ret true
    else
      append_ingest_error (process_error process trace) ;; ret true
  else ret ingest_fail.

(** [trace_dict] is bound inside the [with] block, after [open] has
    succeeded. *)
Definition ret_0_parser (w : world) (message_site result_path : string)
    (ingest_fail : bool) : M bool :=
  p <- get_payload ;;
  let '(trace_dict, raised) :=
    match read_trace w (trace_path result_path (uuid p)) with
    | TraceOpenError e => (None, Some e)
    | TraceRows rows failure => (Some (build_trace_dict rows), failure)
    end in
  ingest_fail <-
    match raised with
    | Some _ =>
        append_ingest_error "couldn't open nxf ingest pipeline trace" ;;
        send_payload (results_exchange message_site) ;;
        ret true
    | None => ret ingest_fail
    end ;;
  match trace_dict with
  | Some d => for_each check_process d ingest_fail
  | None => raise (UnboundLocalError "trace_dict")
  end.

(** ** onyx_submission *)

Definition onyx_submission_params : list string :=
  ["log"; "payload"; "varys_client"].

(** [payload["files"][".csv"]] *)
Definition payload_file (ext : string) : M file_ref :=
  p <- get_payload ;;
  match files p !! ext with
  | Some f => ret f
  | None => raise (KeyError ext)
  end.

Definition fail_with_client_error (msg : string) : M unit :=
  assign "ingest_fail" true ;; assign_client_error msg.

(** The chain of [if]/[elif] on the status code.  Only the failing branches
    assign [ingest_fail]. *)
Definition create_dispatch (response : response) : M unit :=
  p <- get_payload ;;
  let sc := status_code response in
  if sc =? 500 then fail_with_client_error "Onyx internal server error"
  else if sc =? 422 then
    assign "ingest_fail" true ;;
    b <- json response ;;
    merge_messages (messages b)
  else if sc =? 404 then
    fail_with_client_error ("Project " +:+ project p +:+ " does not exist")
  else if sc =? 403 then
    fail_with_client_error "Bad fields in onyx create request"
  else if sc =? 401 then
    fail_with_client_error "Incorrect Onyx credentials"
  else if sc =? 400 then
    fail_with_client_error "Malformed onyx create request"
  else if sc =? 200 then
    fail_with_client_error "200 response status on onyx create (should be 201)"
  else if sc =? 201 then
    b <- json response ;;
    c <- match data_cid b with
         | Some c => ret c
         | None => raise (KeyError "cid")
         end ;;
    modify (set_onyx_create_status true) ;;
    modify (set_created true) ;;
    modify (set_cid (Some c))
  else
    fail_with_client_error
      ("Unhandled response status code " +:+ pretty sc +:+ " from Onyx create").

(** The body of the [try]: the create call (fetching the CSV included), the
    dispatch, and the send on failure. *)
Definition onyx_submission_try (w : world) : M unit :=
  p <- get_payload ;;
  csv <- payload_file ".csv" ;;
  emit (CsvCreate (project p) (uri csv) (etag csv)) ;;
  response <- lift_result (csv_create w (project p) (uri csv) (etag csv)) ;;
  modify (set_onyx_status_code (Some (status_code response))) ;;
  create_dispatch response ;;
  ingest_fail <- read "ingest_fail" ;;
  if ingest_fail : bool then
    p <- get_payload ;;
    match site_code p with
    | Some sc => send_payload (results_exchange sc)
    | None => raise (KeyError "site_code")
    end
  else ret tt.

Definition onyx_submission (w : world) : M bool :=
  in_new_frame (
    try_except any_Exception (onyx_submission_try w)
      (fun e => assign_client_error ("Unhandled client error " +:+ exn_str e)) ;;
    read "ingest_fail").

(** A call that passes its arguments by keyword. *)
Definition call_with_keywords {A} (name : string) (params kwargs : list string)
    (f : M A) : M A :=
  match unexpected_keyword params kwargs with
  | Some k =>
      raise (TypeError (name +:+ "() got an unexpected keyword argument '"
                        +:+ k +:+ "'"))
  | None => f
  end.

(** ** The publish operations *)

Definition reads_bucket : string := "mscapetest-published-reads".
Definition binned_reads_bucket : string := "mscapetest-published-binned-reads".
Definition reports_bucket : string := "mscapetest-published-reports".

(** [s3_client.upload_file(path, bucket, key)] *)
Definition upload (w : world) (path bucket key : string) : M unit :=
  emit (Upload path bucket key) ;;
  match upload_file w path bucket key with
  | None => ret tt
  | Some e => raise e
  end.

(** [client.update(project="mscapetest", cid=cid, fields=fields)] *)
Definition update (w : world) (cid : option string) (fields : update_fields)
  : M response :=
  emit (Update "mscapetest" cid fields) ;;
  lift_result (onyx_update w "mscapetest" cid fields).

(** The [try] around the update call in [add_taxon_records] and
    [push_report_file]. *)
Definition update_and_merge (w : world) (fields : update_fields) (fail : bool)
  : M bool :=
  try_except any_Exception
    (p <- get_payload ;;
     response <- update w (cid p) fields ;;
     if status_code response =? 200 then ret fail
     else
       b <- json response ;;
       merge_messages (messages b) ;;
       ret true)
    (fun e =>
       assign_client_error ("Unhandled client error " +:+ exn_str e) ;;
       ret true).

(** *** add_taxon_records *)

Definition new_taxon_dict (taxa : taxon_summary) : taxon_dict :=
  mkTaxonDict (ts_taxon_id taxa) (ts_human_readable taxa) (ts_num_reads taxa)
    (ts_avg_qual taxa) (ts_mean_len taxa) (ts_tax_level taxa) [].

Definition set_reads (k v : string) (d : taxon_dict) : taxon_dict :=
  mkTaxonDict (td_taxon_id d) (td_human_readable d) (td_n_reads d)
    (td_avg_quality d) (td_mean_len d) (td_tax_level d)
    (dict_set k v (td_reads d)).

Definition binned_upload_error (taxa : taxon_summary) : string :=
  "Failed to upload binned reads for taxon: " +:+ ts_taxon taxa
  +:+ " to storage bucket".

(** [taxa['filenames'][i]] *)
Definition filename (taxa : taxon_summary) (i : nat) : M string :=
  match ts_filenames taxa !! i with
  | Some f => ret f
  | None => raise (IndexError "list index out of range")
  end.

(** One turn of [for i in (1, 2)] on the illumina branch; its [continue]
    goes to the next [i]. *)
Definition binned_illumina_read (w : world) (result_path : string)
    (taxa : taxon_summary) (acc : taxon_dict * bool) (i : Z)
  : M (taxon_dict * bool) :=
  f <- filename taxa (Z.to_nat (i - 1)) ;;
  let fastq_path := path_join result_path ("reads_by_taxa/" +:+ f +:+ ".gz") in
  p <- get_payload ;;
  let key :=
    fmt_cid p +:+ "/" +:+ ts_taxon taxa +:+ "_" +:+ pretty i +:+ ".fastq.gz" in
  try_except is_ClientError
    (upload w fastq_path binned_reads_bucket key ;;
     ret (set_reads ("reads_" +:+ pretty i)
            ("s3://mscapetest-published-binned-reads/" +:+ key) acc.1,
          acc.2))
    (fun _ =>
       append_ingest_error (binned_upload_error taxa) ;;
       ret (acc.1, true)).

(** One turn of [for taxa in summary]; on the ont branch the [continue] of
    the handler skips [nested_records.append]. *)
Definition binned_taxon (w : world) (result_path : string)
    (acc : list taxon_dict * bool) (taxa : taxon_summary)
  : M (list taxon_dict * bool) :=
  let '(nested_records, binned_read_fail) := acc in
  let taxon_dict := new_taxon_dict taxa in
  p <- get_payload ;;
  if String.eqb (platform p) "illumina" then
    r <- for_each (binned_illumina_read w result_path taxa) [1; 2]
           (taxon_dict, binned_read_fail) ;;
    ret (nested_records ++ [r.1], r.2)
  else if String.eqb (platform p) "ont" then
    f <- filename taxa 0 ;;
    let fastq_path :=
      path_join result_path ("reads_by_taxa/" +:+ f +:+ ".gz") in
    let key := fmt_cid p +:+ "/" +:+ ts_taxon taxa +:+ ".fastq.gz" in
    try_except is_ClientError
      (upload w fastq_path binned_reads_bucket key ;;
       ret (nested_records
              ++ [set_reads "reads_1"
                    ("s3://mscapetest-published-binned-reads/" +:+ key)
                    taxon_dict],
            binned_read_fail))
      (fun _ =>
         append_ingest_error (binned_upload_error taxa) ;;
         ret (nested_records, true))
  else ret (nested_records ++ [taxon_dict], true).

Definition add_taxon_records (w : world) (result_path : string) : M bool :=
  summary <- lift_result
    (read_summary w (path_join result_path "reads_by_taxa/reads_summary.json")) ;;
  r <- for_each (binned_taxon w result_path) summary ([], false) ;;
  update_and_merge w (TaxaField r.1) r.2.

(** *** push_report_file *)

Definition report_path (result_path : string) (p : payload) : string :=
  path_join result_path (uuid p +:+ "_report.html").

Definition report_key (p : payload) : string :=
  fmt_cid p +:+ "_scylla_report.html".

Definition validation_report_uri (p : payload) : string :=
  "s3://mscapetest-published-reports/" +:+ fmt_cid p
  +:+ "_validation_report.html".

Definition push_report_file (w : world) (result_path : string) : M bool :=
  p <- get_payload ;;
  report_fail <-
    try_except is_ClientError
      (upload w (report_path result_path p) reports_bucket (report_key p) ;;
       ret false)
      (fun _ =>
         append_ingest_error "Failed to upload scylla report to storage bucket" ;;
         ret true) ;;
  p <- get_payload ;;
  update_and_merge w
    (StrFields [("validation_report", validation_report_uri p)]) report_fail.

(** *** add_reads_record *)

(** What [add_reads_record] hands back: the documented tuple, or the bare
    response of the update call. *)
Inductive reads_result :=
| ReadsTuple (raw_read_fail : bool)
| ReadsResponse (r : response).

Definition reads_upload_error : string :=
  "Failed to upload reads to storage bucket".

Definition raw_illumina_read (w : world) (result_path : string)
    (raw_read_fail : bool) (i : Z) : M bool :=
  p <- get_payload ;;
  let fastq_path :=
    path_join result_path
      ("preprocess/" +:+ uuid p +:+ "_" +:+ pretty i +:+ ".fastp.fastq.gz") in
  try_except is_ClientError
    (upload w fastq_path reads_bucket
       (fmt_cid p +:+ "_" +:+ pretty i +:+ ".fastq.gz") ;;
     ret raw_read_fail)
    (fun _ => append_ingest_error reads_upload_error ;; ret true).

(** [if not raw_read_fail:] and the [try] under it: the response is
    returned as it is, only [requests.HTTPError] is handled. *)
Definition link_reads (w : world) (cid : option string)
    (fields : update_fields) (raw_read_fail : bool) : M reads_result :=
  if negb raw_read_fail then
    try_except is_HTTPError
      (response <- update w cid fields ;; ret (ReadsResponse response))
      (fun _ => ret (ReadsTuple true))
  else ret (ReadsTuple raw_read_fail).

Definition add_reads_record (w : world) (cid : option string)
    (result_path : string) : M reads_result :=
  p <- get_payload ;;
  if String.eqb (platform p) "illumina" then
    raw_read_fail <- for_each (raw_illumina_read w result_path) [1; 2] false ;;
    p <- get_payload ;;
    link_reads w cid
      (StrFields
         [("reads_1", "s3://mscapetest-published-reads/" +:+ fmt_cid p
                       +:+ "_1.fastq.gz");
          ("reads_2", "s3://mscapetest-published-reads/" +:+ fmt_cid p
                       +:+ "_2.fastq.gz")])
      raw_read_fail
  else
    let fastq_path :=
      path_join result_path ("preprocess/" +:+ uuid p +:+ ".fastp.fastq.gz") in
    raw_read_fail <-
      try_except is_ClientError
        (upload w fastq_path reads_bucket (fmt_cid p +:+ ".fastq.gz") ;;
         ret false)
        (fun _ => append_ingest_error reads_upload_error ;; ret true) ;;
    p <- get_payload ;;
    link_reads w cid
      (StrFields
         [("reads_1", "s3://mscapetest-published-reads/" +:+ fmt_cid p
                       +:+ "_1.fastq.gz")])
      raw_read_fail.

(** [onyx_unsuppress] has no [return]: it yields [None]. *)
Definition onyx_unsuppress : M (option bool) := ret None.

(** ** run: one turn of the consumer loop *)

(** [raw_read_fail, payload = add_reads_record(...)].  A response is not a
    pair and unpacking it raises.  (A [requests] response iterates over its
    body in chunks, so the text of the error depends on the body; a body of
    exactly two chunks, which would bind both names to bytes, is not
    followed here.) *)
Definition unpack_reads_result (r : reads_result) : M bool :=
  match r with
  | ReadsTuple b => ret b
  | ReadsResponse _ =>
      raise (ValueError "too many values to unpack (expected 2)")
  end.

(** [unsuppress_fail, payload = onyx_unsuppress()] *)
Definition unpack_unsuppress (r : option bool) : M bool :=
  match r with
  | Some b => ret b
  | None => raise (TypeError "cannot unpack non-iterable NoneType object")
  end.

Definition send_if (b : bool) (exchange : string) : M unit :=
  if b then send_payload exchange else ret tt.

(** Lines 787 to 872: what follows a successful record creation. *)
Definition run_publish (w : world) (message_site result_path : string)
  : M unit :=
  let results := results_exchange message_site in
  p <- get_payload ;;
  r <- add_reads_record w (cid p) result_path ;;
  raw_read_fail <- unpack_reads_result r ;;
  send_if raw_read_fail results ;;
  binned_read_fail <- add_taxon_records w result_path ;;
  send_if binned_read_fail results ;;
  report_fail <- push_report_file w result_path ;;
  send_if report_fail results ;;
  if (raw_read_fail || binned_read_fail || report_fail)%bool then
    send_payload results
  else
    r <- onyx_unsuppress ;;
    unsuppress_fail <- unpack_unsuppress r ;;
    if unsuppress_fail : bool then send_payload results
    else
      modify (set_ingested true) ;;
      p <- get_payload ;;
      emit (Send "inbound.new_artifact.mscape"
              (NewArtifactBody (time_ns w) (cid p) (site p) (uuid p))) ;;
      send_payload results.

(** The body of [while True], from the project test on.  The state starts
    with the deep copy of the received body as its payload;
    [message_site] is what [message['site']] evaluates to.  Returning is
    reaching the next turn of the loop, by [continue] or by falling off the
    end. *)
Definition run_pass (w : world) (result_dir : string) (ingest_pipe : pipeline)
    (message_site : string) : M unit :=
  let results := results_exchange message_site in
  to_validate <- get_payload ;;
  if negb (String.eqb (project to_validate) "mscapetest") then ret tt
  else if negb (onyx_test_create_status to_validate) then send_payload results
  else
    r <- execute_validation_pipeline w result_dir ingest_pipe ;;
    let '(rc, timeout, stdout, stderr) := r in
    if timeout : bool then
      append_ingest_error "Validation pipeline timeout" ;;
      send_payload results
    else
      p <- get_payload ;;
      let result_path := path_join result_dir (uuid p) in
      emit (WriteFile (path_join result_path "nextflow.stdout") stdout) ;;
      emit (WriteFile (path_join result_path "nextflow.stderr") stderr) ;;
      if negb (rc =? 0) then
        append_ingest_error
          ("Scylla exited with non-0 exit code: " +:+ pretty rc) ;;
        send_payload results
      else
        ingest_fail <- ret_0_parser w message_site result_path false ;;
        p <- get_payload ;;
        if test_flag p then
          modify (set_test_ingest_result true) ;;
          send_payload results
        else
          ingest_fail <-
            call_with_keywords "onyx_submission" onyx_submission_params
              ["log"; "payload"; "varys_client"; "ingest_fail"]
              (onyx_submission w) ;;
          if ingest_fail : bool then send_payload results
          else run_publish w message_site result_path.

(** The pipeline object [run] builds. *)
Definition ingest_pipe (nxf_config : option string) (nxf_executable : string)
  : pipeline :=
  new_pipeline "snowy-leopard/scylla" nxf_config nxf_executable (Some "docker").

(** A pass over one received body. *)
Definition run_once (w : world) (result_dir : string)
    (nxf_config : option string) (nxf_executable message_site : string)
    (to_validate : payload) : result unit * state :=
  run_pass w result_dir (ingest_pipe nxf_config nxf_executable) message_site
    (mkState to_validate [] []).

(** The outcome messages of a pass: what was sent to the results exchange
    of the site. *)
Definition is_outcome (message_site : string) (e : event) : bool :=
  match e with
  | Send exchange _ => String.eqb exchange (results_exchange message_site)
  | _ => false
  end.

Definition outcome_messages (message_site : string) (st : state) : list event :=
  filter (fun e => is_outcome message_site e = true) (st_events st).

(** ** Growth of the error accumulators

    [accumulators_extended p p']: [ingest_errors] of [p] is an initial
    segment of that of [p'], and so is every list [onyx_errors] holds
    under a field other than the reserved bucket. *)

Definition accumulators_extended (p p' : payload) : Prop :=
  ingest_errors p `prefix_of` ingest_errors p'
  /\ forall field l,
       field <> onyx_client_errors ->
       onyx_errors p !! field = Some l ->
       exists l', onyx_errors p' !! field = Some l' /\ l `prefix_of` l'.

(** A payload that is sent extends [p0]; other events are of no concern. *)
Definition sent_extends (p0 : payload) (e : event) : Prop :=
  match e with
  | Send _ (PayloadBody p) => accumulators_extended p0 p
  | _ => True
  end.

(** [st'] comes after [st]: events were only added, and the payload of
    [st'] as well as every payload sent in between extends that of [st]. *)
Definition extends (st st' : state) : Prop :=
  accumulators_extended (st_payload st) (st_payload st')
  /\ exists new,
       st_events st' = st_events st ++ new
       /\ Forall (sent_extends (st_payload st)) new.

Definition monotone {A} (m : M A) : Prop :=
  forall st, extends st (m st).2.

(** ** The stages over any store

    What a stage needs of the state it runs in: the payload, a way to write
    it, the event log, the locals and the frames.  [Generic] holds the
    stages word for word, over any such store.  Run in [plain] they are the
    definitions above; run in [journaling] they keep, besides the state, a
    journal of every write to the payload and every event, in the order in
    which they happened. *)

Record store (St : Type) := mkStore {
  payload_of : St -> payload;
  write_payload : (payload -> payload) -> St -> St;
  log_event : event -> St -> St;
  bind_local : string -> bool -> St -> St;
  local_of : string -> St -> option bool;
  enter_frame : St -> St;
  leave_frame : St -> St -> St
}.

Arguments payload_of {St} _ _.
Arguments write_payload {St} _ _ _.
Arguments log_event {St} _ _ _.
Arguments bind_local {St} _ _ _ _.
Arguments local_of {St} _ _ _.
Arguments enter_frame {St} _ _.
Arguments leave_frame {St} _ _ _.

Module Generic.

Section Store.

Context {St : Type} (S : store St).

Definition M (A : Type) : Type := St -> result A * St.

Definition ret {A} (a : A) : M A := fun st => (Ret a, st).

Definition raise {A} (e : exn) : M A := fun st => (Raise e, st).

Definition bind {A B} (m : M A) (k : A -> M B) : M B :=
  fun st =>
    match m st with
    | (Ret a, st') => k a st'
    | (Raise e, st') => (Raise e, st')
    end.

Declare Scope store_scope.
Notation "x <- m ;; k" := (bind m (fun x => k))
  (at level 100, m at next level, right associativity) : store_scope.
Notation "m ;; k" := (bind m (fun _ => k))
  (at level 100, right associativity) : store_scope.
Local Open Scope store_scope.

Definition get_payload : M payload := fun st => (Ret (payload_of S st), st).

Definition modify (f : payload -> payload) : M unit :=
  fun st => (Ret tt, write_payload S f st).

Definition emit (e : event) : M unit :=
  fun st => (Ret tt, log_event S e st).

Definition assign (x : string) (b : bool) : M unit :=
  fun st => (Ret tt, bind_local S x b st).

Definition read (x : string) : M bool :=
  fun st =>
    match local_of S x st with
    | Some b => (Ret b, st)
    | None => (Raise (UnboundLocalError x), st)
    end.

Definition in_new_frame {A} (body : M A) : M A :=
  fun st =>
    let '(r, st') := body (enter_frame S st) in
    (r, leave_frame S st st').

Definition lift_result {A} (r : result A) : M A := fun st => (r, st).

Definition try_except {A} (catches : exn -> bool) (body : M A)
    (handler : exn -> M A) : M A :=
  fun st =>
    match body st with
    | (Raise e, st') => if catches e then handler e st' else (Raise e, st')
    | r => r
    end.

Definition append_ingest_error (msg : string) : M unit :=
  modify (fun p => set_ingest_errors (ingest_errors p ++ [msg]) p).

Definition assign_client_error (msg : string) : M unit :=
  modify (fun p =>
    set_onyx_errors (<[onyx_client_errors := [msg]]> (onyx_errors p)) p).

Definition send_payload (exchange : string) : M unit :=
  p <- get_payload ;; emit (Send exchange (PayloadBody p)).

Definition execute (w : world) (self : pipeline)
    (params : list (string * string)) : M (Z * bool * string * string) :=
  let cmd := build_cmd self params in
  emit (Subprocess cmd (timeout_seconds self)) ;;
  let '(proc, timeout) :=
    match subprocess_run w cmd (timeout_seconds self) with
    | Completed rc out err => (Some (rc, out, err), false)
    | TimeoutExpired => (None, true)
    end in
  match proc with
  | Some (rc, out, err) => ret (rc, timeout, out, err)
  | None => raise (UnboundLocalError "proc")
  end.

Definition file_uri (ext : string) : M string :=
  p <- get_payload ;;
  match files p !! ext with
  | Some f => ret (uri f)
  | None => raise (KeyError ext)
  end.

Definition execute_validation_pipeline (w : world) (result_dir : string)
    (ingest_pipe : pipeline) : M (Z * bool * string * string) :=
  p <- get_payload ;;
  let parameters := base_parameters result_dir p in
  parameters <-
    (if String.eqb (platform p) "ont" then
       u <- file_uri ".fastq.gz" ;;
       ret (dict_set "fastq" u parameters)
     else if String.eqb (platform p) "illumina" then
       u1 <- file_uri ".1.fastq.gz" ;;
       u2 <- file_uri ".2.fastq.gz" ;;
       ret (dict_set "paired" ""
              (dict_set "fastq2" u2 (dict_set "fastq1" u1 parameters)))
     else ret parameters) ;;
  execute w ingest_pipe parameters.

Fixpoint for_each {A B} (body : B -> A -> M B) (xs : list A) (acc : B)
  : M B :=
  match xs with
  | [] => ret acc
  | x :: xs' => acc' <- body acc x ;; for_each body xs' acc'
  end.

Definition json (r : response) : M json_body :=
  match resp_json r with
  | Some b => ret b
  | None => raise (OtherError "response body is not valid JSON")
  end.

Definition merge_messages (msgs : list (string * list string)) : M unit :=
  modify (fun p => set_onyx_errors (fold_left merge_field msgs (onyx_errors p)) p).

Definition check_process (ingest_fail : bool) (entry : string * trace_row)
  : M bool :=
  let '(process, trace) := entry in
  if negb (String.eqb (tr_exit trace) "0") then
    if human_reads_condition process trace then
      append_ingest_error human_reads_error ;; ret true
    else
      append_ingest_error (process_error process trace) ;; ret true
  else ret ingest_fail.

Definition ret_0_parser (w : world) (message_site result_path : string)
    (ingest_fail : bool) : M bool :=
  p <- get_payload ;;
  let '(trace_dict, raised) :=
    match read_trace w (trace_path result_path (uuid p)) with
    | TraceOpenError e => (None, Some e)
    | TraceRows rows failure => (Some (build_trace_dict rows), failure)
    end in
  ingest_fail <-
    match raised with
    | Some _ =>
        append_ingest_error "couldn't open nxf ingest pipeline trace" ;;
        send_payload (results_exchange message_site) ;;
        ret true
    | None => ret ingest_fail
    end ;;
  match trace_dict with
  | Some d => for_each check_process d ingest_fail
  | None => raise (UnboundLocalError "trace_dict")
  end.

Definition payload_file (ext : string) : M file_ref :=
  p <- get_payload ;;
  match files p !! ext with
  | Some f => ret f
  | None => raise (KeyError ext)
  end.

Definition fail_with_client_error (msg : string) : M unit :=
  assign "ingest_fail" true ;; assign_client_error msg.

Definition create_dispatch (response : response) : M unit :=
  p <- get_payload ;;
  let sc := status_code response in
  if sc =? 500 then fail_with_client_error "Onyx internal server error"
  else if sc =? 422 then
    assign "ingest_fail" true ;;
    b <- json response ;;
    merge_messages (messages b)
  else if sc =? 404 then
    fail_with_client_error ("Project " +:+ project p +:+ " does not exist")
  else if sc =? 403 then
    fail_with_client_error "Bad fields in onyx create request"
  else if sc =? 401 then
    fail_with_client_error "Incorrect Onyx credentials"
  else if sc =? 400 then
    fail_with_client_error "Malformed onyx create request"
  else if sc =? 200 then
    fail_with_client_error "200 response status on onyx create (should be 201)"
  else if sc =? 201 then
    b <- json response ;;
    c <- match data_cid b with
         | Some c => ret c
         | None => raise (KeyError "cid")
         end ;;
    modify (set_onyx_create_status true) ;;
    modify (set_created true) ;;
    modify (set_cid (Some c))
  else
    fail_with_client_error
      ("Unhandled response status code " +:+ pretty sc +:+ " from Onyx create").

Definition onyx_submission_try (w : world) : M unit :=
  p <- get_payload ;;
  csv <- payload_file ".csv" ;;
  emit (CsvCreate (project p) (uri csv) (etag csv)) ;;
  response <- lift_result (csv_create w (project p) (uri csv) (etag csv)) ;;
  modify (set_onyx_status_code (Some (status_code response))) ;;
  create_dispatch response ;;
  ingest_fail <- read "ingest_fail" ;;
  if ingest_fail : bool then
    p <- get_payload ;;
    match site_code p with
    | Some sc => send_payload (results_exchange sc)
    | None => raise (KeyError "site_code")
    end
  else ret tt.

Definition onyx_submission (w : world) : M bool :=
  in_new_frame (
    try_except any_Exception (onyx_submission_try w)
      (fun e => assign_client_error ("Unhandled client error " +:+ exn_str e)) ;;
    read "ingest_fail").

Definition call_with_keywords {A} (name : string) (params kwargs : list string)
    (f : M A) : M A :=
  match unexpected_keyword params kwargs with
  | Some k =>
      raise (TypeError (name +:+ "() got an unexpected keyword argument '"
                        +:+ k +:+ "'"))
  | None => f
  end.

Definition upload (w : world) (path bucket key : string) : M unit :=
  emit (Upload path bucket key) ;;
  match upload_file w path bucket key with
  | None => ret tt
  | Some e => raise e
  end.

Definition update (w : world) (cid : option string) (fields : update_fields)
  : M response :=
  emit (Update "mscapetest" cid fields) ;;
  lift_result (onyx_update w "mscapetest" cid fields).

Definition update_and_merge (w : world) (fields : update_fields) (fail : bool)
  : M bool :=
  try_except any_Exception
    (p <- get_payload ;;
     response <- update w (cid p) fields ;;
     if status_code response =? 200 then ret fail
     else
       b <- json response ;;
       merge_messages (messages b) ;;
       ret true)
    (fun e =>
       assign_client_error ("Unhandled client error " +:+ exn_str e) ;;
       ret true).

Definition filename (taxa : taxon_summary) (i : nat) : M string :=
  match ts_filenames taxa !! i with
  | Some f => ret f
  | None => raise (IndexError "list index out of range")
  end.

Definition binned_illumina_read (w : world) (result_path : string)
    (taxa : taxon_summary) (acc : taxon_dict * bool) (i : Z)
  : M (taxon_dict * bool) :=
  f <- filename taxa (Z.to_nat (i - 1)) ;;
  let fastq_path := path_join result_path ("reads_by_taxa/" +:+ f +:+ ".gz") in
  p <- get_payload ;;
  let key :=
    fmt_cid p +:+ "/" +:+ ts_taxon taxa +:+ "_" +:+ pretty i +:+ ".fastq.gz" in
  try_except is_ClientError
    (upload w fastq_path binned_reads_bucket key ;;
     ret (set_reads ("reads_" +:+ pretty i)
            ("s3://mscapetest-published-binned-reads/" +:+ key) acc.1,
          acc.2))
    (fun _ =>
       append_ingest_error (binned_upload_error taxa) ;;
       ret (acc.1, true)).

Definition binned_taxon (w : world) (result_path : string)
    (acc : list taxon_dict * bool) (taxa : taxon_summary)
  : M (list taxon_dict * bool) :=
  let '(nested_records, binned_read_fail) := acc in
  let taxon_dict := new_taxon_dict taxa in
  p <- get_payload ;;
  if String.eqb (platform p) "illumina" then
    r <- for_each (binned_illumina_read w result_path taxa) [1; 2]
           (taxon_dict, binned_read_fail) ;;
    ret (nested_records ++ [r.1], r.2)
  else if String.eqb (platform p) "ont" then
    f <- filename taxa 0 ;;
    let fastq_path :=
      path_join result_path ("reads_by_taxa/" +:+ f +:+ ".gz") in
    let key := fmt_cid p +:+ "/" +:+ ts_taxon taxa +:+ ".fastq.gz" in
    try_except is_ClientError
      (upload w fastq_path binned_reads_bucket key ;;
       ret (nested_records
              ++ [set_reads "reads_1"
                    ("s3://mscapetest-published-binned-reads/" +:+ key)
                    taxon_dict],
            binned_read_fail))
      (fun _ =>
         append_ingest_error (binned_upload_error taxa) ;;
         ret (nested_records, true))
  else ret (nested_records ++ [taxon_dict], true).

Definition add_taxon_records (w : world) (result_path : string) : M bool :=
  summary <- lift_result
    (read_summary w (path_join result_path "reads_by_taxa/reads_summary.json")) ;;
  r <- for_each (binned_taxon w result_path) summary ([], false) ;;
  update_and_merge w (TaxaField r.1) r.2.

Definition push_report_file (w : world) (result_path : string) : M bool :=
  p <- get_payload ;;
  report_fail <-
    try_except is_ClientError
      (upload w (report_path result_path p) reports_bucket (report_key p) ;;
       ret false)
      (fun _ =>
         append_ingest_error "Failed to upload scylla report to storage bucket" ;;
         ret true) ;;
  p <- get_payload ;;
  update_and_merge w
    (StrFields [("validation_report", validation_report_uri p)]) report_fail.

Definition raw_illumina_read (w : world) (result_path : string)
    (raw_read_fail : bool) (i : Z) : M bool :=
  p <- get_payload ;;
  let fastq_path :=
    path_join result_path
      ("preprocess/" +:+ uuid p +:+ "_" +:+ pretty i +:+ ".fastp.fastq.gz") in
  try_except is_ClientError
    (upload w fastq_path reads_bucket
       (fmt_cid p +:+ "_" +:+ pretty i +:+ ".fastq.gz") ;;
     ret raw_read_fail)
    (fun _ => append_ingest_error reads_upload_error ;; ret true).

Definition link_reads (w : world) (cid : option string)
    (fields : update_fields) (raw_read_fail : bool) : M reads_result :=
  if negb raw_read_fail then
    try_except is_HTTPError
      (response <- update w cid fields ;; ret (ReadsResponse response))
      (fun _ => ret (ReadsTuple true))
  else ret (ReadsTuple raw_read_fail).

Definition add_reads_record (w : world) (cid : option string)
    (result_path : string) : M reads_result :=
  p <- get_payload ;;
  if String.eqb (platform p) "illumina" then
    raw_read_fail <- for_each (raw_illumina_read w result_path) [1; 2] false ;;
    p <- get_payload ;;
    link_reads w cid
      (StrFields
         [("reads_1", "s3://mscapetest-published-reads/" +:+ fmt_cid p
                       +:+ "_1.fastq.gz");
          ("reads_2", "s3://mscapetest-published-reads/" +:+ fmt_cid p
                       +:+ "_2.fastq.gz")])
      raw_read_fail
  else
    let fastq_path :=
      path_join result_path ("preprocess/" +:+ uuid p +:+ ".fastp.fastq.gz") in
    raw_read_fail <-
      try_except is_ClientError
        (upload w fastq_path reads_bucket (fmt_cid p +:+ ".fastq.gz") ;;
         ret false)
        (fun _ => append_ingest_error reads_upload_error ;; ret true) ;;
    p <- get_payload ;;
    link_reads w cid
      (StrFields
         [("reads_1", "s3://mscapetest-published-reads/" +:+ fmt_cid p
                       +:+ "_1.fastq.gz")])
      raw_read_fail.

Definition onyx_unsuppress : M (option bool) := ret None.

Definition unpack_reads_result (r : reads_result) : M bool :=
  match r with
  | ReadsTuple b => ret b
  | ReadsResponse _ =>
      raise (ValueError "too many values to unpack (expected 2)")
  end.

Definition unpack_unsuppress (r : option bool) : M bool :=
  match r with
  | Some b => ret b
  | None => raise (TypeError "cannot unpack non-iterable NoneType object")
  end.

Definition send_if (b : bool) (exchange : string) : M unit :=
  if b then send_payload exchange else ret tt.

Definition run_publish (w : world) (message_site result_path : string)
  : M unit :=
  let results := results_exchange message_site in
  p <- get_payload ;;
  r <- add_reads_record w (cid p) result_path ;;
  raw_read_fail <- unpack_reads_result r ;;
  send_if raw_read_fail results ;;
  binned_read_fail <- add_taxon_records w result_path ;;
  send_if binned_read_fail results ;;
  report_fail <- push_report_file w result_path ;;
  send_if report_fail results ;;
  if (raw_read_fail || binned_read_fail || report_fail)%bool then
    send_payload results
  else
    r <- onyx_unsuppress ;;
    unsuppress_fail <- unpack_unsuppress r ;;
    if unsuppress_fail : bool then send_payload results
    else
      modify (set_ingested true) ;;
      p <- get_payload ;;
      emit (Send "inbound.new_artifact.mscape"
              (NewArtifactBody (time_ns w) (cid p) (site p) (uuid p))) ;;
      send_payload results.

Definition run_pass (w : world) (result_dir : string) (ingest_pipe : pipeline)
    (message_site : string) : M unit :=
  let results := results_exchange message_site in
  to_validate <- get_payload ;;
  if negb (String.eqb (project to_validate) "mscapetest") then ret tt
  else if negb (onyx_test_create_status to_validate) then send_payload results
  else
    r <- execute_validation_pipeline w result_dir ingest_pipe ;;
    let '(rc, timeout, stdout, stderr) := r in
    if timeout : bool then
      append_ingest_error "Validation pipeline timeout" ;;
      send_payload results
    else
      p <- get_payload ;;
      let result_path := path_join result_dir (uuid p) in
      emit (WriteFile (path_join result_path "nextflow.stdout") stdout) ;;
      emit (WriteFile (path_join result_path "nextflow.stderr") stderr) ;;
      if negb (rc =? 0) then
        append_ingest_error
          ("Scylla exited with non-0 exit code: " +:+ pretty rc) ;;
        send_payload results
      else
        ingest_fail <- ret_0_parser w message_site result_path false ;;
        p <- get_payload ;;
        if test_flag p then
          modify (set_test_ingest_result true) ;;
          send_payload results
        else
          ingest_fail <-
            call_with_keywords "onyx_submission" onyx_submission_params
              ["log"; "payload"; "varys_client"; "ingest_fail"]
              (onyx_submission w) ;;
          if ingest_fail : bool then send_payload results
          else run_publish w message_site result_path.

End Store.

Arguments M St A : clear implicits.

End Generic.

(** The state of the model as a store. *)
Definition plain : store state := {|
  payload_of := st_payload;
  write_payload f st := mkState (f (st_payload st)) (st_events st) (st_frame st);
  log_event e st := mkState (st_payload st) (st_events st ++ [e]) (st_frame st);
  bind_local x b st :=
    mkState (st_payload st) (st_events st) (dict_set x b (st_frame st));
  local_of x st := dict_get x (st_frame st);
  enter_frame st := mkState (st_payload st) (st_events st) [];
  leave_frame st st' := mkState (st_payload st') (st_events st') (st_frame st)
|}.

(** An entry of the journal: the payload as a write left it, or an event. *)
Inductive entry :=
  | Wrote (p : payload)
  | Logged (e : event).

Record journaled := mkJournaled {
  j_state : state;
  j_journal : list entry
}.

(** The state with a journal: a write and an event are entered in the
    journal as they happen; nothing else touches it. *)
Definition journaling : store journaled := {|
  payload_of js := st_payload (j_state js);
  write_payload f js :=
    mkJournaled (write_payload plain f (j_state js))
      (j_journal js ++ [Wrote (f (st_payload (j_state js)))]);
  log_event e js :=
    mkJournaled (log_event plain e (j_state js)) (j_journal js ++ [Logged e]);
  bind_local x b js :=
    mkJournaled (bind_local plain x b (j_state js)) (j_journal js);
  local_of x js := local_of plain x (j_state js);
  enter_frame js := mkJournaled (enter_frame plain (j_state js)) (j_journal js);
  leave_frame js js' :=
    mkJournaled (leave_frame plain (j_state js) (j_state js')) (j_journal js')
|}.

(** The events of a journal, in order. *)
Definition logged (j : list entry) : list event :=
  omap (fun x => match x with Logged e => Some e | Wrote _ => None end) j.

(** The payloads the writes of a journal left, in order. *)
Definition written (j : list entry) : list payload :=
  omap (fun x => match x with Wrote p => Some p | Logged _ => None end) j.

(** A payload that is sent is the payload as it stands. *)
Definition sent_as_is (p : payload) (e : event) : Prop :=
  match e with
  | Send _ (PayloadBody q) => q = p
  | _ => True
  end.

(** [account p j p']: the journal [j] leads from the payload [p] to [p'],
    write by write: each write extends the payload it finds, each payload
    sent is the payload as the writes before it left it, and [p'] is what
    the last write left. *)
Fixpoint account (p : payload) (j : list entry) (p' : payload) : Prop :=
  match j with
  | [] => p' = p
  | Wrote q :: j => accumulators_extended p q /\ account q j p'
  | Logged e :: j => sent_as_is p e /\ account p j p'
  end.

(** [mj], a stage run with the journal, does what [m] does to the state,
    and its journal accounts for it: the events [m] adds are those of the
    journal, and the journal leads from the payload before to the payload
    after. *)
Definition accounted {A} (mj : Generic.M journaled A) (m : M A) : Prop :=
  forall js,
    m (j_state js) = ((mj js).1, j_state (mj js).2)
    /\ exists new,
         j_journal (mj js).2 = j_journal js ++ new
         /\ st_events (j_state (mj js).2) = st_events (j_state js) ++ logged new
         /\ account (st_payload (j_state js)) new
              (st_payload (j_state (mj js).2)).

(** ** Scenarios

    A world in which nothing goes wrong, ways to make one collaborator
    misbehave, and payloads as the upstream matcher sends them. *)

Definition calm_world : world :=
  mkWorld
    (fun _ _ => Completed 0 "" "")
    (fun _ => TraceRows [] None)
    (fun _ _ _ => Ret (mkResponse 201 (Some (mkJsonBody [] (Some "C-123")))))
    (fun _ _ _ => None)
    (fun _ _ _ => Ret (mkResponse 200 None))
    (fun _ => Ret [])
    1700000000000000000.

Definition with_subprocess (o : subprocess_outcome) (w : world) : world :=
  mkWorld (fun _ _ => o) (read_trace w) (csv_create w) (upload_file w)
    (onyx_update w) (read_summary w) (time_ns w).

Definition with_trace (t : trace_outcome) (w : world) : world :=
  mkWorld (subprocess_run w) (fun _ => t) (csv_create w) (upload_file w)
    (onyx_update w) (read_summary w) (time_ns w).

Definition with_create (r : result response) (w : world) : world :=
  mkWorld (subprocess_run w) (read_trace w) (fun _ _ _ => r) (upload_file w)
    (onyx_update w) (read_summary w) (time_ns w).

Definition with_upload (f : string -> string -> string -> option exn)
    (w : world) : world :=
  mkWorld (subprocess_run w) (read_trace w) (csv_create w) f
    (onyx_update w) (read_summary w) (time_ns w).

Definition with_update
    (f : string -> option string -> update_fields -> result response)
    (w : world) : world :=
  mkWorld (subprocess_run w) (read_trace w) (csv_create w) (upload_file w)
    f (read_summary w) (time_ns w).

Definition ont_files : gmap string file_ref :=
  <[".fastq.gz" := mkFileRef "s3://mscape-birm-ont-prod/run1.fastq.gz" "e1"]>
    (<[".csv" := mkFileRef "s3://mscape-birm-ont-prod/run1.csv" "e0"]> ∅).

(** The payload template of [run], filled in for an ont artifact of
    project mscapetest that passed the preliminary test create. *)
Definition ont_payload (test_flag : bool) : payload :=
  mkPayload "uuid-1" "mscapetest.run1" "mscapetest" "birm" (Some "birm")
    "ont" ont_files None false false true None ∅ false [] test_flag false.

(** An artifact of a platform the validator does not know. *)
Definition pacbio_payload : payload :=
  mkPayload "uuid-2" "mscapetest.run2" "mscapetest" "birm" (Some "birm")
    "pacbio" ont_files None false false true None ∅ false [] true false.

(** The first artifact after a create answered 201, on the given
    platform. *)
Definition created_payload (platform : string) : payload :=
  mkPayload "uuid-1" "mscapetest.run1" "mscapetest" "birm" (Some "birm")
    platform ont_files (Some "C-123") true false true (Some 201) ∅ true []
    false false.

Definition start (p : payload) : state := mkState p [] [].

(** ** Invariants of a stage

    [keeps R E m]: from any state, [m] takes the payload to one related to
    it by [R], whether it returns or raises, and only adds events, each of
    which satisfies [E] relative to the payload [m] started from. *)

Definition keeps (R : payload -> payload -> Prop)
    (E : payload -> event -> Prop) {A} (m : M A) : Prop :=
  forall st,
    R (st_payload st) (st_payload (m st).2)
    /\ exists new,
         st_events (m st).2 = st_events st ++ new
         /\ Forall (E (st_payload st)) new.

(** The fields that say which artifact a payload is about, and the two
    flags the upstream matcher sets. *)
Definition same_identity (p p' : payload) : Prop :=
  uuid p' = uuid p /\ artifact p' = artifact p /\ project p' = project p
  /\ site p' = site p /\ site_code p' = site_code p
  /\ platform p' = platform p /\ files p' = files p
  /\ onyx_test_create_status p' = onyx_test_create_status p
  /\ test_flag p' = test_flag p.

(** A payload that is sent is about the artifact of [p0]. *)
Definition carries_identity (p0 : payload) (e : event) : Prop :=
  match e with
  | Send _ (PayloadBody p) => same_identity p0 p
  | _ => True
  end.

(** What the record store and the publish stage write on the payload. *)
Definition record_untouched (p p' : payload) : Prop :=
  cid p' = cid p /\ created p' = created p /\ ingested p' = ingested p
  /\ onyx_status_code p' = onyx_status_code p
  /\ onyx_errors p' = onyx_errors p
  /\ onyx_create_status p' = onyx_create_status p.

(** Events that touch neither Onyx nor S3: the subprocess, the two files
    with its output, and payloads sent to the results exchange of the
    site. *)
Definition local_event (message_site : string) (p0 : payload) (e : event)
  : Prop :=
  match e with
  | Subprocess _ _ | WriteFile _ _ => True
  | Send exchange (PayloadBody _) => exchange = results_exchange message_site
  | _ => False
  end.

Definition same_ingested (p p' : payload) : Prop := ingested p' = ingested p.

Definition not_new_artifact (p0 : payload) (e : event) : Prop :=
  match e with
  | Send _ (NewArtifactBody _ _ _ _) => False
  | _ => True
  end.

(** ** Reading the trace dict *)

Fixpoint contains_colon (s : string) : bool :=
  match s with
  | EmptyString => false
  | String c s' => Ascii.eqb c ":"%char || contains_colon s'
  end.

(** An entry of the trace dict that [ret_0_parser] reports, and the reason
    it appends for it. *)
Definition row_failed (entry : string * trace_row) : bool :=
  negb (String.eqb (tr_exit entry.2) "0").

Definition row_reason (entry : string * trace_row) : string :=
  if human_reads_condition entry.1 entry.2 then human_reads_error
  else process_error entry.1 entry.2.

(** ** The publish operations, taxon by taxon *)

(** Where [add_taxon_records] puts the reads of a taxon of an ont
    artifact. *)
Definition ont_taxon_path (result_path : string) (taxa : taxon_summary)
  : string :=
  path_join result_path
    ("reads_by_taxa/" +:+ default "" (ts_filenames taxa !! 0%nat) +:+ ".gz").

Definition ont_taxon_key (p : payload) (taxa : taxon_summary) : string :=
  fmt_cid p +:+ "/" +:+ ts_taxon taxa +:+ ".fastq.gz".

Definition ont_taxon_uploaded (w : world) (result_path : string) (p : payload)
    (taxa : taxon_summary) : bool :=
  match upload_file w (ont_taxon_path result_path taxa) binned_reads_bucket
          (ont_taxon_key p taxa) with
  | None => true
  | Some _ => false
  end.

Definition ont_taxon_record (p : payload) (taxa : taxon_summary)
  : taxon_dict :=
  set_reads "reads_1"
    ("s3://mscapetest-published-binned-reads/" +:+ ont_taxon_key p taxa)
    (new_taxon_dict taxa).

(** What a nested record says about the taxon, its reads apart. *)
Definition td_metrics (d : taxon_dict)
  : string * string * string * string * string * string :=
  (td_taxon_id d, td_human_readable d, td_n_reads d, td_avg_quality d,
   td_mean_len d, td_tax_level d).

(** S3 fails with [ClientError] only. *)
Definition only_client_errors (w : world) : Prop :=
  forall path bucket key e,
    upload_file w path bucket key = Some e -> is_ClientError e = true.

(** ** roz/utils.py *)

Module Utils.

Record s3_credentials := mkCredentials {
  access_key : string;
  secret_key : string;
  endpoint : string;
  region : string;
  profile_name : string
}.

(** The attributes of [args] that [get_credentials] reads; [None] is
    Python's [None]. *)
Record cli_args := mkArgs {
  arg_profile : option string;
  arg_access_key : option string;
  arg_secret_key : option string
}.

(** What the function asks of its surroundings: whether
    [~/.aws/credentials] can be opened and parsed, the truth value of the
    parser, what [credential_file[profile][option]] evaluates to, the
    process environment, and, for [s3_to_fh], the S3 client. *)
Record environment := mkEnvironment {
  read_file : option exn;
  parser_truthy : bool;
  file_option : string -> string -> result string;
  getenv : string -> option string;
  make_client : s3_credentials -> option exn;
  get_object : string -> string -> result string
}.

(** [sys.exit] besides returning and raising. *)
Inductive outcome (A : Type) :=
| Returns (a : A)
| Exits (code : Z)
| Raises (e : exn).
Arguments Returns {A} a.
Arguments Exits {A} code.
Arguments Raises {A} e.

(** Truth value of a string or [None]. *)
Definition truthy (s : option string) : bool :=
  match s with
  | Some (String _ _) => true
  | _ => false
  end.

(** [if v: x = v] *)
Definition override (v x : option string) : option string :=
  if truthy v then v else x.

(** [args.profile], or "default" when there are no arguments or the
    profile is not given. *)
Definition chosen_profile (args : option cli_args) : string :=
  match args with
  | Some a =>
      if negb (truthy (arg_profile a)) then "default"
      else default "" (arg_profile a)
  | None => "default"
  end.

(** The two options read from the file, when the parser is truthy. *)
Definition from_file (env : environment) (profile : string)
  : result (option string * option string) :=
  if parser_truthy env then
    match file_option env profile "aws_access_key_id" with
    | Raise e => Raise e
    | Ret a =>
        match file_option env profile "aws_secret_access_key" with
        | Raise e => Raise e
        | Ret s => Ret (Some a, Some s)
        end
    end
  else Ret (None, None).

Definition get_credentials (env : environment) (args : option cli_args)
  : outcome s3_credentials :=
  match read_file env with
  | Some e => Raises e
  | None =>
      let profile := chosen_profile args in
      match from_file env profile with
      | Raise e => Raises e
      | Ret (access_key, secret_key) =>
          let access_key := override (getenv env "AWS_ACCESS_KEY_ID") access_key in
          let secret_key :=
            override (getenv env "AWS_SECRET_ACCESS_KEY") secret_key in
          let access_key :=
            match args with
            | Some a => override (arg_access_key a) access_key
            | None => access_key
            end in
          let secret_key :=
            match args with
            | Some a => override (arg_secret_key a) secret_key
            | None => secret_key
            end in
          match access_key with
          | None => Raises (UnboundLocalError "access_key")
          | Some "" => Exits 1
          | Some ak =>
              match secret_key with
              | None => Raises (UnboundLocalError "secret_key")
              | Some "" => Exits 1
              | Some sk =>
                  Returns
                    (mkCredentials ak sk "https://s3.climb.ac.uk" "s3" profile)
              end
          end
      end
  end.

(** [s.replace("s3://", "")]: every occurrence is removed, scanning from
    the left. *)
Fixpoint strip_scheme (s : string) : string :=
  match s with
  | String "s" (String "3" (String ":" (String "/" (String "/" rest)))) =>
      strip_scheme rest
  | String c s' => String c (strip_scheme s')
  | EmptyString => EmptyString
  end.

(** [s.split("/")[0]] *)
Fixpoint before_slash (s : string) : string :=
  match s with
  | EmptyString => EmptyString
  | String c s' =>
      if Ascii.eqb c "/"%char then EmptyString else String c (before_slash s')
  end.

(** [s.split("/", 1)[1]], if there is a slash. *)
Fixpoint after_slash (s : string) : option string :=
  match s with
  | EmptyString => None
  | String c s' => if Ascii.eqb c "/"%char then Some s' else after_slash s'
  end.

Fixpoint contains_slash (s : string) : bool :=
  match s with
  | EmptyString => false
  | String c s' => Ascii.eqb c "/"%char || contains_slash s'
  end.

Definition s3_to_fh (env : environment) (s3_uri : string) : outcome string :=
  match get_credentials env None with
  | Exits code => Exits code
  | Raises e => Raises e
  | Returns s3_credentials =>
      let bucket := before_slash (strip_scheme s3_uri) in
      match after_slash (strip_scheme s3_uri) with
      | None => Raises (IndexError "list index out of range")
      | Some key =>
          match make_client env s3_credentials with
          | Some e => Raises e
          | None =>
              match get_object env bucket key with
              | Raise e => Raises e
              | Ret content => Returns content
              end
          end
      end
  end.

End Utils.

(** * Properties *)

(** ** C1: the number of outcome messages of a pass *)

Lemma check_process_appends (b : bool) (entry : string * trace_row)
    (st : state) :
  exists (b' : bool) (errs : list string),
    check_process b entry st
    = (Ret b',
       mkState
         (set_ingest_errors (ingest_errors (st_payload st) ++ errs)
            (st_payload st))
         (st_events st) (st_frame st)).
Proof.
  destruct entry as [process trace], st as [p evs fr].
  unfold check_process.
  destruct (negb (String.eqb (tr_exit trace) "0")).
  - destruct (human_reads_condition process trace);
      exists true; eexists [_]; reflexivity.
  - exists b, []. cbn. rewrite app_nil_r. by destruct p.
Qed.

(** The loop over the trace only appends to [ingest_errors], and returns. *)
Lemma for_each_check_process_appends (d : list (string * trace_row))
    (b : bool) (st : state) :
  exists (b' : bool) (errs : list string),
    for_each check_process d b st
    = (Ret b',
       mkState
         (set_ingest_errors (ingest_errors (st_payload st) ++ errs)
            (st_payload st))
         (st_events st) (st_frame st)).
Proof.
  revert b st. induction d as [|entry d IH]; intros b st.
  - exists b, []. cbn. rewrite app_nil_r. by destruct st as [[] ? ?].
  - destruct (check_process_appends b entry st) as (b1 & errs1 & H1).
    cbn. unfold bind. rewrite H1.
    destruct (IH b1
      (mkState
         (set_ingest_errors (ingest_errors (st_payload st) ++ errs1)
            (st_payload st))
         (st_events st) (st_frame st))) as (b2 & errs2 & H2).
    rewrite H2. exists b2, (errs1 ++ errs2). cbn. by rewrite app_assoc.
Qed.

(** C1.  The claim is that a pass sends exactly one outcome message.  It
    does not: when the pipeline exits 0 and reading the trace fails after
    the file was opened, [ret_0_parser] sends the payload and the test-mode
    branch of [run] sends it again.  For every ont artifact of the project
    in test mode, whatever rows were read and whatever the reader raised,
    the pass returns normally having sent two outcome messages. *)
Theorem run_pass_unreadable_trace_sends_twice (w : world)
    (result_dir message_site : string) (ingest_pipe : pipeline) (p : payload)
    (fastq : file_ref) (rows : list trace_row) (e : exn) (out err : string) :
  project p = "mscapetest" ->
  onyx_test_create_status p = true ->
  test_flag p = true ->
  platform p = "ont" ->
  files p !! ".fastq.gz" = Some fastq ->
  subprocess_run w
    (build_cmd ingest_pipe
       (dict_set "fastq" (uri fastq) (base_parameters result_dir p)))
    (timeout_seconds ingest_pipe) = Completed 0 out err ->
  read_trace w (trace_path (path_join result_dir (uuid p)) (uuid p))
    = TraceRows rows (Some e) ->
  let r := run_pass w result_dir ingest_pipe message_site (start p) in
  r.1 = Ret tt /\ length (outcome_messages message_site r.2) = 2%nat.
Proof.
  intros Hproject Hstatus Htest Hplatform Hfastq Hrun Htrace.
  unfold run_pass, execute_validation_pipeline, file_uri, execute,
    ret_0_parser, send_payload, append_ingest_error, modify, bind,
    get_payload, emit, ret, start.
  repeat (progress
            (cbn -[build_cmd base_parameters trace_path path_join for_each
                   results_exchange outcome_messages];
             rewrite ?Hproject, ?Hstatus, ?Hplatform, ?Hfastq, ?Hrun,
               ?Htrace)).
  match goal with
  | |- context [for_each check_process ?d ?b ?s] =>
      destruct (for_each_check_process_appends d b s) as (b' & errs & ->)
  end.
  cbn -[build_cmd base_parameters trace_path path_join
        results_exchange outcome_messages].
  rewrite Htest.
  cbn -[build_cmd base_parameters trace_path path_join results_exchange].
  split; [done|].
  unfold outcome_messages.
  cbn -[build_cmd base_parameters path_join results_exchange].
  rewrite String.eqb_refl. reflexivity.
Qed.

Lemma run_pass_unreadable_trace_sends_twice_witness :
  let w :=
    with_trace
      (TraceRows [mkTraceRow "SCYLLA:PREPROCESS:fastp" "0" "COMPLETED"]
         (Some (OtherError "'NoneType' object has no attribute 'split'")))
      calm_world in
  let r :=
    run_once w "/res" None "nextflow" "birm" (ont_payload true) in
  r.1 = Ret tt /\ length (outcome_messages "birm" r.2) = 2%nat.
Proof.
  intros w.
  apply (run_pass_unreadable_trace_sends_twice w "/res" "birm"
           (ingest_pipe None "nextflow") (ont_payload true)
           (mkFileRef "s3://mscape-birm-ont-prod/run1.fastq.gz" "e1")
           [mkTraceRow "SCYLLA:PREPROCESS:fastp" "0" "COMPLETED"]
           (OtherError "'NoneType' object has no attribute 'split'") "" "");
    vm_compute; reflexivity.
Defined.


(** The same double send on the record-creation path: on a failing status
    [onyx_submission] has already sent the payload when it returns
    [ingest_fail = True], on which [run] sends once more. *)
Lemma onyx_submission_failure_already_sent (w : world) :
  let r :=
    onyx_submission (with_create (Ret (mkResponse 500 None)) w)
      (start (ont_payload false)) in
  r.1 = Ret true /\ length (outcome_messages "birm" r.2) = 1%nat.
Proof. vm_compute. done. Qed.

(** And on the publish path: a reads upload that fails is sent once after
    [add_reads_record] and once more by the aggregate test. *)
Lemma run_publish_failure_sends_twice :
  let w :=
    with_upload
      (fun _ bucket _ =>
         if String.eqb bucket reads_bucket
         then Some (ClientError "AccessDenied") else None)
      calm_world in
  let r := run_publish w "birm" "/res/uuid-1" (start (created_payload "ont")) in
  r.1 = Ret tt /\ length (outcome_messages "birm" r.2) = 2%nat.
Proof. vm_compute. done. Qed.

(** As [run] is written the call of [onyx_submission] passes a keyword the
    function does not have, so a pass that is not in test mode ends there,
    with nothing sent. *)
Lemma run_pass_create_call_raises (w : world) (out err : string) :
  let r :=
    run_once
      (with_trace (TraceRows [] None)
         (with_subprocess (Completed 0 out err) w))
      "/res" None "nextflow" "birm" (ont_payload false) in
  r.1 = Raise (TypeError
           "onyx_submission() got an unexpected keyword argument 'ingest_fail'")
  /\ outcome_messages "birm" r.2 = [].
Proof. vm_compute. done. Qed.

(** ** C2: a pipeline that times out *)

(** C2.  The claim is that on a timeout [pipeline.execute] returns its
    tuple with [timed_out = True].  It does not return: [proc] is bound only
    when [subprocess.run] returns, so building the tuple raises
    [UnboundLocalError].  The subprocess was started; nothing else
    changed. *)
Theorem execute_timeout_raises (w : world) (self : pipeline)
    (params : list (string * string)) (st : state) :
  subprocess_run w (build_cmd self params) (timeout_seconds self)
    = TimeoutExpired ->
  execute w self params st
  = (Raise (UnboundLocalError "proc"),
     mkState (st_payload st)
       (st_events st
        ++ [Subprocess (build_cmd self params) (timeout_seconds self)])
       (st_frame st)).
Proof.
  intros H. unfold execute, bind, emit. cbn -[build_cmd]. by rewrite H.
Qed.

Lemma execute_timeout_raises_witness :
  execute (with_subprocess TimeoutExpired calm_world)
    (ingest_pipe None "nextflow") [("climb", "")] (start (ont_payload true))
  = (Raise (UnboundLocalError "proc"),
     mkState (ont_payload true)
       ([] ++ [Subprocess
                 (build_cmd (ingest_pipe None "nextflow") [("climb", "")])
                 3600])
       []).
Proof.
  apply (execute_timeout_raises (with_subprocess TimeoutExpired calm_world)
           (ingest_pipe None "nextflow") [("climb", "")]
           (start (ont_payload true))).
  reflexivity.
Defined.

(** So the timeout branch of [run] is never taken: the pass ends with the
    exception, the payload has no error and nothing was sent. *)
Lemma run_pass_timeout_sends_nothing (w : world) (test_flag : bool) :
  let r :=
    run_once (with_subprocess TimeoutExpired w) "/res" None "nextflow" "birm"
      (ont_payload test_flag) in
  r.1 = Raise (UnboundLocalError "proc")
  /\ ingest_errors (st_payload r.2) = []
  /\ outcome_messages "birm" r.2 = [].
Proof. destruct test_flag; vm_compute; done. Qed.

(** ** C3: a create answered 201 *)

(** C3.  The claim is that on status 201 [onyx_submission] returns
    [(False, payload)].  It raises instead: the 201 branch never assigns
    [ingest_fail], which the function then reads, first inside the [try]
    and again in its [return].  This holds for every payload with a CSV
    file and every response with status 201. *)
Theorem onyx_submission_201_raises (w : world) (st : state) (csv : file_ref)
    (resp : response) :
  files (st_payload st) !! ".csv" = Some csv ->
  csv_create w (project (st_payload st)) (uri csv) (etag csv) = Ret resp ->
  status_code resp = 201 ->
  (onyx_submission w st).1 = Raise (UnboundLocalError "ingest_fail").
Proof.
  intros Hcsv Hcreate Hstatus.
  unfold onyx_submission, in_new_frame, try_except, onyx_submission_try,
    payload_file, create_dispatch, json, bind, get_payload, lift_result.
  cbn. rewrite Hcsv. cbn. rewrite Hcreate. cbn. rewrite Hstatus. cbn.
  destruct (resp_json resp) as [b|]; cbn; [|done].
  destruct (data_cid b); cbn; done.
Qed.

Lemma onyx_submission_201_raises_witness :
  (onyx_submission calm_world (start (ont_payload false))).1
  = Raise (UnboundLocalError "ingest_fail").
Proof.
  apply (onyx_submission_201_raises calm_world (start (ont_payload false))
           (mkFileRef "s3://mscape-birm-ont-prod/run1.csv" "e0")
           (mkResponse 201 (Some (mkJsonBody [] (Some "C-123")))));
    vm_compute; reflexivity.
Defined.

(** What the 201 branch did before the exception stays on the payload: the
    CID is stored, and the handler has filed the unbound local as a client
    error. *)
Lemma onyx_submission_201_leaves_cid :
  let r := onyx_submission calm_world (start (ont_payload false)) in
  cid (st_payload r.2) = Some "C-123"
  /\ created (st_payload r.2) = true
  /\ onyx_create_status (st_payload r.2) = true
  /\ onyx_errors (st_payload r.2) !! onyx_client_errors
     = Some ["Unhandled client error "
             +:+ exn_str (UnboundLocalError "ingest_fail")].
Proof. vm_compute. done. Qed.

(** Whatever the payload and whatever the collaborators answer,
    [onyx_submission] does not return [False]: [ingest_fail] is only ever
    assigned [True]. *)
Lemma onyx_submission_never_reports_success (w : world) (st : state) :
  (onyx_submission w st).1 <> Ret false.
Proof.
  unfold onyx_submission, in_new_frame, try_except, onyx_submission_try,
    payload_file, create_dispatch, fail_with_client_error, json,
    merge_messages, send_payload, assign_client_error, modify, bind,
    get_payload, lift_result, assign, read, emit, ret, raise.
  cbn.
  repeat (case_match; cbn in *; simplify_eq; try done).
  all: match goal with
       | H : dict_get _ _ = Some _ |- _ => vm_compute in H; by simplify_eq
       end.
Qed.

(** ** C4: a trace that cannot be opened *)

(** C4.  The claim is that an unopenable trace makes [ret_0_parser] return
    [(True, payload)].  The handler does record the reason and send the
    payload, but [trace_dict] was never bound, so the loop after the
    handler raises [UnboundLocalError] out of the function. *)
Theorem ret_0_parser_unopenable_raises (w : world)
    (message_site result_path : string) (ingest_fail : bool) (st : state)
    (e : exn) :
  read_trace w (trace_path result_path (uuid (st_payload st)))
    = TraceOpenError e ->
  let p' :=
    set_ingest_errors
      (ingest_errors (st_payload st)
       ++ ["couldn't open nxf ingest pipeline trace"])
      (st_payload st) in
  ret_0_parser w message_site result_path ingest_fail st
  = (Raise (UnboundLocalError "trace_dict"),
     mkState p'
       (st_events st ++ [Send (results_exchange message_site) (PayloadBody p')])
       (st_frame st)).
Proof.
  intros H. unfold ret_0_parser, bind, get_payload. cbn -[trace_path].
  by rewrite H.
Qed.

Lemma ret_0_parser_unopenable_raises_witness :
  (ret_0_parser
     (with_trace (TraceOpenError (OtherError "No such file")) calm_world)
     "birm" "/res/uuid-1" false (start (ont_payload true))).1
  = Raise (UnboundLocalError "trace_dict").
Proof.
  rewrite (ret_0_parser_unopenable_raises
             (with_trace (TraceOpenError (OtherError "No such file"))
                calm_world)
             "birm" "/res/uuid-1" false (start (ont_payload true))
             (OtherError "No such file")).
  - reflexivity.
  - reflexivity.
Defined.

(** A reader that fails after the file was opened is handled as the claim
    says. *)
Lemma ret_0_parser_read_failure_returns (w : world) (e : exn) :
  let r :=
    ret_0_parser (with_trace (TraceRows [] (Some e)) w) "birm" "/res/uuid-1"
      false (start (ont_payload true)) in
  r.1 = Ret true
  /\ ingest_errors (st_payload r.2)
     = ["couldn't open nxf ingest pipeline trace"].
Proof. vm_compute. done. Qed.

(** ** C5: what the publish operations return *)

(** C5.  The claim is that each publish operation returns a
    [(failed, payload)] tuple on every path.  [add_reads_record] does not:
    when the upload succeeds and the update call returns, it returns the
    response of that call.  Shown for every platform but illumina, every
    payload and every response. *)
Theorem add_reads_record_returns_response (w : world) (cid : option string)
    (result_path : string) (st : state) (resp : response) :
  let p := st_payload st in
  String.eqb (platform p) "illumina" = false ->
  upload_file w
    (path_join result_path ("preprocess/" +:+ uuid p +:+ ".fastp.fastq.gz"))
    reads_bucket (fmt_cid p +:+ ".fastq.gz") = None ->
  onyx_update w "mscapetest" cid
    (StrFields
       [("reads_1",
         "s3://mscapetest-published-reads/" +:+ fmt_cid p +:+ "_1.fastq.gz")])
    = Ret resp ->
  (add_reads_record w cid result_path st).1 = Ret (ReadsResponse resp).
Proof.
  intros p Hplatform Hupload Hupdate.
  unfold add_reads_record, link_reads, update, upload, try_except, bind,
    get_payload, emit, lift_result, ret.
  cbn -[path_join String.append]. fold p. rewrite Hplatform.
  cbn -[path_join String.append]. fold p. rewrite Hupload.
  cbn -[path_join String.append]. fold p. by rewrite Hupdate.
Qed.

Lemma add_reads_record_returns_response_witness :
  (add_reads_record calm_world (Some "C-123") "/res/uuid-1"
     (start (created_payload "ont"))).1
  = Ret (ReadsResponse (mkResponse 200 None)).
Proof.
  apply (add_reads_record_returns_response calm_world (Some "C-123")
           "/res/uuid-1" (start (created_payload "ont"))
           (mkResponse 200 None));
    reflexivity.
Defined.

(** The illumina branch does the same. *)
Lemma add_reads_record_illumina_returns_response :
  (add_reads_record calm_world (Some "C-123") "/res/uuid-1"
     (start (created_payload "illumina"))).1
  = Ret (ReadsResponse (mkResponse 200 None)).
Proof. vm_compute. done. Qed.

(** In [run] that response is unpacked as a pair, so when the raw reads were
    published the pass ends there: the other two operations are not
    attempted and nothing is sent. *)
Lemma run_publish_stops_after_reads :
  let r :=
    run_publish calm_world "birm" "/res/uuid-1" (start (created_payload "ont"))
  in
  (exists msg, r.1 = Raise (ValueError msg))
  /\ st_events r.2
     = [Upload "/res/uuid-1/preprocess/uuid-1.fastp.fastq.gz"
          "mscapetest-published-reads" "C-123.fastq.gz";
        Update "mscapetest" (Some "C-123")
          (StrFields
             [("reads_1", "s3://mscapetest-published-reads/C-123_1.fastq.gz")])].
Proof. vm_compute. split; [by eexists | done]. Qed.

(** When an operation does fail with a tuple, the next ones are attempted:
    here all uploads are refused and every bucket is still tried. *)
Lemma run_publish_attempts_all_after_failures :
  let w :=
    with_upload (fun _ _ _ => Some (ClientError "AccessDenied")) calm_world in
  let r := run_publish w "birm" "/res/uuid-1" (start (created_payload "ont")) in
  r.1 = Ret tt
  /\ ingest_errors (st_payload r.2)
     = ["Failed to upload reads to storage bucket";
        "Failed to upload scylla report to storage bucket"]
  /\ Upload "/res/uuid-1/uuid-1_report.html" "mscapetest-published-reports"
       "C-123_scylla_report.html" ∈ st_events r.2.
Proof.
  vm_compute. split; [done|]. split; [done|].
  repeat first [ apply list_elem_of_here | apply list_elem_of_further ].
Qed.

(** ** C6: what a failed process is reported as *)

(** C6.  The claim is that a read-extraction process exiting with a code
    other than 2 gets the generic reason.  In the condition [and] binds
    tighter than [or], so the test on the exit status guards only
    [extract_reads]: [extract_paired_reads] exiting 1 is reported as excess
    human reads, for every payload and whatever else the row says. *)
Theorem paired_extraction_exit_1_reported_as_human_reads (w : world)
    (message_site result_path status : string) (ingest_fail : bool)
    (st : state) :
  ret_0_parser
    (with_trace
       (TraceRows
          [mkTraceRow "SCYLLA:EXTRACT:extract_paired_reads" "1" status] None)
       w)
    message_site result_path ingest_fail st
  = (Ret true,
     mkState
       (set_ingest_errors (ingest_errors (st_payload st) ++ [human_reads_error])
          (st_payload st))
       (st_events st) (st_frame st)).
Proof. reflexivity. Qed.

(** The other rows of the claim are as it says: [extract_reads] is
    special-cased on exit 2 only, any other process never. *)
Lemma check_process_extract_reads (b : bool) (trace : trace_row) (st : state) :
  tr_exit trace <> "0" ->
  check_process b ("extract_reads", trace) st
  = (Ret true,
     mkState
       (set_ingest_errors
          (ingest_errors (st_payload st)
           ++ [if String.eqb (tr_exit trace) "2" then human_reads_error
               else process_error "extract_reads" trace])
          (st_payload st))
       (st_events st) (st_frame st)).
Proof.
  intros H%String.eqb_neq. unfold check_process, human_reads_condition.
  rewrite H. cbn -[process_error human_reads_error].
  by destruct (String.eqb (tr_exit trace) "2").
Qed.

Lemma check_process_other (b : bool) (process : string) (trace : trace_row)
    (st : state) :
  tr_exit trace <> "0" ->
  process <> "extract_paired_reads" ->
  process <> "extract_reads" ->
  check_process b (process, trace) st
  = (Ret true,
     mkState
       (set_ingest_errors
          (ingest_errors (st_payload st) ++ [process_error process trace])
          (st_payload st))
       (st_events st) (st_frame st)).
Proof.
  intros H0%String.eqb_neq H1%String.eqb_neq H2%String.eqb_neq.
  unfold check_process, human_reads_condition. by rewrite H0, H1, H2.
Qed.

Lemma check_process_exit_0 (b : bool) (process : string) (trace : trace_row)
    (st : state) :
  tr_exit trace = "0" -> check_process b (process, trace) st = (Ret b, st).
Proof. intros H. unfold check_process. by rewrite H. Qed.

(** ** C7: a platform that is neither ont nor illumina *)

(** C7, as stated, fails: for the pacbio artifact the stage records nothing
    on the payload and the pipeline is started all the same. *)
Lemma unrecognised_platform_counterexample :
  let st := start pacbio_payload in
  let r :=
    execute_validation_pipeline calm_world "/res"
      (ingest_pipe None "nextflow") st in
  ~ (ingest_errors (st_payload r.2) <> [])
  /\ ~ (forall cmd t, Subprocess cmd t ∉ st_events r.2).
Proof.
  intros st r. split.
  - intros Hrecorded. apply Hrecorded. reflexivity.
  - intros Hnone. eapply Hnone. vm_compute. apply list_elem_of_here.
Qed.

(** C7, amended.  For every payload whose platform is neither ont nor
    illumina, [execute_validation_pipeline] leaves the payload as it is and
    starts the pipeline once, with the seven base parameters and no read
    file; its result is that of [pipeline.execute] on those parameters. *)
Theorem unrecognised_platform_runs_with_base_parameters (w : world)
    (result_dir : string) (ingest_pipe : pipeline) (st : state) :
  platform (st_payload st) <> "ont" ->
  platform (st_payload st) <> "illumina" ->
  let parameters := base_parameters result_dir (st_payload st) in
  let r := execute_validation_pipeline w result_dir ingest_pipe st in
  r = execute w ingest_pipe parameters st
  /\ st_payload r.2 = st_payload st
  /\ st_events r.2
     = st_events st
       ++ [Subprocess (build_cmd ingest_pipe parameters)
             (timeout_seconds ingest_pipe)].
Proof.
  intros Hont%String.eqb_neq Hillumina%String.eqb_neq parameters r.
  assert (Hr : r = execute w ingest_pipe parameters st).
  { subst r. unfold execute_validation_pipeline, bind, get_payload.
    cbn -[execute base_parameters]. rewrite Hont, Hillumina. reflexivity. }
  split; [done|]. rewrite Hr. unfold execute, bind, emit.
  cbn -[build_cmd].
  by destruct (subprocess_run w (build_cmd ingest_pipe parameters)
                 (timeout_seconds ingest_pipe)).
Qed.

Lemma unrecognised_platform_runs_with_base_parameters_witness :
  let st := start pacbio_payload in
  let pipe := ingest_pipe None "nextflow" in
  let r := execute_validation_pipeline calm_world "/res" pipe st in
  r = execute calm_world pipe (base_parameters "/res" pacbio_payload) st
  /\ st_payload r.2 = pacbio_payload
  /\ st_events r.2
     = [] ++ [Subprocess (build_cmd pipe (base_parameters "/res" pacbio_payload))
                3600].
Proof.
  apply (unrecognised_platform_runs_with_base_parameters calm_world "/res"
           (ingest_pipe None "nextflow") (start pacbio_payload));
    vm_compute; discriminate.
Defined.

(** ** C8: a create answered 422 *)

Lemma merge_field_insert (errors : gmap string (list string))
    (entry : string * list string) :
  merge_field errors entry
  = <[entry.1 := default [] (errors !! entry.1) ++ entry.2]> errors.
Proof.
  unfold merge_field. by destruct (errors !! entry.1) as [[|m ms]|].
Qed.

Lemma fold_merge_other (msgs : list (string * list string))
    (errors : gmap string (list string)) (field : string) :
  field ∉ msgs.*1 ->
  fold_left merge_field msgs errors !! field = errors !! field.
Proof.
  revert errors. induction msgs as [|[f m] msgs IH]; intros errors Hnotin.
  - reflexivity.
  - cbn in *. apply not_elem_of_cons in Hnotin as [Hne Hnotin].
    rewrite IH by done. rewrite merge_field_insert. cbn.
    by rewrite lookup_insert_ne.
Qed.

Lemma fold_merge_field (msgs : list (string * list string))
    (errors : gmap string (list string)) (field : string)
    (m : list string) :
  NoDup msgs.*1 ->
  (field, m) ∈ msgs ->
  fold_left merge_field msgs errors !! field
  = Some (default [] (errors !! field) ++ m).
Proof.
  revert errors. induction msgs as [|[f0 m0] msgs IH]; intros errors Hnodup Hin.
  - by apply elem_of_nil in Hin.
  - cbn in *. apply NoDup_cons in Hnodup as [Hfresh Hnodup].
    apply elem_of_cons in Hin as [Heq|Hin].
    + injection Heq as -> ->. rewrite fold_merge_other by done.
      rewrite merge_field_insert. cbn. by rewrite lookup_insert_eq.
    + rewrite IH by done. rewrite merge_field_insert. cbn.
      rewrite lookup_insert_ne; [done|].
      intros ->. apply Hfresh. apply list_elem_of_fmap. by exists (field, m).
Qed.

(** C8.  For every payload with a CSV file and every create response with
    status 422 whose body is a JSON object, [onyx_submission] returns
    [ingest_fail = True], and for every field of [messages] the
    accumulator then holds, under that field, the list it held before (if
    any) followed by the field's messages (the fields of [messages] are
    distinct, being the keys of a dict).  The one proviso is the send
    inside the function: a payload without [site_code] makes it raise, and
    the handler then assigns the reserved bucket.  With a [site_code] the
    payload that is sent is the merged one. *)
Theorem onyx_submission_422_merges (w : world) (st : state) (csv : file_ref)
    (resp : response) (b : json_body) :
  let p := st_payload st in
  files p !! ".csv" = Some csv ->
  csv_create w (project p) (uri csv) (etag csv) = Ret resp ->
  status_code resp = 422 ->
  resp_json resp = Some b ->
  NoDup (messages b).*1 ->
  let r := onyx_submission w st in
  r.1 = Ret true
  /\ (forall field msgs,
        (field, msgs) ∈ messages b ->
        field <> onyx_client_errors \/ is_Some (site_code p) ->
        onyx_errors (st_payload r.2) !! field
        = Some (default [] (onyx_errors p !! field) ++ msgs))
  /\ (forall sc,
        site_code p = Some sc ->
        last (st_events r.2)
        = Some (Send (results_exchange sc) (PayloadBody (st_payload r.2)))).
Proof.
  intros p Hcsv Hcreate Hstatus Hjson Hnodup r. subst r.
  unfold onyx_submission, in_new_frame, try_except, onyx_submission_try,
    payload_file, create_dispatch, json, merge_messages, send_payload,
    assign_client_error, modify, bind, get_payload, lift_result.
  cbn -[results_exchange]. fold p. rewrite Hcsv.
  cbn -[results_exchange]. fold p. rewrite Hcreate.
  cbn -[results_exchange]. rewrite Hstatus.
  cbn -[results_exchange]. rewrite Hjson.
  cbn -[results_exchange]. fold p.
  destruct (site_code p) as [sc|] eqn:Hsite; cbn -[results_exchange].
  - split; [done|]. split.
    + intros field msgs Hin _. by apply fold_merge_field.
    + intros sc' [= <-]. by rewrite last_snoc.
  - split; [done|]. split.
    + intros field msgs Hin [Hne|[? [=]]].
      rewrite lookup_insert_ne by done. by apply fold_merge_field.
    + intros sc' [=].
Qed.

(** The instance of the specification: [field_x] with one message. *)
Lemma onyx_submission_422_merges_witness :
  let w :=
    with_create
      (Ret (mkResponse 422
              (Some (mkJsonBody [("field_x", ["bad value"])] None))))
      calm_world in
  let r := onyx_submission w (start (ont_payload false)) in
  r.1 = Ret true
  /\ onyx_errors (st_payload r.2) !! "field_x" = Some ["bad value"].
Proof.
  intros w r.
  destruct (onyx_submission_422_merges w (start (ont_payload false))
              (mkFileRef "s3://mscape-birm-ont-prod/run1.csv" "e0")
              (mkResponse 422
                 (Some (mkJsonBody [("field_x", ["bad value"])] None)))
              (mkJsonBody [("field_x", ["bad value"])] None))
    as (Hfail & Hmerged & _).
  - vm_compute; reflexivity.
  - reflexivity.
  - reflexivity.
  - reflexivity.
  - apply NoDup_singleton.
  - split; [exact Hfail|].
    apply (Hmerged "field_x" ["bad value"]).
    + apply list_elem_of_here.
    + left. discriminate.
Defined.

(** ** C9: the error accumulators *)

(** C9, as stated, fails for the reserved bucket.  With Onyx unreachable,
    [add_taxon_records] files its client error in the bucket and
    [push_report_file], coming next, assigns the bucket anew: the entry of
    the earlier stage is gone from the payload. *)
Lemma client_error_bucket_overwritten :
  let w :=
    with_update
      (fun _ _ fields =>
         match fields with
         | TaxaField _ => Raise (OtherError "Connection refused")
         | StrFields _ => Raise (OtherError "Read timed out")
         end)
      calm_world in
  let st1 :=
    (add_taxon_records w "/res/uuid-1" (start (created_payload "ont"))).2 in
  let st2 := (push_report_file w "/res/uuid-1" st1).2 in
  onyx_errors (st_payload st1) !! onyx_client_errors
  = Some ["Unhandled client error Connection refused"]
  /\ onyx_errors (st_payload st2) !! onyx_client_errors
     = Some ["Unhandled client error Read timed out"]
  /\ ~ (exists l',
          onyx_errors (st_payload st2) !! onyx_client_errors = Some l'
          /\ ["Unhandled client error Connection refused"] `prefix_of` l').
Proof.
  vm_compute. split; [done|]. split; [done|].
  intros (l' & [= <-] & (k & [=])).
Qed.

(** The same inside one stage: a create answered 500 files its client
    error, the send then fails on a payload without [site_code], and the
    handler replaces the entry. *)
Lemma client_error_bucket_overwritten_by_handler :
  let w := with_create (Ret (mkResponse 500 None)) calm_world in
  let p :=
    mkPayload "uuid-1" "mscapetest.run1" "mscapetest" "birm" None "ont"
      ont_files None false false true None ∅ false [] false false in
  let r := onyx_submission w (start p) in
  r.1 = Ret true
  /\ onyx_errors (st_payload r.2) !! onyx_client_errors
     = Some ["Unhandled client error 'site_code'"].
Proof. vm_compute. done. Qed.

Lemma accumulators_extended_refl (p : payload) : accumulators_extended p p.
Proof. split; [done|]. intros field l _ H. by exists l. Qed.

Lemma accumulators_extended_trans (p1 p2 p3 : payload) :
  accumulators_extended p1 p2 -> accumulators_extended p2 p3 ->
  accumulators_extended p1 p3.
Proof.
  intros [Hi12 Ho12] [Hi23 Ho23]. split; [by etrans|].
  intros field l Hne H1.
  destruct (Ho12 field l Hne H1) as (l2 & H2 & Hp2).
  destruct (Ho23 field l2 Hne H2) as (l3 & H3 & Hp3).
  exists l3. split; [done|]. by etrans.
Qed.

Lemma sent_extends_trans (p1 p2 : payload) (e : event) :
  accumulators_extended p1 p2 -> sent_extends p2 e -> sent_extends p1 e.
Proof.
  intros H12. destruct e as [| |? [p|]| | |]; cbn; try done.
  by apply accumulators_extended_trans.
Qed.

(** What the stages do to the payload. *)

Lemma append_ingest_error_extends (msg : string) (p : payload) :
  accumulators_extended p (set_ingest_errors (ingest_errors p ++ [msg]) p).
Proof.
  split; [by apply prefix_app_r|]. intros field l _ H. by exists l.
Qed.

Lemma assign_client_error_extends (msg : string) (p : payload) :
  accumulators_extended p
    (set_onyx_errors (<[onyx_client_errors := [msg]]> (onyx_errors p)) p).
Proof.
  split; [done|]. intros field l Hne H. exists l. split; [|done].
  cbn. by rewrite lookup_insert_ne.
Qed.

Lemma fold_merge_extends (msgs : list (string * list string))
    (errors : gmap string (list string)) (field : string) (l : list string) :
  errors !! field = Some l ->
  exists l',
    fold_left merge_field msgs errors !! field = Some l' /\ l `prefix_of` l'.
Proof.
  revert errors l. induction msgs as [|[f m] msgs IH]; intros errors l H.
  - by exists l.
  - cbn. rewrite merge_field_insert. cbn.
    destruct (decide (f = field)) as [->|Hne].
    + destruct (IH (<[field := default [] (errors !! field) ++ m]> errors)
                  (l ++ m)) as (l' & Hl' & Hprefix).
      { by rewrite lookup_insert_eq, H. }
      exists l'. split; [done|]. etrans; [|exact Hprefix].
      by apply prefix_app_r.
    + apply IH. by rewrite lookup_insert_ne.
Qed.

Lemma merge_messages_extends (msgs : list (string * list string))
    (p : payload) :
  accumulators_extended p
    (set_onyx_errors (fold_left merge_field msgs (onyx_errors p)) p).
Proof.
  split; [done|]. intros field l _ H. by apply fold_merge_extends.
Qed.

(** The journal. *)

Lemma logged_app (j1 j2 : list entry) :
  logged (j1 ++ j2) = logged j1 ++ logged j2.
Proof. apply omap_app. Qed.

Lemma written_app (j1 j2 : list entry) :
  written (j1 ++ j2) = written j1 ++ written j2.
Proof. apply omap_app. Qed.

Lemma account_app (p1 p2 p3 : payload) (j1 j2 : list entry) :
  account p1 j1 p2 -> account p2 j2 p3 -> account p1 (j1 ++ j2) p3.
Proof.
  revert p1. induction j1 as [|[q|e] j1 IH]; intros p1; cbn.
  - by intros ->.
  - intros [Hq H1] H2. split; [done|]. by apply IH.
  - intros [He H1] H2. split; [done|]. by apply IH.
Qed.

Lemma account_app_inv (p1 p3 : payload) (j1 j2 : list entry) :
  account p1 (j1 ++ j2) p3 ->
  exists p2, account p1 j1 p2 /\ account p2 j2 p3.
Proof.
  revert p1. induction j1 as [|[q|e] j1 IH]; intros p1; cbn.
  - intros H. by exists p1.
  - intros [Hq H]. destruct (IH _ H) as (p2 & H1 & H2). by exists p2.
  - intros [He H]. destruct (IH _ H) as (p2 & H1 & H2). by exists p2.
Qed.

Lemma account_extended (p p' : payload) (j : list entry) :
  account p j p' -> accumulators_extended p p'.
Proof.
  revert p. induction j as [|[q|e] j IH]; intros p; cbn.
  - intros ->. apply accumulators_extended_refl.
  - intros [Hq H]. eapply accumulators_extended_trans; [exact Hq|]. by apply IH.
  - intros [_ H]. by apply IH.
Qed.

Lemma account_written (p p' q : payload) (j : list entry) :
  account p j p' -> q ∈ written j -> accumulators_extended q p'.
Proof.
  revert p. induction j as [|[a|e] j IH]; intros p; cbn.
  - intros _ H. by apply elem_of_nil in H.
  - intros [Ha H] [->|Hin]%elem_of_cons.
    + by eapply account_extended.
    + by eapply IH.
  - intros [_ H] Hin. by eapply IH.
Qed.

Section Accounted.

Context {A B : Type}.

Lemma accounted_ret (a : A) : accounted (Generic.ret a) (ret a).
Proof.
  intros js. split; [done|]. exists []. cbn. by rewrite !app_nil_r.
Qed.

Lemma accounted_raise (e : exn) : accounted (@Generic.raise _ A e) (raise e).
Proof.
  intros js. split; [done|]. exists []. cbn. by rewrite !app_nil_r.
Qed.

Lemma accounted_lift_result (r : result A) :
  accounted (Generic.lift_result r) (lift_result r).
Proof.
  intros js. split; [done|]. exists []. cbn. by rewrite !app_nil_r.
Qed.

Lemma accounted_step (js1 js2 js3 : journaled) :
  (exists new,
     j_journal js2 = j_journal js1 ++ new
     /\ st_events (j_state js2) = st_events (j_state js1) ++ logged new
     /\ account (st_payload (j_state js1)) new (st_payload (j_state js2))) ->
  (exists new,
     j_journal js3 = j_journal js2 ++ new
     /\ st_events (j_state js3) = st_events (j_state js2) ++ logged new
     /\ account (st_payload (j_state js2)) new (st_payload (j_state js3))) ->
  exists new,
    j_journal js3 = j_journal js1 ++ new
    /\ st_events (j_state js3) = st_events (j_state js1) ++ logged new
    /\ account (st_payload (j_state js1)) new (st_payload (j_state js3)).
Proof.
  intros (n12 & Hj12 & He12 & Ha12) (n23 & Hj23 & He23 & Ha23).
  exists (n12 ++ n23). split; [by rewrite Hj23, Hj12, app_assoc|].
  split; [by rewrite He23, He12, logged_app, app_assoc|].
  by eapply account_app.
Qed.

Lemma accounted_bind (mj : Generic.M journaled A)
    (kj : A -> Generic.M journaled B) (m : M A) (k : A -> M B) :
  accounted mj m -> (forall a, accounted (kj a) (k a)) ->
  accounted (Generic.bind mj kj) (bind m k).
Proof.
  intros Hm Hk js. unfold Generic.bind, bind.
  destruct (Hm js) as [-> Hnew].
  destruct (mj js) as [[a|e] js1]; cbn in *; [|done].
  destruct (Hk a js1) as [-> Hnew1]. split; [done|].
  by eapply accounted_step.
Qed.

Lemma accounted_try_except (catches : exn -> bool)
    (bodyj : Generic.M journaled A) (handlerj : exn -> Generic.M journaled A)
    (body : M A) (handler : exn -> M A) :
  accounted bodyj body -> (forall e, accounted (handlerj e) (handler e)) ->
  accounted (Generic.try_except catches bodyj handlerj)
    (try_except catches body handler).
Proof.
  intros Hb Hh js. unfold Generic.try_except, try_except.
  destruct (Hb js) as [-> Hnew].
  destruct (bodyj js) as [[a|e] js1]; cbn in *; [done|].
  destruct (catches e); [|done].
  destruct (Hh e js1) as [-> Hnew1]. split; [done|].
  by eapply accounted_step.
Qed.

Lemma accounted_in_new_frame (bodyj : Generic.M journaled A) (body : M A) :
  accounted bodyj body ->
  accounted (Generic.in_new_frame journaling bodyj) (in_new_frame body).
Proof.
  intros Hb js. unfold Generic.in_new_frame, in_new_frame.
  destruct (Hb (enter_frame journaling js)) as [H Hnew].
  change (j_state (enter_frame journaling js))
    with (mkState (st_payload (j_state js)) (st_events (j_state js)) [])
    in H.
  rewrite H.
  by destruct (bodyj (enter_frame journaling js)) as [r js1].
Qed.

Lemma accounted_call_with_keywords (name : string)
    (params kwargs : list string) (fj : Generic.M journaled A) (f : M A) :
  accounted fj f ->
  accounted (Generic.call_with_keywords name params kwargs fj)
    (call_with_keywords name params kwargs f).
Proof.
  intros Hf. unfold Generic.call_with_keywords, call_with_keywords.
  destruct (unexpected_keyword params kwargs); [|done].
  apply accounted_raise.
Qed.

End Accounted.

Lemma accounted_for_each {A B : Type} (bodyj : B -> A -> Generic.M journaled B)
    (body : B -> A -> M B) (xs : list A) (acc : B) :
  (forall b a, accounted (bodyj b a) (body b a)) ->
  accounted (Generic.for_each bodyj xs acc) (for_each body xs acc).
Proof.
  intros Hbody. revert acc.
  induction xs as [|x xs IH]; intros acc; cbn.
  - apply accounted_ret.
  - apply accounted_bind; [apply Hbody|apply IH].
Qed.

Lemma accounted_get_payload :
  accounted (Generic.get_payload journaling) get_payload.
Proof.
  intros js. split; [done|]. exists []. cbn. by rewrite !app_nil_r.
Qed.

Lemma accounted_read (x : string) :
  accounted (Generic.read journaling x) (read x).
Proof.
  intros js. unfold Generic.read, read. cbn.
  destruct (dict_get x (st_frame (j_state js)));
    (split; [done|]; exists []; cbn; by rewrite !app_nil_r).
Qed.

Lemma accounted_assign (x : string) (b : bool) :
  accounted (Generic.assign journaling x b) (assign x b).
Proof.
  intros js. split; [done|]. exists []. cbn. by rewrite !app_nil_r.
Qed.

(** A write is accounted for when it extends whatever payload it finds. *)
Lemma accounted_modify (f : payload -> payload) :
  (forall p, accumulators_extended p (f p)) ->
  accounted (Generic.modify journaling f) (modify f).
Proof.
  intros Hf js. split; [done|].
  exists [Wrote (f (st_payload (j_state js)))]. cbn.
  split; [done|]. split; [by rewrite app_nil_r|]. split; [apply Hf|done].
Qed.

Lemma accounted_emit (e : event) :
  (forall p, sent_as_is p e) -> accounted (Generic.emit journaling e) (emit e).
Proof.
  intros He js. split; [done|]. exists [Logged e]. cbn.
  split; [done|]. split; [done|]. split; [apply He|done].
Qed.

Lemma accounted_send_payload (exchange : string) :
  accounted (Generic.send_payload journaling exchange) (send_payload exchange).
Proof.
  intros js. split; [done|].
  exists [Logged (Send exchange (PayloadBody (st_payload (j_state js))))].
  cbn. done.
Qed.

Lemma accounted_append_ingest_error (msg : string) :
  accounted (Generic.append_ingest_error journaling msg)
    (append_ingest_error msg).
Proof. apply accounted_modify, append_ingest_error_extends. Qed.

Lemma accounted_assign_client_error (msg : string) :
  accounted (Generic.assign_client_error journaling msg)
    (assign_client_error msg).
Proof. apply accounted_modify, assign_client_error_extends. Qed.

Lemma accounted_merge_messages (msgs : list (string * list string)) :
  accounted (Generic.merge_messages journaling msgs) (merge_messages msgs).
Proof. apply accounted_modify, merge_messages_extends. Qed.

Lemma accounted_set_flags (f : payload -> payload) :
  (forall p, ingest_errors (f p) = ingest_errors p) ->
  (forall p, onyx_errors (f p) = onyx_errors p) ->
  accounted (Generic.modify journaling f) (modify f).
Proof.
  intros Hi Ho. apply accounted_modify. intros p. split.
  - by rewrite Hi.
  - intros field l _ H. exists l. by rewrite Ho.
Qed.

Create HintDb journal.

#[local] Hint Resolve accounted_ret accounted_raise accounted_lift_result
  accounted_get_payload accounted_read accounted_assign accounted_send_payload
  accounted_append_ingest_error accounted_assign_client_error
  accounted_merge_messages : journal.

(** One step through the structure of a stage, on both runs at once. *)
Ltac journal_step :=
  match goal with
  | |- accounted _ (bind _ _) => apply accounted_bind; [|intros ?]
  | |- accounted _ (try_except _ _ _) =>
      apply accounted_try_except; [|intros ?]
  | |- accounted _ (for_each _ _ _) => apply accounted_for_each; intros ? ?
  | |- accounted _ (in_new_frame _) => apply accounted_in_new_frame
  | |- accounted _ (call_with_keywords _ _ _ _) =>
      apply accounted_call_with_keywords
  | |- accounted _ (emit _) => apply accounted_emit; intros ?; exact I
  | |- accounted _ (modify _) => apply accounted_set_flags; reflexivity
  | |- accounted _ (if ?c then _ else _) => destruct c
  | |- accounted _ (match ?x with _ => _ end) => destruct x
  | |- accounted _ _ => solve [auto with journal]
  end.

Ltac journal := repeat journal_step.

Lemma accounted_file_uri (ext : string) :
  accounted (Generic.file_uri journaling ext) (file_uri ext).
Proof. unfold Generic.file_uri, file_uri. journal. Qed.

Lemma accounted_payload_file (ext : string) :
  accounted (Generic.payload_file journaling ext) (payload_file ext).
Proof. unfold Generic.payload_file, payload_file. journal. Qed.

Lemma accounted_json (r : response) : accounted (Generic.json r) (json r).
Proof. unfold Generic.json, json. journal. Qed.

Lemma accounted_upload (w : world) (path bucket key : string) :
  accounted (Generic.upload journaling w path bucket key)
    (upload w path bucket key).
Proof. unfold Generic.upload, upload. journal. Qed.

Lemma accounted_update (w : world) (c : option string)
    (fields : update_fields) :
  accounted (Generic.update journaling w c fields) (update w c fields).
Proof. unfold Generic.update, update. journal. Qed.

Lemma accounted_send_if (b : bool) (exchange : string) :
  accounted (Generic.send_if journaling b exchange) (send_if b exchange).
Proof. unfold Generic.send_if, send_if. journal. Qed.

#[local] Hint Resolve accounted_file_uri accounted_payload_file accounted_json
  accounted_upload accounted_update accounted_send_if : journal.

Lemma accounted_update_and_merge (w : world) (fields : update_fields)
    (fail : bool) :
  accounted (Generic.update_and_merge journaling w fields fail)
    (update_and_merge w fields fail).
Proof. unfold Generic.update_and_merge, update_and_merge. journal. Qed.

Lemma accounted_execute (w : world) (self : pipeline)
    (params : list (string * string)) :
  accounted (Generic.execute journaling w self params)
    (execute w self params).
Proof. unfold Generic.execute, execute. journal. Qed.

#[local] Hint Resolve accounted_update_and_merge accounted_execute : journal.

Lemma accounted_execute_validation_pipeline (w : world) (result_dir : string)
    (ingest_pipe : pipeline) :
  accounted
    (Generic.execute_validation_pipeline journaling w result_dir ingest_pipe)
    (execute_validation_pipeline w result_dir ingest_pipe).
Proof.
  unfold Generic.execute_validation_pipeline, execute_validation_pipeline.
  journal.
Qed.

Lemma accounted_check_process (b : bool) (entry : string * trace_row) :
  accounted (Generic.check_process journaling b entry) (check_process b entry).
Proof.
  unfold Generic.check_process, check_process. destruct entry. journal.
Qed.

#[local] Hint Resolve accounted_check_process : journal.

Lemma accounted_ret_0_parser (w : world) (message_site result_path : string)
    (ingest_fail : bool) :
  accounted
    (Generic.ret_0_parser journaling w message_site result_path ingest_fail)
    (ret_0_parser w message_site result_path ingest_fail).
Proof. unfold Generic.ret_0_parser, ret_0_parser. journal. Qed.

Lemma accounted_create_dispatch (r : response) :
  accounted (Generic.create_dispatch journaling r) (create_dispatch r).
Proof.
  unfold Generic.create_dispatch, create_dispatch,
    Generic.fail_with_client_error, fail_with_client_error.
  journal.
Qed.

#[local] Hint Resolve accounted_create_dispatch : journal.

Lemma accounted_onyx_submission (w : world) :
  accounted (Generic.onyx_submission journaling w) (onyx_submission w).
Proof.
  unfold Generic.onyx_submission, onyx_submission,
    Generic.onyx_submission_try, onyx_submission_try.
  journal.
Qed.

Lemma accounted_add_reads_record (w : world) (c : option string)
    (result_path : string) :
  accounted (Generic.add_reads_record journaling w c result_path)
    (add_reads_record w c result_path).
Proof.
  unfold Generic.add_reads_record, add_reads_record, Generic.link_reads,
    link_reads, Generic.raw_illumina_read, raw_illumina_read.
  journal.
Qed.

Lemma accounted_add_taxon_records (w : world) (result_path : string) :
  accounted (Generic.add_taxon_records journaling w result_path)
    (add_taxon_records w result_path).
Proof.
  unfold Generic.add_taxon_records, add_taxon_records, Generic.binned_taxon,
    binned_taxon, Generic.binned_illumina_read, binned_illumina_read,
    Generic.filename, filename.
  journal.
Qed.

Lemma accounted_push_report_file (w : world) (result_path : string) :
  accounted (Generic.push_report_file journaling w result_path)
    (push_report_file w result_path).
Proof. unfold Generic.push_report_file, push_report_file. journal. Qed.

#[local] Hint Resolve accounted_execute_validation_pipeline
  accounted_ret_0_parser accounted_onyx_submission accounted_add_reads_record
  accounted_add_taxon_records accounted_push_report_file : journal.

Lemma accounted_run_publish (w : world) (message_site result_path : string) :
  accounted (Generic.run_publish journaling w message_site result_path)
    (run_publish w message_site result_path).
Proof.
  unfold Generic.run_publish, run_publish, Generic.unpack_reads_result,
    unpack_reads_result, Generic.onyx_unsuppress, onyx_unsuppress,
    Generic.unpack_unsuppress, unpack_unsuppress.
  journal.
Qed.

#[local] Hint Resolve accounted_run_publish : journal.

Lemma accounted_run_pass (w : world) (result_dir : string)
    (ingest_pipe : pipeline) (message_site : string) :
  accounted (Generic.run_pass journaling w result_dir ingest_pipe message_site)
    (run_pass w result_dir ingest_pipe message_site).
Proof. unfold Generic.run_pass, run_pass. journal. Qed.

(** What an account gives: a payload that is sent extends the payload the
    stage started from and everything written before it was sent. *)

Lemma account_sent (p p' q : payload) (j1 j2 : list entry) (x : string) :
  account p (j1 ++ Logged (Send x (PayloadBody q)) :: j2) p' ->
  accumulators_extended p q
  /\ Forall (fun a => accumulators_extended a q) (written j1).
Proof.
  intros H. apply account_app_inv in H as (p2 & H1 & [<- _]).
  split; [by eapply account_extended|].
  apply Forall_forall. intros a Ha. by eapply account_written.
Qed.

Lemma account_sent_extends (p p' : payload) (j : list entry) :
  account p j p' -> Forall (sent_extends p) (logged j).
Proof.
  revert p. induction j as [|[q|e] j IH]; intros p; cbn.
  - intros _. constructor.
  - intros [Hq H]. eapply Forall_impl; [by apply IH|].
    intros e. by apply sent_extends_trans.
  - intros [He H]. constructor; [|by apply IH].
    destruct e as [| |? [q|]| | |]; cbn in *; try done.
    subst q. apply accumulators_extended_refl.
Qed.

Lemma accounted_monotone {A} (mj : Generic.M journaled A) (m : M A) :
  accounted mj m -> monotone m.
Proof.
  intros H st. destruct (H (mkJournaled st [])) as [Hm (new & _ & He & Ha)].
  cbn in Hm, He, Ha. rewrite Hm. cbn.
  split; [by eapply account_extended|].
  exists (logged new). split; [done|]. by eapply account_sent_extends.
Qed.

Lemma plain_store_is_the_model (w : world)
    (result_dir message_site result_path : string) (ingest_pipe : pipeline)
    (c : option string) (ingest_fail : bool) :
  Generic.ret_0_parser plain w message_site result_path ingest_fail
  = ret_0_parser w message_site result_path ingest_fail
  /\ Generic.onyx_submission plain w = onyx_submission w
  /\ Generic.add_reads_record plain w c result_path
     = add_reads_record w c result_path
  /\ Generic.add_taxon_records plain w result_path
     = add_taxon_records w result_path
  /\ Generic.push_report_file plain w result_path
     = push_report_file w result_path
  /\ Generic.run_publish plain w message_site result_path
     = run_publish w message_site result_path
  /\ Generic.run_pass plain w result_dir ingest_pipe message_site
     = run_pass w result_dir ingest_pipe message_site.
Proof. repeat split; reflexivity. Qed.

(** Seen from outside, without the journal: a stage only extends the state
    it starts from. *)
Corollary stages_extend_their_start (w : world)
    (result_dir message_site result_path : string) (ingest_pipe : pipeline)
    (c : option string) (ingest_fail : bool) (st : state) :
  extends st (ret_0_parser w message_site result_path ingest_fail st).2
  /\ extends st (onyx_submission w st).2
  /\ extends st (add_reads_record w c result_path st).2
  /\ extends st (add_taxon_records w result_path st).2
  /\ extends st (push_report_file w result_path st).2
  /\ extends st (run_publish w message_site result_path st).2
  /\ extends st (run_pass w result_dir ingest_pipe message_site st).2.
Proof.
  split; [eapply accounted_monotone, accounted_ret_0_parser|].
  split; [eapply accounted_monotone, accounted_onyx_submission|].
  split; [eapply accounted_monotone, accounted_add_reads_record|].
  split; [eapply accounted_monotone, accounted_add_taxon_records|].
  split; [eapply accounted_monotone, accounted_push_report_file|].
  split; [eapply accounted_monotone, accounted_run_publish|].
  eapply accounted_monotone, accounted_run_pass.
Qed.

(** C9, amended.  Every stage and the pass as a whole, run with the journal
    from any state, do to the state what they do without it, and the
    journal accounts for the payload write by write: each write, at the
    moment it is made, leaves [ingest_errors] and every list [onyx_errors]
    holds under a field other than the reserved bucket with their content
    of that moment as an initial segment; the payload changes by these
    writes only; and each payload that is sent is the payload as the writes
    before it left it.  This holds whether the stage returns or raises. *)
Theorem accumulators_append_only (w : world)
    (result_dir message_site result_path : string) (ingest_pipe : pipeline)
    (c : option string) (ingest_fail : bool) :
  accounted
    (Generic.ret_0_parser journaling w message_site result_path ingest_fail)
    (ret_0_parser w message_site result_path ingest_fail)
  /\ accounted (Generic.onyx_submission journaling w) (onyx_submission w)
  /\ accounted (Generic.add_reads_record journaling w c result_path)
       (add_reads_record w c result_path)
  /\ accounted (Generic.add_taxon_records journaling w result_path)
       (add_taxon_records w result_path)
  /\ accounted (Generic.push_report_file journaling w result_path)
       (push_report_file w result_path)
  /\ accounted (Generic.run_publish journaling w message_site result_path)
       (run_publish w message_site result_path)
  /\ accounted
       (Generic.run_pass journaling w result_dir ingest_pipe message_site)
       (run_pass w result_dir ingest_pipe message_site).
Proof.
  split; [apply accounted_ret_0_parser|].
  split; [apply accounted_onyx_submission|].
  split; [apply accounted_add_reads_record|].
  split; [apply accounted_add_taxon_records|].
  split; [apply accounted_push_report_file|].
  split; [apply accounted_run_publish|].
  apply accounted_run_pass.
Qed.

(** ** C10: where the report goes and what the record links *)

Lemma append_cancel_l (c s1 s2 : string) : c +:+ s1 = c +:+ s2 -> s1 = s2.
Proof.
  induction c as [|a c IH]; cbn; [done|]. intros [= H]. by apply IH.
Qed.

(** C10.  For every payload with CID [c], [push_report_file] first uploads
    the report to the reports bucket under [c_scylla_report.html]; unless
    that upload raises something other than a [ClientError], it then
    updates the record with [validation_report] set to
    [s3://mscapetest-published-reports/c_validation_report.html]; these are
    all its external calls, and the linked URI is not the location of the
    uploaded object. *)
Theorem push_report_file_key_and_link (w : world) (result_path : string)
    (st : state) (c : string) :
  cid (st_payload st) = Some c ->
  let path := path_join result_path (uuid (st_payload st) +:+ "_report.html") in
  let key := c +:+ "_scylla_report.html" in
  let link :=
    "s3://mscapetest-published-reports/" +:+ c +:+ "_validation_report.html" in
  let linked :=
    [Update "mscapetest" (Some c) (StrFields [("validation_report", link)])] in
  st_events (push_report_file w result_path st).2
  = st_events st
    ++ Upload path "mscapetest-published-reports" key
       :: match upload_file w path "mscapetest-published-reports" key with
          | Some e => if is_ClientError e then linked else []
          | None => linked
          end
  /\ link <> "s3://" +:+ "mscapetest-published-reports" +:+ "/" +:+ key.
Proof.
  intros Hcid path key link linked. split.
  - unfold push_report_file, update_and_merge, update, upload, report_key,
      validation_report_uri, report_path, reports_bucket, fmt_cid,
      try_except, json, merge_messages, assign_client_error,
      append_ingest_error, modify, bind, get_payload, emit, lift_result, ret.
    cbn -[path_join String.append]. rewrite Hcid.
    fold path key link.
    destruct (upload_file w path "mscapetest-published-reports" key)
      as [[]|]; cbn -[path_join String.append]; rewrite ?Hcid;
      fold link; try done.
    all: destruct (onyx_update w "mscapetest" (Some c)
                     (StrFields [("validation_report", link)])) as [resp|];
      cbn -[path_join String.append].
    all: try destruct (status_code resp =? 200);
      cbn -[path_join String.append].
    all: try destruct (resp_json resp); cbn -[path_join String.append].
    all: by rewrite <- app_assoc.
  - subst link key. cbn. intros [= H]. change ("" +:+ ?x) with x in H.
    apply append_cancel_l in H. discriminate H.
Qed.

Lemma push_report_file_key_and_link_witness :
  st_events
    (push_report_file calm_world "/res/uuid-1"
       (start (created_payload "ont"))).2
  = [Upload "/res/uuid-1/uuid-1_report.html" "mscapetest-published-reports"
       "C-123_scylla_report.html";
     Update "mscapetest" (Some "C-123")
       (StrFields
          [("validation_report",
            "s3://mscapetest-published-reports/C-123_validation_report.html")])]
  /\ "s3://mscapetest-published-reports/C-123_validation_report.html"
     <> "s3://mscapetest-published-reports/C-123_scylla_report.html".
Proof.
  apply (push_report_file_key_and_link calm_world "/res/uuid-1"
           (start (created_payload "ont")) "C-123").
  reflexivity.
Defined.

(** * Further properties *)

(** ** Invariants, stage by stage *)

Section Keeps.

Context (R : payload -> payload -> Prop) (E : payload -> event -> Prop).
Context (R_refl : forall p, R p p).
Context (R_trans : forall p1 p2 p3, R p1 p2 -> R p2 p3 -> R p1 p3).
Context (E_trans : forall p1 p2 e, R p1 p2 -> E p2 e -> E p1 e).

Lemma keeps_here {A} (m : M A) :
  (forall st, (m st).2 = st) -> keeps R E m.
Proof.
  intros H st. rewrite H. split; [apply R_refl|].
  exists []. by rewrite app_nil_r.
Qed.

Lemma keeps_step (st1 st2 st3 : state) :
  (R (st_payload st1) (st_payload st2)
   /\ exists new,
        st_events st2 = st_events st1 ++ new
        /\ Forall (E (st_payload st1)) new) ->
  (R (st_payload st2) (st_payload st3)
   /\ exists new,
        st_events st3 = st_events st2 ++ new
        /\ Forall (E (st_payload st2)) new) ->
  R (st_payload st1) (st_payload st3)
  /\ exists new,
       st_events st3 = st_events st1 ++ new
       /\ Forall (E (st_payload st1)) new.
Proof.
  intros [H12 (n12 & He12 & Hs12)] [H23 (n23 & He23 & Hs23)].
  split; [by eapply R_trans|].
  exists (n12 ++ n23). split.
  - by rewrite He23, He12, app_assoc.
  - apply Forall_app. split; [done|].
    eapply Forall_impl; [exact Hs23|]. intros e. by apply E_trans.
Qed.

Lemma keeps_ret {A} (a : A) : keeps R E (ret a).
Proof. by apply keeps_here. Qed.

Lemma keeps_raise {A} (e : exn) : keeps R E (@raise A e).
Proof. by apply keeps_here. Qed.

Lemma keeps_lift_result {A} (r : result A) : keeps R E (lift_result r).
Proof. by apply keeps_here. Qed.

Lemma keeps_get_payload : keeps R E get_payload.
Proof. by apply keeps_here. Qed.

Lemma keeps_read (x : string) : keeps R E (read x).
Proof.
  apply keeps_here. intros st. unfold read.
  by destruct (dict_get x (st_frame st)).
Qed.

Lemma keeps_assign (x : string) (b : bool) : keeps R E (assign x b).
Proof.
  intros st. split; [apply R_refl|]. exists []. by rewrite app_nil_r.
Qed.

Lemma keeps_modify (f : payload -> payload) :
  (forall p, R p (f p)) -> keeps R E (modify f).
Proof.
  intros Hf st. split; [apply Hf|]. exists []. by rewrite app_nil_r.
Qed.

Lemma keeps_emit (e : event) : (forall p, E p e) -> keeps R E (emit e).
Proof.
  intros He st. split; [apply R_refl|].
  exists [e]. split; [done|]. by apply Forall_singleton.
Qed.

Lemma keeps_send_payload (exchange : string) :
  (forall p, E p (Send exchange (PayloadBody p))) ->
  keeps R E (send_payload exchange).
Proof.
  intros He st. split; [apply R_refl|].
  exists [Send exchange (PayloadBody (st_payload st))]. split; [done|].
  by apply Forall_singleton.
Qed.

Lemma keeps_bind {A B} (m : M A) (k : A -> M B) :
  keeps R E m -> (forall a, keeps R E (k a)) -> keeps R E (bind m k).
Proof.
  intros Hm Hk st. unfold bind. specialize (Hm st).
  destruct (m st) as [[a|e] st1]; [|done].
  eapply keeps_step; [exact Hm|]. apply Hk.
Qed.

(** When the first part always raises, what follows it does not matter. *)
Lemma keeps_bind_raises {A B} (m : M A) (k : A -> M B) :
  keeps R E m -> (forall st a, (m st).1 <> Ret a) -> keeps R E (bind m k).
Proof.
  intros Hm Hraises st. unfold bind. specialize (Hm st).
  specialize (Hraises st).
  destruct (m st) as [[a|e] st1]; [|done]. by destruct (Hraises a).
Qed.

(** What follows may rely on a fact about what the first part returns. *)
Lemma keeps_bind_when {A B} (P : A -> Prop) (m : M A) (k : A -> M B) :
  keeps R E m -> (forall st a, (m st).1 = Ret a -> P a) ->
  (forall a, P a -> keeps R E (k a)) -> keeps R E (bind m k).
Proof.
  intros Hm HP Hk st. unfold bind. specialize (Hm st).
  specialize (HP st).
  destruct (m st) as [[a|e] st1]; [|done].
  eapply keeps_step; [exact Hm|]. apply Hk. by apply HP.
Qed.

Lemma keeps_try_except {A} (catches : exn -> bool) (body : M A)
    (handler : exn -> M A) :
  keeps R E body -> (forall e, keeps R E (handler e)) ->
  keeps R E (try_except catches body handler).
Proof.
  intros Hbody Hhandler st. unfold try_except. specialize (Hbody st).
  destruct (body st) as [[a|e] st1]; [done|].
  destruct (catches e); [|done].
  eapply keeps_step; [exact Hbody|]. apply Hhandler.
Qed.

Lemma keeps_in_new_frame {A} (body : M A) :
  keeps R E body -> keeps R E (in_new_frame body).
Proof.
  intros Hbody st. unfold in_new_frame.
  specialize (Hbody (mkState (st_payload st) (st_events st) [])).
  by destruct (body _) as [r st1].
Qed.

Lemma keeps_call_with_keywords {A} (name : string)
    (params kwargs : list string) (f : M A) :
  keeps R E f -> keeps R E (call_with_keywords name params kwargs f).
Proof.
  intros Hf. unfold call_with_keywords.
  destruct (unexpected_keyword params kwargs); [|done]. apply keeps_raise.
Qed.

Lemma keeps_for_each {A B} (body : B -> A -> M B) (xs : list A) (acc : B) :
  (forall b a, keeps R E (body b a)) -> keeps R E (for_each body xs acc).
Proof.
  intros Hbody. revert acc.
  induction xs as [|x xs IH]; intros acc; cbn.
  - apply keeps_ret.
  - apply keeps_bind; [apply Hbody|apply IH].
Qed.

End Keeps.

(** One step through the structure of a stage.  [side] proves the
    conditions on the two relations, [payload_tac] that a write to the
    payload is allowed, [event_tac] that an event is. *)
Ltac keeps_step_with side payload_tac event_tac :=
  match goal with
  | |- keeps _ _ (bind _ _) => apply keeps_bind; [side.. | | intros ?]
  | |- keeps _ _ (try_except _ _ _) =>
      apply keeps_try_except; [side.. | | intros ?]
  | |- keeps _ _ (for_each _ _ _) =>
      apply keeps_for_each; [side.. | intros ? ?]
  | |- keeps _ _ (in_new_frame _) => apply keeps_in_new_frame
  | |- keeps _ _ (call_with_keywords _ _ _ _) =>
      apply keeps_call_with_keywords; [side.. | ]
  | |- keeps _ _ (ret _) => apply keeps_ret; side
  | |- keeps _ _ (raise _) => apply keeps_raise; side
  | |- keeps _ _ (lift_result _) => apply keeps_lift_result; side
  | |- keeps _ _ get_payload => apply keeps_get_payload; side
  | |- keeps _ _ (read _) => apply keeps_read; side
  | |- keeps _ _ (assign _ _) => apply keeps_assign; side
  | |- keeps _ _ (send_payload _) =>
      apply keeps_send_payload; [side.. | intros ?; event_tac]
  | |- keeps _ _ (emit _) => apply keeps_emit; [side.. | intros ?; event_tac]
  | |- keeps _ _ (modify _) => apply keeps_modify; intros ?; payload_tac
  | |- keeps _ _ (if ?c then _ else _) => destruct c
  | |- keeps _ _ (match ?x with _ => _ end) => destruct x
  end.

(** The stages, opened up to the operations of the monad. *)
Ltac open_stages :=
  unfold run_pass, run_publish, execute_validation_pipeline, execute,
    file_uri, ret_0_parser, check_process, onyx_submission,
    onyx_submission_try, create_dispatch, fail_with_client_error,
    payload_file, add_reads_record, link_reads, raw_illumina_read,
    add_taxon_records, binned_taxon, binned_illumina_read, filename,
    push_report_file, update_and_merge, update, upload, json, send_if,
    unpack_reads_result, unpack_unsuppress, onyx_unsuppress,
    append_ingest_error, assign_client_error, merge_messages.

(** ** The identity of the artifact *)

Lemma same_identity_refl (p : payload) : same_identity p p.
Proof. by repeat split. Qed.

Lemma same_identity_trans (p1 p2 p3 : payload) :
  same_identity p1 p2 -> same_identity p2 p3 -> same_identity p1 p3.
Proof. unfold same_identity. intros H12 H23. intuition congruence. Qed.

Lemma carries_identity_trans (p1 p2 : payload) (e : event) :
  same_identity p1 p2 -> carries_identity p2 e -> carries_identity p1 e.
Proof.
  intros H12. destruct e as [| |? [p|]| | |]; cbn; try done.
  by apply same_identity_trans.
Qed.

Ltac identity_side :=
  first [ exact same_identity_refl | exact same_identity_trans
        | exact carries_identity_trans ].

Ltac identity :=
  repeat keeps_step_with identity_side
    ltac:(by repeat split)
    ltac:(first [ exact I | apply same_identity_refl ]).

(** X25.  Neither the pass nor any stage changes the uuid, the artifact name,
    the project, the site, the platform, the file references or the two
    flags set upstream, whether it returns or raises, and every payload it
    sends carries them unchanged. *)
Theorem identity_is_kept (w : world)
    (result_dir message_site result_path : string) (ingest_pipe : pipeline)
    (c : option string) (ingest_fail : bool) :
  keeps same_identity carries_identity
    (run_pass w result_dir ingest_pipe message_site)
  /\ keeps same_identity carries_identity
       (ret_0_parser w message_site result_path ingest_fail)
  /\ keeps same_identity carries_identity (onyx_submission w)
  /\ keeps same_identity carries_identity
       (add_reads_record w c result_path)
  /\ keeps same_identity carries_identity (add_taxon_records w result_path)
  /\ keeps same_identity carries_identity (push_report_file w result_path)
  /\ keeps same_identity carries_identity
       (run_publish w message_site result_path).
Proof. repeat apply conj; open_stages; identity. Qed.

(** ** What [add_reads_record] returns *)

Lemma bind_never {A B} (m : M A) (k : A -> M B) (v : B) :
  (forall a st, (k a st).1 <> Ret v) -> forall st, (bind m k st).1 <> Ret v.
Proof.
  intros Hk st. unfold bind. destruct (m st) as [[a|e] st1]; [apply Hk|done].
Qed.

Lemma link_reads_never_false (w : world) (c : option string)
    (fields : update_fields) (raw_read_fail : bool) (st : state) :
  (link_reads w c fields raw_read_fail st).1 <> Ret (ReadsTuple false).
Proof.
  unfold link_reads, update, try_except, bind, emit, lift_result, ret.
  destruct raw_read_fail; cbn; [done|].
  destruct (onyx_update w "mscapetest" c fields) as [resp|e]; cbn; [done|].
  by destruct (is_HTTPError e).
Qed.

Lemma add_reads_record_tuple_is_failure (w : world) (c : option string)
    (result_path : string) (st : state) :
  (add_reads_record w c result_path st).1 <> Ret (ReadsTuple false).
Proof.
  unfold add_reads_record. revert st. apply bind_never. intros p.
  destruct (String.eqb (platform p) "illumina").
  - apply bind_never. intros raw. apply bind_never. intros p'.
    apply link_reads_never_false.
  - apply bind_never. intros raw. apply bind_never. intros p'.
    apply link_reads_never_false.
Qed.

(** X16.  [add_reads_record] never returns [(False, payload)]: when nothing
    failed it returns the response of the update call, and every tuple it
    builds has [raw_read_fail = True]. *)
Theorem add_reads_record_never_returns_false (w : world)
    (c : option string) (result_path : string) (st : state) :
  (add_reads_record w c result_path st).1 <> Ret (ReadsTuple false).
Proof. apply add_reads_record_tuple_is_failure. Qed.

(** ** The publish stage never finalises *)

Lemma same_ingested_trans (p1 p2 p3 : payload) :
  same_ingested p1 p2 -> same_ingested p2 p3 -> same_ingested p1 p3.
Proof. unfold same_ingested. congruence. Qed.

Ltac ingested_side :=
  first [ exact (fun p => eq_refl (ingested p)) | exact same_ingested_trans
        | exact (fun _ _ e _ (H : not_new_artifact _ e) => H) ].

Ltac ingested :=
  repeat keeps_step_with ingested_side
    ltac:(reflexivity) ltac:(exact I).

Lemma ingested_add_reads_record (w : world) (c : option string)
    (result_path : string) :
  keeps same_ingested not_new_artifact (add_reads_record w c result_path).
Proof. open_stages. ingested. Qed.

(** X23.  For every world and every state, [run_publish] leaves [ingested] as it
    was and sends no new-artifact notification: its last branch is never
    reached, because the result of [add_reads_record] either does not
    unpack or has [raw_read_fail = True]. *)
Theorem run_publish_never_finalises (w : world)
    (message_site result_path : string) :
  keeps same_ingested not_new_artifact
    (run_publish w message_site result_path).
Proof.
  unfold run_publish.
  apply keeps_bind; [ingested_side.. | ingested | intros p].
  apply keeps_bind_when with (P := fun r => r <> ReadsTuple false);
    [ingested_side.. | apply ingested_add_reads_record | | ].
  { intros st a Hret ->.
    by apply (add_reads_record_tuple_is_failure w (cid p) result_path st). }
  intros r Hr.
  apply keeps_bind_when with (P := fun b => b = true);
    [ingested_side.. | unfold unpack_reads_result; ingested | | ].
  { intros st b. destruct r as [[]|resp]; cbn; congruence. }
  intros raw ->. cbn [orb]. open_stages. ingested.
Qed.

(** ** Stepping through a pass *)

Lemma bind_Ret {A B} (m : M A) (k : A -> M B) (st st' : state) (a : A) :
  m st = (Ret a, st') -> bind m k st = k a st'.
Proof. intros H. unfold bind. by rewrite H. Qed.

Lemma bind_Raise {A B} (m : M A) (k : A -> M B) (st st' : state) (e : exn) :
  m st = (Raise e, st') -> bind m k st = (Raise e, st').
Proof. intros H. unfold bind. by rewrite H. Qed.

(** The executor leaves the payload alone; when it returns, it has started
    the pipeline once. *)
Lemma execute_validation_pipeline_returns (w : world) (result_dir : string)
    (ingest_pipe : pipeline) (st : state) (r : Z * bool * string * string) :
  (execute_validation_pipeline w result_dir ingest_pipe st).1 = Ret r ->
  exists params,
    execute_validation_pipeline w result_dir ingest_pipe st
    = (Ret r,
       mkState (st_payload st)
         (st_events st
          ++ [Subprocess (build_cmd ingest_pipe params)
                (timeout_seconds ingest_pipe)])
         (st_frame st)).
Proof.
  unfold execute_validation_pipeline, execute, file_uri, bind, get_payload,
    emit, ret, raise.
  cbn -[build_cmd base_parameters dict_set].
  repeat (case_match; cbn -[build_cmd base_parameters dict_set] in *;
          simplify_eq; try done).
  all: intros [= <-]; eexists; reflexivity.
Qed.

(** ** The gates of [run] *)

(** X1.  A payload of another project is skipped: the pass returns at once,
    having changed nothing and called nothing. *)
Theorem other_project_is_skipped (w : world) (result_dir : string)
    (ingest_pipe : pipeline) (message_site : string) (st : state) :
  project (st_payload st) <> "mscapetest" ->
  run_pass w result_dir ingest_pipe message_site st = (Ret tt, st).
Proof.
  intros H%String.eqb_neq. unfold run_pass, bind, get_payload. cbn.
  by rewrite H.
Qed.

Lemma other_project_is_skipped_witness :
  run_pass calm_world "/res" (ingest_pipe None "nextflow") "birm"
    (start (mkPayload "uuid-3" "synthscape.run1" "synthscape" "birm" None
              "ont" ont_files None false false true None ∅ false [] true
              false))
  = (Ret tt,
     start (mkPayload "uuid-3" "synthscape.run1" "synthscape" "birm" None
              "ont" ont_files None false false true None ∅ false [] true
              false)).
Proof. apply other_project_is_skipped. discriminate. Defined.

(** X2.  A payload that failed the preliminary test create is forwarded as it
    is: one message with the unchanged payload goes to the results
    exchange, and neither the pipeline nor any other collaborator is
    called. *)
Theorem failed_test_create_is_forwarded (w : world) (result_dir : string)
    (ingest_pipe : pipeline) (message_site : string) (st : state) :
  project (st_payload st) = "mscapetest" ->
  onyx_test_create_status (st_payload st) = false ->
  run_pass w result_dir ingest_pipe message_site st
  = (Ret tt,
     mkState (st_payload st)
       (st_events st
        ++ [Send (results_exchange message_site) (PayloadBody (st_payload st))])
       (st_frame st)).
Proof.
  intros Hproject Hstatus.
  unfold run_pass, send_payload, bind, get_payload, emit.
  cbn -[results_exchange]. by rewrite Hproject, Hstatus.
Qed.

Lemma failed_test_create_is_forwarded_witness :
  let p :=
    mkPayload "uuid-4" "mscapetest.run4" "mscapetest" "birm" None "ont"
      ont_files None false false false None ∅ false [] true false in
  run_pass calm_world "/res" (ingest_pipe None "nextflow") "birm" (start p)
  = (Ret tt,
     mkState p ([] ++ [Send (results_exchange "birm") (PayloadBody p)]) []).
Proof.
  intros p.
  apply (failed_test_create_is_forwarded calm_world "/res"
           (ingest_pipe None "nextflow") "birm" (start p));
    reflexivity.
Defined.

(** X3.  A read file the platform needs but the payload does not reference
    stops the pass with [KeyError]: the pipeline is not started, nothing is
    recorded and nothing is sent. *)
Theorem missing_read_file_raises (w : world) (result_dir : string)
    (ingest_pipe : pipeline) (message_site : string) (st : state)
    (ext : string) :
  project (st_payload st) = "mscapetest" ->
  onyx_test_create_status (st_payload st) = true ->
  platform (st_payload st) = "ont" /\ ext = ".fastq.gz"
  \/ platform (st_payload st) = "illumina"
     /\ (ext = ".1.fastq.gz"
         \/ ext = ".2.fastq.gz"
            /\ is_Some (files (st_payload st) !! ".1.fastq.gz")) ->
  files (st_payload st) !! ext = None ->
  run_pass w result_dir ingest_pipe message_site st
  = (Raise (KeyError ext), st).
Proof.
  intros Hproject Hstatus Hplatform Hmissing.
  unfold run_pass, execute_validation_pipeline, file_uri, bind, get_payload.
  cbn -[results_exchange base_parameters]. rewrite Hproject, Hstatus.
  cbn -[results_exchange base_parameters].
  destruct Hplatform as [[-> ->]|[-> [->|[-> [f Hf]]]]];
    cbn -[results_exchange base_parameters];
    rewrite ?Hf; cbn -[results_exchange base_parameters];
    by rewrite Hmissing.
Qed.

Lemma missing_read_file_raises_witness :
  let p :=
    mkPayload "uuid-5" "mscapetest.run5" "mscapetest" "birm" None "illumina"
      (<[".1.fastq.gz" := mkFileRef "s3://b/run5.1.fastq.gz" "e1"]> ∅)
      None false false true None ∅ false [] true false in
  run_pass calm_world "/res" (ingest_pipe None "nextflow") "birm" (start p)
  = (Raise (KeyError ".2.fastq.gz"), start p).
Proof.
  intros p.
  apply (missing_read_file_raises calm_world "/res"
           (ingest_pipe None "nextflow") "birm" (start p) ".2.fastq.gz").
  - reflexivity.
  - reflexivity.
  - right. split; [reflexivity|]. right. split; [reflexivity|].
    vm_compute. by eexists.
  - vm_compute. reflexivity.
Defined.

(** X5.  When the pipeline exits with a code other than 0 the pass writes its
    output to the two files, appends one error naming the code and sends the
    payload once; the trace is not read and Onyx and S3 are not called. *)
Theorem nonzero_exit_is_reported (w : world) (result_dir : string)
    (ingest_pipe : pipeline) (message_site : string) (st : state)
    (rc : Z) (out err : string) :
  project (st_payload st) = "mscapetest" ->
  onyx_test_create_status (st_payload st) = true ->
  (execute_validation_pipeline w result_dir ingest_pipe st).1
    = Ret (rc, false, out, err) ->
  rc <> 0 ->
  let p := st_payload st in
  let result_path := path_join result_dir (uuid p) in
  let p' :=
    set_ingest_errors
      (ingest_errors p
       ++ ["Scylla exited with non-0 exit code: " +:+ pretty rc]) p in
  exists params,
    run_pass w result_dir ingest_pipe message_site st
    = (Ret tt,
       mkState p'
         (st_events st
          ++ [Subprocess (build_cmd ingest_pipe params)
                (timeout_seconds ingest_pipe);
              WriteFile (path_join result_path "nextflow.stdout") out;
              WriteFile (path_join result_path "nextflow.stderr") err;
              Send (results_exchange message_site) (PayloadBody p')])
         (st_frame st)).
Proof.
  intros Hproject Hstatus Hexec Hrc p result_path p'.
  destruct (execute_validation_pipeline_returns _ _ _ _ _ Hexec)
    as (params & Hevp).
  exists params. unfold run_pass. cbv zeta.
  erewrite bind_Ret by reflexivity. cbn [st_payload].
  rewrite Hproject, Hstatus.
  cbn [String.eqb Ascii.eqb Bool.eqb negb].
  erewrite bind_Ret by exact Hevp.
  apply Z.eqb_neq in Hrc.
  unfold append_ingest_error, send_payload, modify, bind, get_payload, emit.
  cbn -[results_exchange path_join pretty String.append build_cmd].
  rewrite Hrc. cbn -[results_exchange path_join pretty String.append build_cmd].
  fold p result_path p'. by rewrite <- !app_assoc.
Qed.

Lemma nonzero_exit_is_reported_witness :
  exists params,
    run_pass (with_subprocess (Completed 1 "" "No such file") calm_world)
      "/res" (ingest_pipe None "nextflow") "birm" (start (ont_payload false))
    = (Ret tt,
       mkState
         (set_ingest_errors ([] ++ ["Scylla exited with non-0 exit code: 1"])
            (ont_payload false))
         ([] ++ [Subprocess (build_cmd (ingest_pipe None "nextflow") params)
                   3600;
                 WriteFile "/res/uuid-1/nextflow.stdout" "";
                 WriteFile "/res/uuid-1/nextflow.stderr" "No such file";
                 Send "inbound.results.mscape.birm"
                   (PayloadBody
                      (set_ingest_errors
                         ([] ++ ["Scylla exited with non-0 exit code: 1"])
                         (ont_payload false)))])
         []).
Proof.
  apply (nonzero_exit_is_reported
           (with_subprocess (Completed 1 "" "No such file") calm_world)
           "/res" (ingest_pipe None "nextflow") "birm"
           (start (ont_payload false)) 1 "" "No such file");
    vm_compute; (reflexivity || discriminate).
Defined.

(** ** The trace dict *)

Lemma dict_get_dict_set {V} (k k' : string) (v : V) (d : list (string * V)) :
  dict_get k (dict_set k' v d)
  = if String.eqb k k' then Some v else dict_get k d.
Proof.
  induction d as [|[k0 v0] d IH]; cbn.
  - done.
  - destruct (String.eqb k' k0) eqn:Hk'; cbn.
    + apply String.eqb_eq in Hk' as ->. by destruct (String.eqb k k0).
    + destruct (String.eqb k k0) eqn:Hk; [|done].
      apply String.eqb_eq in Hk as ->.
      by rewrite String.eqb_sym, Hk'.
Qed.

Lemma find_snoc {V} (f : V -> bool) (l : list V) (x : V) :
  find f (l ++ [x])
  = match find f l with
    | Some y => Some y
    | None => if f x then Some x else None
    end.
Proof.
  induction l as [|y l IH]; cbn; [done|]. by destruct (f y).
Qed.

Lemma dict_get_fold_trace (rows : list trace_row) (d : list (string * trace_row))
    (k : string) :
  dict_get k
    (fold_left (fun d r => dict_set (last_segment (tr_name r)) r d) rows d)
  = match find (fun r => String.eqb k (last_segment (tr_name r))) (rev rows)
    with
    | Some r => Some r
    | None => dict_get k d
    end.
Proof.
  revert d. induction rows as [|r rows IH]; intros d; cbn; [done|].
  rewrite IH, find_snoc.
  destruct (find _ (rev rows)); [done|].
  rewrite dict_get_dict_set.
  by destruct (String.eqb k (last_segment (tr_name r))).
Qed.

(** X7.  Last write wins: under a short name the trace dict holds the last row
    of the trace whose qualified name ends in it, and nothing under a name
    that no row ends in. *)
Theorem trace_dict_keeps_last_row (rows : list trace_row) (k : string) :
  dict_get k (build_trace_dict rows)
  = find (fun r => String.eqb k (last_segment (tr_name r))) (rev rows).
Proof.
  unfold build_trace_dict. rewrite dict_get_fold_trace.
  by destruct (find _ (rev rows)).
Qed.

(** ** Short names *)

Lemma last_segment_from_no_colon (acc s : string) :
  contains_colon s = false -> last_segment_from acc s = acc.
Proof.
  induction s as [|c s IH]; cbn; [done|].
  destruct (Ascii.eqb c ":"); cbn; [done|]. apply IH.
Qed.

Lemma last_segment_from_qualified (acc a b : string) :
  last_segment_from acc (a +:+ ":" +:+ b) = last_segment_from b b.
Proof.
  revert acc. induction a as [|c a IH]; intros acc; simpl; [done|].
  destruct (Ascii.eqb c ":"); apply IH.
Qed.

(** X6.  The short name of a qualified process name is what follows its last
    colon: for a part [b] without a colon, [a:b] is shortened to [b]
    whatever [a] is. *)
Theorem last_segment_of_qualified_name (a b : string) :
  contains_colon b = false -> last_segment (a +:+ ":" +:+ b) = b.
Proof.
  intros H. unfold last_segment.
  rewrite last_segment_from_qualified. by apply last_segment_from_no_colon.
Qed.

Lemma last_segment_of_qualified_name_witness :
  last_segment ("SCYLLA:EXTRACT" +:+ ":" +:+ "extract_reads") = "extract_reads".
Proof. apply last_segment_of_qualified_name. reflexivity. Defined.

(** ** A trace that was read *)

Lemma check_process_closed (b : bool) (entry : string * trace_row)
    (st : state) :
  check_process b entry st
  = (Ret (b || row_failed entry),
     mkState
       (set_ingest_errors
          (ingest_errors (st_payload st)
           ++ (if row_failed entry then [row_reason entry] else []))
          (st_payload st))
       (st_events st) (st_frame st)).
Proof.
  destruct entry as [process trace].
  unfold check_process, row_failed, row_reason. cbn [fst snd].
  destruct (negb (String.eqb (tr_exit trace) "0")).
  - rewrite orb_true_r. by destruct (human_reads_condition process trace).
  - rewrite orb_false_r, app_nil_r. by destruct st as [[] ? ?].
Qed.

Lemma for_each_check_process_closed (d : list (string * trace_row))
    (b : bool) (st : state) :
  for_each check_process d b st
  = (Ret (b || existsb row_failed d),
     mkState
       (set_ingest_errors
          (ingest_errors (st_payload st)
           ++ map row_reason (List.filter row_failed d))
          (st_payload st))
       (st_events st) (st_frame st)).
Proof.
  revert b st. induction d as [|entry d IH]; intros b st.
  - cbn. rewrite orb_false_r, app_nil_r. by destruct st as [[] ? ?].
  - cbn [for_each existsb List.filter]. unfold bind.
    rewrite check_process_closed, IH. cbn [st_payload st_events st_frame].
    rewrite orb_assoc.
    destruct (row_failed entry); cbn.
    + by rewrite <- app_assoc.
    + by rewrite app_nil_r.
Qed.

Lemma ret_0_parser_readable (w : world) (message_site result_path : string)
    (ingest_fail : bool) (st : state) (rows : list trace_row) :
  read_trace w (trace_path result_path (uuid (st_payload st)))
    = TraceRows rows None ->
  ret_0_parser w message_site result_path ingest_fail st
  = (Ret (ingest_fail || existsb row_failed (build_trace_dict rows)),
     mkState
       (set_ingest_errors
          (ingest_errors (st_payload st)
           ++ map row_reason (List.filter row_failed (build_trace_dict rows)))
          (st_payload st))
       (st_events st) (st_frame st)).
Proof.
  intros H. unfold ret_0_parser, bind, get_payload.
  cbn -[trace_path build_trace_dict for_each]. rewrite H.
  cbn -[trace_path build_trace_dict for_each].
  apply for_each_check_process_closed.
Qed.

(** X8.  When the trace is read to its end, [ret_0_parser] sends nothing and
    appends one reason for every entry of the trace dict whose exit status
    is not "0", in the order the short names first appeared; it returns
    [True] if there is such an entry, and the [ingest_fail] it was given
    otherwise. *)
Theorem ret_0_parser_reports_failed_entries (w : world)
    (message_site result_path : string) (ingest_fail : bool) (st : state)
    (rows : list trace_row) :
  read_trace w (trace_path result_path (uuid (st_payload st)))
    = TraceRows rows None ->
  ret_0_parser w message_site result_path ingest_fail st
  = (Ret (ingest_fail || existsb row_failed (build_trace_dict rows)),
     mkState
       (set_ingest_errors
          (ingest_errors (st_payload st)
           ++ map row_reason (List.filter row_failed (build_trace_dict rows)))
          (st_payload st))
       (st_events st) (st_frame st)).
Proof. apply ret_0_parser_readable. Qed.

(** A process that failed and then succeeded on a retry leaves no trace in
    the payload: only its last row counts. *)
Lemma ret_0_parser_reports_failed_entries_witness :
  let rows :=
    [mkTraceRow "SCYLLA:PREPROCESS:fastp (1)" "1" "FAILED";
     mkTraceRow "SCYLLA:PREPROCESS:fastp (1)" "0" "COMPLETED";
     mkTraceRow "SCYLLA:CLASSIFY:kraken2_client" "137" "FAILED"] in
  ret_0_parser (with_trace (TraceRows rows None) calm_world) "birm"
    "/res/uuid-1" false (start (ont_payload true))
  = (Ret true,
     mkState
       (set_ingest_errors
          ["MScape validation pipeline (Scylla) failed in process kraken2_client with exit code 137 and status FAILED"]
          (ont_payload true))
       [] []).
Proof.
  intros rows.
  rewrite (ret_0_parser_reports_failed_entries
             (with_trace (TraceRows rows None) calm_world) "birm"
             "/res/uuid-1" false (start (ont_payload true)) rows).
  - reflexivity.
  - reflexivity.
Defined.

(** ** Test mode *)

(** X10.  In test mode, when the pipeline exited 0 and the trace was read, the
    pass ends after the trace: it sets [test_ingest_result], also when the
    trace holds failed processes, whose reasons are in [ingest_errors], and
    sends the payload once.  Onyx and S3 are not called. *)
Theorem test_mode_pass_ends_after_trace (w : world) (result_dir : string)
    (ingest_pipe : pipeline) (message_site : string) (st : state)
    (rows : list trace_row) (out err : string) :
  let p := st_payload st in
  let result_path := path_join result_dir (uuid p) in
  project p = "mscapetest" ->
  onyx_test_create_status p = true ->
  test_flag p = true ->
  (execute_validation_pipeline w result_dir ingest_pipe st).1
    = Ret (0, false, out, err) ->
  read_trace w (trace_path result_path (uuid p)) = TraceRows rows None ->
  let p' :=
    set_test_ingest_result true
      (set_ingest_errors
         (ingest_errors p
          ++ map row_reason (List.filter row_failed (build_trace_dict rows)))
         p) in
  exists params,
    run_pass w result_dir ingest_pipe message_site st
    = (Ret tt,
       mkState p'
         (st_events st
          ++ [Subprocess (build_cmd ingest_pipe params)
                (timeout_seconds ingest_pipe);
              WriteFile (path_join result_path "nextflow.stdout") out;
              WriteFile (path_join result_path "nextflow.stderr") err;
              Send (results_exchange message_site) (PayloadBody p')])
         (st_frame st)).
Proof.
  intros p result_path Hproject Hstatus Htest Hexec Htrace p'.
  destruct (execute_validation_pipeline_returns _ _ _ _ _ Hexec)
    as (params & Hevp).
  exists params. unfold run_pass. cbv zeta.
  erewrite bind_Ret by reflexivity. cbn [st_payload]. fold p.
  rewrite Hproject, Hstatus.
  cbn [String.eqb Ascii.eqb Bool.eqb negb].
  erewrite bind_Ret by exact Hevp.
  cbn [Z.eqb negb].
  erewrite bind_Ret by reflexivity.
  erewrite bind_Ret by reflexivity.
  erewrite bind_Ret by reflexivity.
  cbn [st_payload]. fold p result_path.
  erewrite bind_Ret by (apply ret_0_parser_readable; exact Htrace).
  erewrite bind_Ret by reflexivity.
  cbn [st_payload test_flag set_ingest_errors]. rewrite Htest.
  unfold send_payload, modify, bind, get_payload, emit.
  cbn -[results_exchange path_join build_cmd build_trace_dict].
  fold p result_path. by rewrite <- !app_assoc.
Qed.

Lemma test_mode_pass_ends_after_trace_witness :
  let rows := [mkTraceRow "SCYLLA:EXTRACT:extract_reads" "2" "FAILED"] in
  let p' :=
    set_test_ingest_result true
      (set_ingest_errors ([] ++ [human_reads_error]) (ont_payload true)) in
  exists params,
    run_pass (with_trace (TraceRows rows None) calm_world) "/res"
      (ingest_pipe None "nextflow") "birm" (start (ont_payload true))
    = (Ret tt,
       mkState p'
         ([] ++ [Subprocess (build_cmd (ingest_pipe None "nextflow") params)
                   3600;
                 WriteFile "/res/uuid-1/nextflow.stdout" "";
                 WriteFile "/res/uuid-1/nextflow.stderr" "";
                 Send "inbound.results.mscape.birm" (PayloadBody p')])
         []).
Proof.
  intros rows p'.
  apply (test_mode_pass_ends_after_trace
           (with_trace (TraceRows rows None) calm_world) "/res"
           (ingest_pipe None "nextflow") "birm" (start (ont_payload true))
           rows "" "");
    vm_compute; reflexivity.
Defined.

(** ** Record creation, status by status *)

(** X11.  A create answered with any status but 201 and 422 fails the stage: the
    status is stored, the reserved bucket is set to one message, the payload
    is sent once to the results exchange of its [site_code], and
    [(True, payload)] is returned; the CID and the other fields stay as they
    were.  A status outside the table is named in the message. *)
Theorem onyx_submission_rejects_status (w : world) (st : state)
    (csv : file_ref) (resp : response) (sc : string) :
  let p := st_payload st in
  files p !! ".csv" = Some csv ->
  csv_create w (project p) (uri csv) (etag csv) = Ret resp ->
  status_code resp <> 201 ->
  status_code resp <> 422 ->
  site_code p = Some sc ->
  exists msg,
    let p' :=
      set_onyx_errors (<[onyx_client_errors := [msg]]> (onyx_errors p))
        (set_onyx_status_code (Some (status_code resp)) p) in
    onyx_submission w st
    = (Ret true,
       mkState p'
         (st_events st
          ++ [CsvCreate (project p) (uri csv) (etag csv);
              Send (results_exchange sc) (PayloadBody p')])
         (st_frame st))
    /\ (status_code resp ∉ [500; 404; 403; 401; 400; 200] ->
        msg = "Unhandled response status code " +:+ pretty (status_code resp)
              +:+ " from Onyx create").
Proof.
  intros p Hcsv Hcreate H201 H422 Hsite.
  apply Z.eqb_neq in H201, H422.
  unfold onyx_submission, in_new_frame, try_except, onyx_submission_try,
    payload_file, create_dispatch, fail_with_client_error, send_payload,
    assign_client_error, modify, bind, get_payload, lift_result, assign,
    read, emit, ret.
  cbn -[results_exchange pretty String.append]. fold p. rewrite Hcsv.
  cbn -[results_exchange pretty String.append]. fold p. rewrite Hcreate.
  cbn -[results_exchange pretty String.append]. rewrite H201, H422.
  destruct (status_code resp =? 500) eqn:H500;
    [|destruct (status_code resp =? 404) eqn:H404;
      [|destruct (status_code resp =? 403) eqn:H403;
        [|destruct (status_code resp =? 401) eqn:H401;
          [|destruct (status_code resp =? 400) eqn:H400;
            [|destruct (status_code resp =? 200) eqn:H200]]]]];
    cbn -[results_exchange pretty String.append]; fold p; rewrite Hsite;
    cbn -[results_exchange pretty String.append]; fold p;
    eexists; (split; [by rewrite <- app_assoc|]).
  all: try (intros Hnot; exfalso; apply Hnot;
            match goal with
            | H : (status_code _ =? _) = true |- _ =>
                apply Z.eqb_eq in H; rewrite H
            end;
            repeat first [ apply list_elem_of_here
                         | apply list_elem_of_further ]).
  intros _. reflexivity.
Qed.

Lemma onyx_submission_rejects_status_witness :
  let w := with_create (Ret (mkResponse 418 None)) calm_world in
  exists msg,
    let p' :=
      set_onyx_errors (<[onyx_client_errors := [msg]]> ∅)
        (set_onyx_status_code (Some 418) (ont_payload false)) in
    onyx_submission w (start (ont_payload false))
    = (Ret true,
       mkState p'
         ([] ++ [CsvCreate "mscapetest" "s3://mscape-birm-ont-prod/run1.csv"
                   "e0";
                 Send (results_exchange "birm") (PayloadBody p')])
         [])
    /\ (418 ∉ [500; 404; 403; 401; 400; 200] ->
        msg = "Unhandled response status code " +:+ pretty 418
              +:+ " from Onyx create").
Proof.
  intros w.
  apply (onyx_submission_rejects_status w (start (ont_payload false))
           (mkFileRef "s3://mscape-birm-ont-prod/run1.csv" "e0")
           (mkResponse 418 None) "birm");
    vm_compute; (reflexivity || discriminate).
Defined.

(** X12.  An exception of the create call is caught and filed in the reserved
    bucket, and nothing is sent; but [ingest_fail] is unbound on that path,
    so the function then raises [UnboundLocalError] instead of returning. *)
Theorem onyx_submission_transport_error (w : world) (st : state)
    (csv : file_ref) (e : exn) :
  let p := st_payload st in
  files p !! ".csv" = Some csv ->
  csv_create w (project p) (uri csv) (etag csv) = Raise e ->
  onyx_submission w st
  = (Raise (UnboundLocalError "ingest_fail"),
     mkState
       (set_onyx_errors
          (<[onyx_client_errors := ["Unhandled client error " +:+ exn_str e]]>
             (onyx_errors p)) p)
       (st_events st ++ [CsvCreate (project p) (uri csv) (etag csv)])
       (st_frame st)).
Proof.
  intros p Hcsv Hcreate.
  unfold onyx_submission, in_new_frame, try_except, onyx_submission_try,
    payload_file, assign_client_error, modify, bind, get_payload,
    lift_result, read, emit, ret.
  cbn -[String.append exn_str]. fold p. rewrite Hcsv.
  cbn -[String.append exn_str]. fold p. by rewrite Hcreate.
Qed.

Lemma onyx_submission_transport_error_witness :
  let w := with_create (Raise (OtherError "Connection refused")) calm_world in
  onyx_submission w (start (ont_payload false))
  = (Raise (UnboundLocalError "ingest_fail"),
     mkState
       (set_onyx_errors
          (<[onyx_client_errors :=
               ["Unhandled client error "
                +:+ exn_str (OtherError "Connection refused")]]> ∅)
          (ont_payload false))
       ([] ++ [CsvCreate "mscapetest" "s3://mscape-birm-ont-prod/run1.csv"
                 "e0"])
       []).
Proof.
  intros w.
  apply (onyx_submission_transport_error w (start (ont_payload false))
           (mkFileRef "s3://mscape-birm-ont-prod/run1.csv" "e0")
           (OtherError "Connection refused"));
    vm_compute; reflexivity.
Defined.

(** X13.  The CID of a payload changes in [onyx_submission] only when the create
    call answered 201 with a CID in its body, and then it is that CID. *)
Theorem cid_only_from_created_response (w : world) (st : state) :
  let p := st_payload st in
  let p' := st_payload (onyx_submission w st).2 in
  cid p' <> cid p ->
  exists csv resp b c,
    files p !! ".csv" = Some csv
    /\ csv_create w (project p) (uri csv) (etag csv) = Ret resp
    /\ status_code resp = 201
    /\ resp_json resp = Some b
    /\ data_cid b = Some c
    /\ cid p' = Some c.
Proof.
  intros p p'. subst p'.
  unfold onyx_submission, in_new_frame, try_except, onyx_submission_try,
    payload_file, create_dispatch, fail_with_client_error, json,
    merge_messages, send_payload, assign_client_error, modify, bind,
    get_payload, lift_result, assign, read, emit, ret, raise.
  cbn -[results_exchange pretty String.append]. fold p.
  destruct (files p !! ".csv") as [csv|] eqn:Hcsv;
    cbn -[results_exchange pretty String.append]; [|done]. fold p.
  destruct (csv_create w (project p) (uri csv) (etag csv)) as [resp|e]
    eqn:Hcreate; cbn -[results_exchange pretty String.append]; [|done].
  destruct (status_code resp =? 201) eqn:H201.
  - apply Z.eqb_eq in H201. rewrite H201.
    cbn -[results_exchange pretty String.append].
    destruct (resp_json resp) as [b|] eqn:Hjson;
      cbn -[results_exchange pretty String.append]; [|done].
    destruct (data_cid b) as [c|] eqn:Hcid;
      cbn -[results_exchange pretty String.append]; [|done].
    intros _. by exists csv, resp, b, c.
  - repeat (case_match; cbn -[results_exchange pretty String.append] in *;
            simplify_eq; try done).
Qed.

Lemma cid_only_from_created_response_witness :
  exists csv resp b c,
    files (ont_payload false) !! ".csv" = Some csv
    /\ csv_create calm_world (project (ont_payload false)) (uri csv) (etag csv)
       = Ret resp
    /\ status_code resp = 201
    /\ resp_json resp = Some b
    /\ data_cid b = Some c
    /\ cid (st_payload (onyx_submission calm_world
                          (start (ont_payload false))).2) = Some c.
Proof.
  apply (cid_only_from_created_response calm_world (start (ont_payload false))).
  vm_compute. discriminate.
Defined.

(** ** Linking through the update call *)

(** Whether the update call of a publish operation went through. *)
Lemma update_and_merge_result (w : world) (fields : update_fields)
    (fail : bool) (st : state) :
  (update_and_merge w fields fail st).1
  = Ret (fail
         || negb match onyx_update w "mscapetest" (cid (st_payload st)) fields
                 with
                 | Ret resp => status_code resp =? 200
                 | Raise _ => false
                 end).
Proof.
  unfold update_and_merge, update, try_except, json, merge_messages,
    assign_client_error, modify, bind, get_payload, emit, lift_result, ret,
    raise.
  cbn.
  destruct (onyx_update w "mscapetest" (cid (st_payload st)) fields)
    as [resp|e]; cbn; [|by rewrite orb_true_r].
  destruct (status_code resp =? 200); cbn; [by rewrite orb_false_r|].
  rewrite orb_true_r. by destruct (resp_json resp).
Qed.

(** X14.  The update call behind [add_taxon_records] and [push_report_file] never
    lets an exception out, and a failure that came before it sticks: the
    operation reports success exactly when nothing had failed and the update
    was answered 200. *)
Theorem update_and_merge_never_raises (w : world) (fields : update_fields)
    (fail : bool) (st : state) :
  (update_and_merge w fields fail st).1
  = Ret (fail
         || negb match onyx_update w "mscapetest" (cid (st_payload st)) fields
                 with
                 | Ret resp => status_code resp =? 200
                 | Raise _ => false
                 end).
Proof. apply update_and_merge_result. Qed.

(** ** The report *)

(** X15.  When S3 answers the upload of the report with success or a
    [ClientError], [push_report_file] returns a tuple, with
    [report_fail = False] exactly when the upload succeeded and the update
    was answered 200. *)
Theorem push_report_file_result (w : world) (result_path : string)
    (st : state) :
  let p := st_payload st in
  let uploaded :=
    upload_file w (report_path result_path p) reports_bucket (report_key p) in
  (forall e, uploaded = Some e -> is_ClientError e = true) ->
  (push_report_file w result_path st).1
  = Ret (bool_decide (uploaded <> None)
         || negb match onyx_update w "mscapetest" (cid p)
                         (StrFields
                            [("validation_report", validation_report_uri p)])
                 with
                 | Ret resp => status_code resp =? 200
                 | Raise _ => false
                 end).
Proof.
  intros p uploaded Hclient.
  unfold push_report_file, upload, try_except, append_ingest_error, modify,
    bind, get_payload, emit, ret, raise.
  cbn -[update_and_merge report_path report_key validation_report_uri].
  fold p uploaded.
  destruct uploaded as [e|] eqn:Hup;
    cbn -[update_and_merge report_path report_key validation_report_uri].
  - rewrite (Hclient e eq_refl).
    cbn -[update_and_merge report_path report_key validation_report_uri].
    by rewrite update_and_merge_result.
  - by rewrite update_and_merge_result.
Qed.

Lemma push_report_file_result_witness :
  (push_report_file
     (with_upload (fun _ _ _ => Some (ClientError "AccessDenied")) calm_world)
     "/res/uuid-1" (start (created_payload "ont"))).1
  = Ret true.
Proof.
  rewrite (push_report_file_result
             (with_upload (fun _ _ _ => Some (ClientError "AccessDenied"))
                calm_world)
             "/res/uuid-1" (start (created_payload "ont"))).
  - reflexivity.
  - intros e [= <-]. reflexivity.
Defined.

(** ** The raw reads *)

(** X17.  For a platform other than illumina, when the one upload succeeds the
    record is linked, but not to what was uploaded: the object is stored
    under [cid.fastq.gz] and [reads_1] is set to the URI of
    [cid_1.fastq.gz], for every CID. *)
Theorem single_end_reads_link_differs (w : world) (c : option string)
    (result_path : string) (st : state) :
  let p := st_payload st in
  let path :=
    path_join result_path ("preprocess/" +:+ uuid p +:+ ".fastp.fastq.gz") in
  let key := fmt_cid p +:+ ".fastq.gz" in
  let link :=
    "s3://mscapetest-published-reads/" +:+ fmt_cid p +:+ "_1.fastq.gz" in
  platform p <> "illumina" ->
  upload_file w path "mscapetest-published-reads" key = None ->
  st_events (add_reads_record w c result_path st).2
  = st_events st
    ++ [Upload path "mscapetest-published-reads" key;
        Update "mscapetest" c (StrFields [("reads_1", link)])]
  /\ link <> "s3://" +:+ "mscapetest-published-reads" +:+ "/" +:+ key.
Proof.
  intros p path key link Hplatform%String.eqb_neq Hupload. split.
  - unfold add_reads_record, link_reads, update, upload, reads_bucket,
      try_except, bind, get_payload, emit, lift_result, ret.
    cbn -[path_join String.append]. fold p. rewrite Hplatform.
    cbn -[path_join String.append]. fold p path key. rewrite Hupload.
    cbn -[path_join String.append]. fold p link.
    destruct (onyx_update w "mscapetest" c (StrFields [("reads_1", link)]))
      as [resp|e]; cbn -[path_join String.append].
    + by rewrite <- app_assoc.
    + destruct (is_HTTPError e); cbn; by rewrite <- app_assoc.
  - subst link key. cbn. intros [= H]. change ("" +:+ ?x) with x in H.
    apply append_cancel_l in H. discriminate H.
Qed.

Lemma single_end_reads_link_differs_witness :
  st_events
    (add_reads_record calm_world (Some "C-123") "/res/uuid-1"
       (start (created_payload "ont"))).2
  = [Upload "/res/uuid-1/preprocess/uuid-1.fastp.fastq.gz"
       "mscapetest-published-reads" "C-123.fastq.gz";
     Update "mscapetest" (Some "C-123")
       (StrFields
          [("reads_1", "s3://mscapetest-published-reads/C-123_1.fastq.gz")])]
  /\ "s3://mscapetest-published-reads/C-123_1.fastq.gz"
     <> "s3://mscapetest-published-reads/C-123.fastq.gz".
Proof.
  apply (single_end_reads_link_differs calm_world (Some "C-123")
           "/res/uuid-1" (start (created_payload "ont"))).
  - discriminate.
  - reflexivity.
Defined.

Lemma raw_illumina_read_step (w : world) (result_path : string)
    (raw_read_fail : bool) (i : Z) (st : state) :
  only_client_errors w ->
  let p := st_payload st in
  let path :=
    path_join result_path
      ("preprocess/" +:+ uuid p +:+ "_" +:+ pretty i +:+ ".fastp.fastq.gz") in
  let key := fmt_cid p +:+ "_" +:+ pretty i +:+ ".fastq.gz" in
  let refused :=
    bool_decide (upload_file w path "mscapetest-published-reads" key <> None) in
  raw_illumina_read w result_path raw_read_fail i st
  = (Ret (raw_read_fail || refused),
     mkState
       (set_ingest_errors
          (ingest_errors p ++ (if refused then [reads_upload_error] else []))
          p)
       (st_events st ++ [Upload path "mscapetest-published-reads" key])
       (st_frame st)).
Proof.
  intros Hclient p path key refused.
  unfold raw_illumina_read, upload, reads_bucket, try_except,
    append_ingest_error, modify, bind, get_payload, emit, ret, raise.
  cbn -[path_join String.append pretty]. fold p path key. subst refused.
  destruct (upload_file w path "mscapetest-published-reads" key) as [e|]
    eqn:Hup.
  - rewrite (Hclient _ _ _ _ Hup). cbn. by rewrite orb_true_r.
  - cbn. rewrite orb_false_r, app_nil_r. by destruct p.
Qed.

(** X18.  For illumina both files are uploaded, the second also when the first
    was refused; each refusal appends one error, and the record is linked,
    to the two objects that were uploaded, only when neither was refused.
    After a refusal the result is [(True, payload)]. *)
Theorem paired_reads_upload_both (w : world) (c : option string)
    (result_path : string) (st : state) :
  let p := st_payload st in
  let path i :=
    path_join result_path
      ("preprocess/" +:+ uuid p +:+ "_" +:+ i +:+ ".fastp.fastq.gz") in
  let key i := fmt_cid p +:+ "_" +:+ i +:+ ".fastq.gz" in
  let refused i :=
    bool_decide (upload_file w (path i) "mscapetest-published-reads" (key i)
                 <> None) in
  let errors i := if refused i then [reads_upload_error] else [] in
  let fields :=
    StrFields
      [("reads_1", "s3://mscapetest-published-reads/" +:+ key "1");
       ("reads_2", "s3://mscapetest-published-reads/" +:+ key "2")] in
  platform p = "illumina" ->
  only_client_errors w ->
  let r := add_reads_record w c result_path st in
  st_events r.2
  = st_events st
    ++ [Upload (path "1") "mscapetest-published-reads" (key "1");
        Upload (path "2") "mscapetest-published-reads" (key "2")]
    ++ (if refused "1" || refused "2" then []
        else [Update "mscapetest" c fields])
  /\ ingest_errors (st_payload r.2)
     = ingest_errors p ++ errors "1" ++ errors "2"
  /\ (refused "1" || refused "2" = true -> r.1 = Ret (ReadsTuple true)).
Proof.
  intros p path key refused errors fields Hplatform Hclient r. subst r.
  unfold add_reads_record.
  erewrite bind_Ret by reflexivity. fold p. rewrite Hplatform.
  cbn [String.eqb Ascii.eqb Bool.eqb for_each].
  erewrite bind_Ret;
    [|erewrite bind_Ret by (by apply raw_illumina_read_step);
      erewrite bind_Ret by (by apply raw_illumina_read_step);
      reflexivity].
  erewrite bind_Ret by reflexivity.
  cbn -[path_join String.append pretty link_reads bool_decide].
  fold p. change (pretty 1) with "1". change (pretty 2) with "2".
  repeat match goal with
         | |- context [fmt_cid (set_ingest_errors ?v ?q)] =>
             change (fmt_cid (set_ingest_errors v q)) with (fmt_cid q)
         end.
  fold (path "1") (path "2") (key "1") (key "2").
  fold (refused "1") (refused "2") fields.
  unfold link_reads, update, try_except, bind, emit, lift_result, ret.
  subst errors. cbn beta.
  destruct (refused "1"), (refused "2");
    cbn -[path_join String.append]; rewrite ?app_nil_r, <- ?app_assoc;
    try done.
  match goal with
  | |- context [onyx_update ?a ?b ?d ?f] =>
      destruct (onyx_update a b d f) as [resp|e]
  end; [|destruct (is_HTTPError e)];
    cbn -[path_join String.append];
    (split; [|split]); rewrite ?app_nil_r, <- ?app_assoc; done.
Qed.

Lemma paired_reads_upload_both_witness :
  let w :=
    with_upload
      (fun _ _ key =>
         if String.eqb key "C-123_1.fastq.gz"
         then Some (ClientError "AccessDenied") else None)
      calm_world in
  let r :=
    add_reads_record w (Some "C-123") "/res/uuid-1"
      (start (created_payload "illumina")) in
  st_events r.2
  = [Upload "/res/uuid-1/preprocess/uuid-1_1.fastp.fastq.gz"
       "mscapetest-published-reads" "C-123_1.fastq.gz";
     Upload "/res/uuid-1/preprocess/uuid-1_2.fastp.fastq.gz"
       "mscapetest-published-reads" "C-123_2.fastq.gz"]
  /\ ingest_errors (st_payload r.2) = [reads_upload_error]
  /\ r.1 = Ret (ReadsTuple true).
Proof.
  intros w r.
  destruct (paired_reads_upload_both w (Some "C-123") "/res/uuid-1"
              (start (created_payload "illumina")))
    as (Hevents & Herrors & Hresult).
  - reflexivity.
  - intros path bucket key e. cbn.
    destruct (String.eqb key "C-123_1.fastq.gz"); intros [= <-]; reflexivity.
  - split; [exact Hevents|]. split; [exact Herrors|].
    apply Hresult. reflexivity.
Defined.

(** ** The classified reads *)

Lemma update_and_merge_effects (w : world) (fields : update_fields)
    (fail : bool) (st : state) :
  let st' := (update_and_merge w fields fail st).2 in
  st_events st'
  = st_events st ++ [Update "mscapetest" (cid (st_payload st)) fields]
  /\ ingest_errors (st_payload st') = ingest_errors (st_payload st).
Proof.
  unfold update_and_merge, update, try_except, json, merge_messages,
    assign_client_error, modify, bind, get_payload, emit, lift_result, ret,
    raise.
  cbn.
  destruct (onyx_update w "mscapetest" (cid (st_payload st)) fields)
    as [resp|e]; cbn; [|done].
  destruct (status_code resp =? 200); cbn; [done|].
  by destruct (resp_json resp).
Qed.

(** X19.  The summary is opened outside any [try]: when it cannot be read the
    exception leaves [add_taxon_records], with nothing uploaded, nothing
    recorded and no update made. *)
Theorem add_taxon_records_unreadable_summary (w : world)
    (result_path : string) (st : state) (e : exn) :
  read_summary w (path_join result_path "reads_by_taxa/reads_summary.json")
    = Raise e ->
  add_taxon_records w result_path st = (Raise e, st).
Proof.
  intros H. unfold add_taxon_records, bind, lift_result.
  by rewrite H.
Qed.

Lemma add_taxon_records_unreadable_summary_witness :
  let w :=
    mkWorld (subprocess_run calm_world) (read_trace calm_world)
      (csv_create calm_world) (upload_file calm_world)
      (onyx_update calm_world)
      (fun _ => Raise (OtherError "No such file or directory"))
      (time_ns calm_world) in
  add_taxon_records w "/res/uuid-1" (start (created_payload "ont"))
  = (Raise (OtherError "No such file or directory"),
     start (created_payload "ont")).
Proof. intros w. by apply add_taxon_records_unreadable_summary. Defined.

Lemma binned_taxon_ont_step (w : world) (result_path : string)
    (recs : list taxon_dict) (fail : bool) (taxa : taxon_summary)
    (st : state) :
  let p := st_payload st in
  let up := ont_taxon_uploaded w result_path p taxa in
  platform p = "ont" ->
  ts_filenames taxa <> [] ->
  only_client_errors w ->
  binned_taxon w result_path (recs, fail) taxa st
  = (Ret (recs ++ (if up then [ont_taxon_record p taxa] else []),
          fail || negb up),
     mkState
       (set_ingest_errors
          (ingest_errors p
           ++ (if up then [] else [binned_upload_error taxa])) p)
       (st_events st
        ++ [Upload (ont_taxon_path result_path taxa) binned_reads_bucket
              (ont_taxon_key p taxa)])
       (st_frame st)).
Proof.
  intros p up Hplatform Hfiles Hclient.
  unfold binned_taxon, filename, upload, try_except, append_ingest_error,
    modify, bind, get_payload, emit, ret, raise.
  cbn -[path_join String.append binned_upload_error]. fold p.
  rewrite Hplatform. cbn -[path_join String.append binned_upload_error].
  subst up. unfold ont_taxon_uploaded, ont_taxon_path, ont_taxon_key,
    ont_taxon_record.
  destruct (ts_filenames taxa) as [|f fs] eqn:Hf; [done|].
  cbn -[path_join String.append binned_upload_error]. fold p.
  destruct (upload_file w _ binned_reads_bucket _) as [e|] eqn:Hup;
    cbn -[path_join String.append binned_upload_error].
  - rewrite (Hclient _ _ _ _ Hup).
    cbn -[path_join String.append binned_upload_error].
    by rewrite orb_true_r, app_nil_r.
  - rewrite orb_false_r, app_nil_r. by destruct p.
Qed.

Lemma binned_taxon_ont_loop (w : world) (result_path : string)
    (summary : list taxon_summary) (recs : list taxon_dict) (fail : bool)
    (st : state) :
  let p := st_payload st in
  let up := ont_taxon_uploaded w result_path p in
  platform p = "ont" ->
  Forall (fun taxa => ts_filenames taxa <> []) summary ->
  only_client_errors w ->
  for_each (binned_taxon w result_path) summary (recs, fail) st
  = (Ret (recs ++ map (ont_taxon_record p) (List.filter up summary),
          fail || existsb (fun taxa => negb (up taxa)) summary),
     mkState
       (set_ingest_errors
          (ingest_errors p
           ++ map binned_upload_error
                (List.filter (fun taxa => negb (up taxa)) summary)) p)
       (st_events st
        ++ map (fun taxa =>
                  Upload (ont_taxon_path result_path taxa) binned_reads_bucket
                    (ont_taxon_key p taxa)) summary)
       (st_frame st)).
Proof.
  intros p up. subst p up.
  revert recs fail st.
  induction summary as [|taxa summary IH];
    intros recs fail st Hplatform Hfiles Hclient.
  - cbn. rewrite orb_false_r, !app_nil_r. by destruct st as [[] ? ?].
  - apply Forall_cons in Hfiles as [Hf Hfiles].
    cbn [for_each]. erewrite bind_Ret by (by apply binned_taxon_ont_step).
    rewrite IH by done. cbn [st_payload st_events st_frame].
    change (ont_taxon_uploaded w result_path (set_ingest_errors ?v ?q))
      with (ont_taxon_uploaded w result_path q).
    change (ont_taxon_record (set_ingest_errors ?v ?q))
      with (ont_taxon_record q).
    change (ont_taxon_key (set_ingest_errors ?v ?q)) with (ont_taxon_key q).
    cbn [List.filter existsb map].
    destruct (ont_taxon_uploaded w result_path (st_payload st) taxa);
      cbn [negb map app orb]; cbn;
      rewrite <- ?app_assoc, ?app_nil_r, ?orb_false_r, ?orb_true_r; done.
Qed.

(** X20.  For an ont artifact every taxon of the summary is uploaded in turn; a
    taxon whose upload S3 refuses is left out of the nested records and
    costs one error, and the one update call, made after the last taxon,
    carries exactly the taxa that were uploaded, in the order of the
    summary.  After a refusal the result is [(True, payload)]. *)
Theorem ont_taxa_linked_when_uploaded (w : world) (result_path : string)
    (st : state) (summary : list taxon_summary) :
  let p := st_payload st in
  let up := ont_taxon_uploaded w result_path p in
  platform p = "ont" ->
  read_summary w (path_join result_path "reads_by_taxa/reads_summary.json")
    = Ret summary ->
  Forall (fun taxa => ts_filenames taxa <> []) summary ->
  only_client_errors w ->
  let r := add_taxon_records w result_path st in
  st_events r.2
  = st_events st
    ++ map (fun taxa =>
              Upload (ont_taxon_path result_path taxa) binned_reads_bucket
                (ont_taxon_key p taxa)) summary
    ++ [Update "mscapetest" (cid p)
          (TaxaField (map (ont_taxon_record p) (List.filter up summary)))]
  /\ ingest_errors (st_payload r.2)
     = ingest_errors p
       ++ map binned_upload_error
            (List.filter (fun taxa => negb (up taxa)) summary)
  /\ (existsb (fun taxa => negb (up taxa)) summary = true -> r.1 = Ret true).
Proof.
  intros p up Hplatform Hsummary Hfiles Hclient r. subst r.
  unfold add_taxon_records.
  erewrite bind_Ret by (unfold lift_result; by rewrite Hsummary).
  erewrite bind_Ret by (by apply binned_taxon_ont_loop).
  cbn [fst snd app].
  match goal with
  | |- context [update_and_merge ?a ?f ?b ?s] =>
      destruct (update_and_merge_effects a f b s) as [Hevents Herrors];
      pose proof (update_and_merge_result a f b s) as Hresult
  end.
  cbn [st_payload st_events] in Hevents, Herrors, Hresult.
  fold p up in Hevents, Herrors, Hresult |- *.
  rewrite Hevents, Herrors, Hresult. cbn [orb].
  split; [by rewrite <- app_assoc|]. split; [done|].
  intros ->. reflexivity.
Qed.

Lemma ont_taxa_linked_when_uploaded_witness :
  let summary :=
    [mkTaxonSummary "562" "562" "Escherichia coli" "120" "31.2" "1502.4" "S"
       ["562.fastq"];
     mkTaxonSummary "1280" "1280" "Staphylococcus aureus" "40" "29.8"
       "1410.0" "S" ["1280.fastq"]] in
  let w :=
    mkWorld (subprocess_run calm_world) (read_trace calm_world)
      (csv_create calm_world)
      (fun _ _ key =>
         if String.eqb key "C-123/562.fastq.gz"
         then Some (ClientError "AccessDenied") else None)
      (onyx_update calm_world) (fun _ => Ret summary) (time_ns calm_world) in
  let r :=
    add_taxon_records w "/res/uuid-1" (start (created_payload "ont")) in
  st_events r.2
  = [Upload "/res/uuid-1/reads_by_taxa/562.fastq.gz"
       "mscapetest-published-binned-reads" "C-123/562.fastq.gz";
     Upload "/res/uuid-1/reads_by_taxa/1280.fastq.gz"
       "mscapetest-published-binned-reads" "C-123/1280.fastq.gz";
     Update "mscapetest" (Some "C-123")
       (TaxaField
          [mkTaxonDict "1280" "Staphylococcus aureus" "40" "29.8" "1410.0" "S"
             [("reads_1",
               "s3://mscapetest-published-binned-reads/C-123/1280.fastq.gz")]])]
  /\ ingest_errors (st_payload r.2)
     = ["Failed to upload binned reads for taxon: 562 to storage bucket"]
  /\ r.1 = Ret true.
Proof.
  intros summary w r.
  destruct (ont_taxa_linked_when_uploaded w "/res/uuid-1"
              (start (created_payload "ont")) summary)
    as (Hevents & Herrors & Hresult).
  - reflexivity.
  - reflexivity.
  - repeat constructor; discriminate.
  - intros path bucket key e. cbn.
    destruct (String.eqb key "C-123/562.fastq.gz"); intros [= <-]; reflexivity.
  - split; [exact Hevents|]. split; [exact Herrors|].
    apply Hresult. reflexivity.
Defined.

Lemma binned_illumina_read_returns (w : world) (result_path : string)
    (taxa : taxon_summary) (td : taxon_dict) (fail : bool) (i : Z)
    (st : state) :
  only_client_errors w ->
  is_Some (ts_filenames taxa !! Z.to_nat (i - 1)) ->
  exists td' fail' st',
    binned_illumina_read w result_path taxa (td, fail) i st
    = (Ret (td', fail'), st')
    /\ td_metrics td' = td_metrics td
    /\ platform (st_payload st') = platform (st_payload st)
    /\ cid (st_payload st') = cid (st_payload st)
    /\ st_frame st' = st_frame st
    /\ exists new, st_events st' = st_events st ++ new
                   /\ Forall (fun e => exists a b c, e = Upload a b c) new.
Proof.
  intros Hclient [f Hf].
  unfold binned_illumina_read, filename, upload, try_except,
    append_ingest_error, modify, bind, get_payload, emit, ret, raise.
  rewrite Hf. cbn -[path_join String.append pretty binned_upload_error].
  destruct (upload_file w _ binned_reads_bucket _) as [e|] eqn:Hup;
    cbn -[path_join String.append pretty binned_upload_error].
  - rewrite (Hclient _ _ _ _ Hup).
    cbn -[path_join String.append pretty binned_upload_error].
    do 3 eexists. split; [reflexivity|]. repeat split.
    eexists. split; [reflexivity|]. apply Forall_singleton. by do 3 eexists.
  - do 3 eexists. split; [reflexivity|]. repeat split.
    eexists. split; [reflexivity|]. apply Forall_singleton. by do 3 eexists.
Qed.

Lemma binned_taxon_illumina_returns (w : world) (result_path : string)
    (recs : list taxon_dict) (fail : bool) (taxa : taxon_summary)
    (st : state) :
  platform (st_payload st) = "illumina" ->
  only_client_errors w ->
  (2 <= length (ts_filenames taxa))%nat ->
  exists td fail' st',
    binned_taxon w result_path (recs, fail) taxa st
    = (Ret (recs ++ [td], fail'), st')
    /\ td_metrics td = td_metrics (new_taxon_dict taxa)
    /\ platform (st_payload st') = platform (st_payload st)
    /\ cid (st_payload st') = cid (st_payload st)
    /\ st_frame st' = st_frame st
    /\ exists new, st_events st' = st_events st ++ new
                   /\ Forall (fun e => exists a b c, e = Upload a b c) new.
Proof.
  intros Hplatform Hclient Hlen.
  assert (H1 : is_Some (ts_filenames taxa !! Z.to_nat (1 - 1))).
  { apply lookup_lt_is_Some. cbn. lia. }
  assert (H2 : is_Some (ts_filenames taxa !! Z.to_nat (2 - 1))).
  { apply lookup_lt_is_Some. cbn. lia. }
  unfold binned_taxon.
  erewrite bind_Ret by reflexivity. rewrite Hplatform.
  cbn [String.eqb Ascii.eqb Bool.eqb for_each].
  destruct (binned_illumina_read_returns w result_path taxa
              (new_taxon_dict taxa) fail 1 st Hclient H1)
    as (td1 & f1 & st1 & Hr1 & Hm1 & Hp1 & Hc1 & Hf1 & n1 & He1 & Hu1).
  destruct (binned_illumina_read_returns w result_path taxa td1 f1 2 st1
              Hclient H2)
    as (td2 & f2 & st2 & Hr2 & Hm2 & Hp2 & Hc2 & Hf2 & n2 & He2 & Hu2).
  exists td2, f2, st2. split.
  - erewrite bind_Ret;
      [|erewrite bind_Ret by exact Hr1; erewrite bind_Ret by exact Hr2;
        reflexivity].
    reflexivity.
  - split; [congruence|]. split; [congruence|]. split; [congruence|].
    split; [congruence|]. exists (n1 ++ n2). split.
    + by rewrite He2, He1, app_assoc.
    + by apply Forall_app.
Qed.

Lemma binned_taxon_illumina_loop (w : world) (result_path : string)
    (summary : list taxon_summary) (recs : list taxon_dict) (fail : bool)
    (st : state) :
  platform (st_payload st) = "illumina" ->
  only_client_errors w ->
  Forall (fun taxa => (2 <= length (ts_filenames taxa))%nat) summary ->
  exists recs' fail' st',
    for_each (binned_taxon w result_path) summary (recs, fail) st
    = (Ret (recs ++ recs', fail'), st')
    /\ map td_metrics recs' = map td_metrics (map new_taxon_dict summary)
    /\ cid (st_payload st') = cid (st_payload st)
    /\ st_frame st' = st_frame st
    /\ exists new, st_events st' = st_events st ++ new
                   /\ Forall (fun e => exists a b c, e = Upload a b c) new.
Proof.
  revert recs fail st.
  induction summary as [|taxa summary IH];
    intros recs fail st Hplatform Hclient Hfiles.
  - exists [], fail, st. cbn. rewrite app_nil_r. repeat split.
    exists []. by rewrite app_nil_r.
  - apply Forall_cons in Hfiles as [Hlen Hfiles].
    destruct (binned_taxon_illumina_returns w result_path recs fail taxa st
                Hplatform Hclient Hlen)
      as (td & f1 & st1 & Hr1 & Hm1 & Hp1 & Hc1 & Hf1 & n1 & He1 & Hu1).
    destruct (IH (recs ++ [td]) f1 st1) as
      (recs' & f2 & st2 & Hr2 & Hm2 & Hc2 & Hf2 & n2 & He2 & Hu2);
      [congruence|done|done|].
    exists (td :: recs'), f2, st2. split.
    + cbn [for_each]. erewrite bind_Ret by exact Hr1.
      rewrite Hr2. by rewrite <- app_assoc.
    + split; [cbn; congruence|]. split; [congruence|].
      split; [congruence|]. exists (n1 ++ n2). split.
      * by rewrite He2, He1, app_assoc.
      * by apply Forall_app.
Qed.

(** X21.  For an illumina artifact no taxon is dropped: whatever uploads S3
    refuses, the update call carries one nested record per taxon of the
    summary, in order and with the metrics of the summary, and it is the
    last external call, after uploads only. *)
Theorem illumina_taxa_all_recorded (w : world) (result_path : string)
    (st : state) (summary : list taxon_summary) :
  let p := st_payload st in
  platform p = "illumina" ->
  read_summary w (path_join result_path "reads_by_taxa/reads_summary.json")
    = Ret summary ->
  Forall (fun taxa => (2 <= length (ts_filenames taxa))%nat) summary ->
  only_client_errors w ->
  exists recs uploads,
    st_events (add_taxon_records w result_path st).2
    = st_events st ++ uploads
      ++ [Update "mscapetest" (cid p) (TaxaField recs)]
    /\ Forall (fun e => exists a b c, e = Upload a b c) uploads
    /\ map td_metrics recs = map td_metrics (map new_taxon_dict summary).
Proof.
  intros p Hplatform Hsummary Hfiles Hclient.
  destruct (binned_taxon_illumina_loop w result_path summary [] false st
              Hplatform Hclient Hfiles)
    as (recs & fail & st1 & Hloop & Hmetrics & Hcid & _ & uploads & Hev & Hup).
  exists recs, uploads.
  unfold add_taxon_records.
  erewrite bind_Ret by (unfold lift_result; by rewrite Hsummary).
  erewrite bind_Ret by exact Hloop. cbn [fst snd app].
  destruct (update_and_merge_effects w (TaxaField recs) fail st1)
    as [Hevents _].
  cbv zeta in Hevents. rewrite Hevents, Hev, Hcid.
  split; [by rewrite <- app_assoc|]. done.
Qed.

Lemma illumina_taxa_all_recorded_witness :
  let summary :=
    [mkTaxonSummary "562" "562" "Escherichia coli" "120" "31.2" "150.0" "S"
       ["562_1.fastq"; "562_2.fastq"]] in
  let w :=
    mkWorld (subprocess_run calm_world) (read_trace calm_world)
      (csv_create calm_world)
      (fun _ _ _ => Some (ClientError "AccessDenied"))
      (onyx_update calm_world) (fun _ => Ret summary) (time_ns calm_world) in
  exists recs uploads,
    st_events
      (add_taxon_records w "/res/uuid-1"
         (start (created_payload "illumina"))).2
    = [] ++ uploads ++ [Update "mscapetest" (Some "C-123") (TaxaField recs)]
    /\ Forall (fun e => exists a b c, e = Upload a b c) uploads
    /\ map td_metrics recs
       = [("562", "Escherichia coli", "120", "31.2", "150.0", "S")].
Proof.
  intros summary w.
  apply (illumina_taxa_all_recorded w "/res/uuid-1"
           (start (created_payload "illumina")) summary).
  - reflexivity.
  - reflexivity.
  - repeat constructor.
  - intros path bucket key e [= <-]. reflexivity.
Defined.

Lemma binned_taxon_other_loop (w : world) (result_path : string)
    (summary : list taxon_summary) (recs : list taxon_dict) (fail : bool)
    (st : state) :
  String.eqb (platform (st_payload st)) "illumina" = false ->
  String.eqb (platform (st_payload st)) "ont" = false ->
  for_each (binned_taxon w result_path) summary (recs, fail) st
  = (Ret (recs ++ map new_taxon_dict summary,
          match summary with [] => fail | _ => true end),
     st).
Proof.
  intros Hillumina Hont. revert recs fail.
  induction summary as [|taxa summary IH]; intros recs fail.
  - cbn. by rewrite app_nil_r.
  - cbn [for_each].
    erewrite bind_Ret;
      [|unfold binned_taxon; erewrite bind_Ret by reflexivity;
        rewrite Hillumina, Hont; reflexivity].
    rewrite IH. cbn. rewrite <- app_assoc. by destruct summary.
Qed.

(** X22.  For an artifact of any other platform nothing is uploaded; the update
    call still carries a nested record for every taxon, without reads, and
    with at least one taxon the operation reports failure although no error
    is recorded for it. *)
Theorem other_platform_taxa_recorded_without_reads (w : world)
    (result_path : string) (st : state) (summary : list taxon_summary) :
  let p := st_payload st in
  platform p <> "illumina" ->
  platform p <> "ont" ->
  read_summary w (path_join result_path "reads_by_taxa/reads_summary.json")
    = Ret summary ->
  let r := add_taxon_records w result_path st in
  st_events r.2
  = st_events st
    ++ [Update "mscapetest" (cid p) (TaxaField (map new_taxon_dict summary))]
  /\ ingest_errors (st_payload r.2) = ingest_errors p
  /\ (summary <> [] -> r.1 = Ret true).
Proof.
  intros p Hillumina%String.eqb_neq Hont%String.eqb_neq Hsummary r. subst r.
  unfold add_taxon_records.
  erewrite bind_Ret by (unfold lift_result; by rewrite Hsummary).
  erewrite bind_Ret by (by apply binned_taxon_other_loop).
  cbn [fst snd app].
  match goal with
  | |- context [update_and_merge ?a ?f ?b ?s] =>
      destruct (update_and_merge_effects a f b s) as [Hevents Herrors];
      pose proof (update_and_merge_result a f b s) as Hresult
  end.
  cbv zeta in Hevents, Herrors. fold p in Hevents, Herrors, Hresult.
  rewrite Hevents, Herrors, Hresult.
  split; [done|]. split; [done|]. by destruct summary.
Qed.

Lemma other_platform_taxa_recorded_without_reads_witness :
  let summary :=
    [mkTaxonSummary "562" "562" "Escherichia coli" "120" "31.2" "150.0" "S"
       ["562.fastq"]] in
  let w :=
    mkWorld (subprocess_run calm_world) (read_trace calm_world)
      (csv_create calm_world) (upload_file calm_world)
      (onyx_update calm_world) (fun _ => Ret summary) (time_ns calm_world) in
  let r :=
    add_taxon_records w "/res/uuid-1" (start (created_payload "pacbio")) in
  st_events r.2
  = [] ++ [Update "mscapetest" (Some "C-123")
             (TaxaField (map new_taxon_dict summary))]
  /\ ingest_errors (st_payload r.2) = []
  /\ r.1 = Ret true.
Proof.
  intros summary w r.
  destruct (other_platform_taxa_recorded_without_reads w "/res/uuid-1"
              (start (created_payload "pacbio")) summary)
    as (Hevents & Herrors & Hresult);
    [discriminate|discriminate|reflexivity|].
  split; [exact Hevents|]. split; [exact Herrors|].
  apply Hresult. discriminate.
Defined.

(** ** The pass as [run] is written *)

Lemma record_untouched_refl (p : payload) : record_untouched p p.
Proof. by repeat split. Qed.

Lemma record_untouched_trans (p1 p2 p3 : payload) :
  record_untouched p1 p2 -> record_untouched p2 p3 -> record_untouched p1 p3.
Proof. unfold record_untouched. intros H12 H23. intuition congruence. Qed.

Ltac untouched_side :=
  first [ exact record_untouched_refl | exact record_untouched_trans
        | exact (fun _ _ e _ (H : local_event _ _ e) => H) ].

(** X24.  As [run] is written, no pass reaches Onyx or S3: the call of
    [onyx_submission] names a keyword the function does not have and raises
    before its body runs.  Whatever the world and the payload, a pass only
    starts the subprocess, writes its two output files and sends payloads
    to the results exchange of the site; the CID, [created], [ingested] and
    everything recorded about Onyx stay as they were received. *)
Theorem run_pass_reaches_no_store (w : world) (result_dir : string)
    (ingest_pipe : pipeline) (message_site : string) :
  keeps record_untouched (local_event message_site)
    (run_pass w result_dir ingest_pipe message_site).
Proof.
  unfold run_pass, execute_validation_pipeline, execute, file_uri,
    ret_0_parser, check_process, append_ingest_error.
  cbv zeta.
  repeat first
    [ match goal with
      | |- keeps _ _ (bind (call_with_keywords _ _ _ _) _) =>
          apply keeps_bind_raises;
          [untouched_side..
          | unfold call_with_keywords; apply keeps_raise; untouched_side
          | intros ? ?; unfold call_with_keywords; discriminate ]
      end
    | keeps_step_with untouched_side
        ltac:(by repeat split) ltac:(first [ exact I | reflexivity ]) ].
Qed.

(** ** roz/utils.py: the credentials *)

Lemma truthy_override (v x : option string) :
  Utils.truthy v = true -> Utils.override v x = v.
Proof. intros H. unfold Utils.override. by rewrite H. Qed.

Lemma falsy_override (v x : option string) :
  Utils.truthy v = false -> Utils.override v x = x.
Proof. intros H. unfold Utils.override. by rewrite H. Qed.

(** X26.  Credentials that are returned are complete: neither key is empty, the
    endpoint and the region are the fixed ones, and the profile is the one
    asked for, or "default". *)
Theorem get_credentials_returns_complete (env : Utils.environment)
    (args : option Utils.cli_args) (c : Utils.s3_credentials) :
  Utils.get_credentials env args = Utils.Returns c ->
  Utils.access_key c <> ""
  /\ Utils.secret_key c <> ""
  /\ Utils.endpoint c = "https://s3.climb.ac.uk"
  /\ Utils.region c = "s3"
  /\ Utils.profile_name c = Utils.chosen_profile args.
Proof.
  unfold Utils.get_credentials.
  destruct (Utils.read_file env); [done|].
  destruct (Utils.from_file env _) as [[fa fs]|]; [|done].
  repeat (case_match; try done); intros [= <-]; by repeat split.
Qed.

Lemma get_credentials_returns_complete_witness :
  let env :=
    Utils.mkEnvironment None true (fun _ _ => Ret "from-file")
      (fun _ => None) (fun _ => None) (fun _ _ => Ret "") in
  let c :=
    Utils.mkCredentials "from-file" "from-file" "https://s3.climb.ac.uk" "s3"
      "default" in
  Utils.access_key c <> ""
  /\ Utils.secret_key c <> ""
  /\ Utils.endpoint c = "https://s3.climb.ac.uk"
  /\ Utils.region c = "s3"
  /\ Utils.profile_name c = Utils.chosen_profile None.
Proof.
  intros env c.
  apply (get_credentials_returns_complete env None c). reflexivity.
Defined.

(** X27.  The access key that is returned is the one given on the command line;
    failing that, the one in the environment; failing that, the one in the
    credentials file.  An empty string counts as not given. *)
Theorem access_key_precedence (env : Utils.environment)
    (args : option Utils.cli_args) (c : Utils.s3_credentials) :
  Utils.get_credentials env args = Utils.Returns c ->
  let given := args ≫= Utils.arg_access_key in
  let exported := Utils.getenv env "AWS_ACCESS_KEY_ID" in
  (Utils.truthy given = true -> given = Some (Utils.access_key c))
  /\ (Utils.truthy given = false -> Utils.truthy exported = true ->
      exported = Some (Utils.access_key c))
  /\ (Utils.truthy given = false -> Utils.truthy exported = false ->
      Utils.file_option env (Utils.chosen_profile args) "aws_access_key_id"
      = Ret (Utils.access_key c)).
Proof.
  unfold Utils.get_credentials, Utils.from_file.
  destruct (Utils.read_file env); [done|].
  intros H.
  set (given := args ≫= Utils.arg_access_key).
  set (exported := Utils.getenv env "AWS_ACCESS_KEY_ID").
  assert (Hkey :
    Some (Utils.access_key c)
    = Utils.override given
        (Utils.override exported
           (if Utils.parser_truthy env
            then match Utils.file_option env (Utils.chosen_profile args)
                         "aws_access_key_id" with
                 | Ret a => Some a
                 | Raise _ => None
                 end
            else None))
    /\ (Utils.parser_truthy env = true ->
        exists a, Utils.file_option env (Utils.chosen_profile args)
                    "aws_access_key_id" = Ret a)).
  { subst given exported.
    destruct (Utils.parser_truthy env);
      [destruct (Utils.file_option env _ "aws_access_key_id") as [a|];
       [destruct (Utils.file_option env _ "aws_secret_access_key")|]|];
      try done;
      (split; [|by eauto]);
      destruct args as [a'|]; cbn in *;
      repeat (case_match; try done); by simplify_eq. }
  destruct Hkey as [Hkey Hfile]. split; [|split].
  - intros Hg. rewrite truthy_override in Hkey by done. by symmetry.
  - intros Hg He.
    rewrite falsy_override, truthy_override in Hkey by done. by symmetry.
  - intros Hg He. rewrite !falsy_override in Hkey by done.
    destruct (Utils.parser_truthy env); [|done].
    destruct (Utils.file_option env _ "aws_access_key_id"); [|done].
    by injection Hkey as <-.
Qed.

Lemma access_key_precedence_witness :
  let env :=
    Utils.mkEnvironment None true (fun _ _ => Ret "from-file")
      (fun name =>
         if String.eqb name "AWS_ACCESS_KEY_ID" then Some "from-env" else None)
      (fun _ => None) (fun _ _ => Ret "") in
  let args := Some (Utils.mkArgs None (Some "") None) in
  let c :=
    Utils.mkCredentials "from-env" "from-file" "https://s3.climb.ac.uk" "s3"
      "default" in
  let given := args ≫= Utils.arg_access_key in
  let exported := Utils.getenv env "AWS_ACCESS_KEY_ID" in
  (Utils.truthy given = true -> given = Some (Utils.access_key c))
  /\ (Utils.truthy given = false -> Utils.truthy exported = true ->
      exported = Some (Utils.access_key c))
  /\ (Utils.truthy given = false -> Utils.truthy exported = false ->
      Utils.file_option env (Utils.chosen_profile args) "aws_access_key_id"
      = Ret (Utils.access_key c)).
Proof.
  intros env args c. apply (access_key_precedence env args c). reflexivity.
Defined.

(** X28.  The credentials file is read before anything else is looked at: when
    it cannot be opened, or the profile or one of its two options is
    missing from it, [get_credentials] raises, also when the environment
    and the command line give both keys. *)
Theorem credentials_file_is_required (env : Utils.environment)
    (args : option Utils.cli_args) (e : exn) :
  Utils.read_file env = Some e
  \/ Utils.read_file env = None
     /\ Utils.parser_truthy env = true
     /\ (Utils.file_option env (Utils.chosen_profile args) "aws_access_key_id"
         = Raise e
         \/ (exists a,
               Utils.file_option env (Utils.chosen_profile args)
                 "aws_access_key_id" = Ret a)
            /\ Utils.file_option env (Utils.chosen_profile args)
                 "aws_secret_access_key" = Raise e) ->
  Utils.get_credentials env args = Utils.Raises e.
Proof.
  unfold Utils.get_credentials, Utils.from_file.
  intros [->|(-> & -> & [->|[[a ->] ->]])]; done.
Qed.

Lemma credentials_file_is_required_witness :
  let env :=
    Utils.mkEnvironment None true (fun _ _ => Raise (KeyError "climb"))
      (fun _ => Some "from-env") (fun _ => None) (fun _ _ => Ret "") in
  let args := Some (Utils.mkArgs (Some "climb") (Some "AK") (Some "SK")) in
  Utils.get_credentials env args = Utils.Raises (KeyError "climb").
Proof.
  intros env args. apply credentials_file_is_required.
  right. split; [reflexivity|]. split; [reflexivity|]. left. reflexivity.
Defined.

(** ** roz/utils.py: the URI *)

Lemma strip_scheme_step (c : ascii) (s : string) :
  String.prefix "s3://" (String c s) = false ->
  Utils.strip_scheme (String c s) = String c (Utils.strip_scheme s).
Proof.
  intros H.
  destruct c as [[] [] [] [] [] [] [] []]; try reflexivity.
  destruct s as [|c s]; [reflexivity|].
  destruct c as [[] [] [] [] [] [] [] []]; try reflexivity.
  destruct s as [|c s]; [reflexivity|].
  destruct c as [[] [] [] [] [] [] [] []]; try reflexivity.
  destruct s as [|c s]; [reflexivity|].
  destruct c as [[] [] [] [] [] [] [] []]; try reflexivity.
  destruct s as [|c s]; [reflexivity|].
  destruct c as [[] [] [] [] [] [] [] []]; try reflexivity.
  by destruct s.
Qed.

Lemma prefix_scheme_has_colon (s : string) :
  String.prefix "s3://" s = true -> contains_colon s = true.
Proof.
  destruct s as [|c1 [|c2 [|c3 s]]];
    cbn [String.prefix contains_colon]; try done.
  - by destruct (Ascii.ascii_dec "s" c1).
  - destruct (Ascii.ascii_dec "s" c1); [|done].
    by destruct (Ascii.ascii_dec "3" c2).
  - destruct (Ascii.ascii_dec "s" c1); [|done].
    destruct (Ascii.ascii_dec "3" c2); [|done].
    destruct (Ascii.ascii_dec ":" c3) as [<-|]; [|done].
    intros _. cbn. by rewrite !orb_true_r.
Qed.

Lemma strip_scheme_without_colon (s : string) :
  contains_colon s = false -> Utils.strip_scheme s = s.
Proof.
  induction s as [|c s IH]; [done|]. intros H.
  destruct (String.prefix "s3://" (String c s)) eqn:Hp.
  - apply prefix_scheme_has_colon in Hp. congruence.
  - rewrite strip_scheme_step by done.
    cbn in H. apply orb_false_elim in H as [_ H]. by rewrite IH.
Qed.

Lemma contains_colon_app (a b : string) :
  contains_colon (a +:+ b) = contains_colon a || contains_colon b.
Proof.
  induction a as [|c a IH]; simpl; [done|]. by rewrite IH, orb_assoc.
Qed.

Lemma before_slash_app (b k : string) :
  Utils.contains_slash b = false ->
  Utils.before_slash (b +:+ "/" +:+ k) = b.
Proof.
  induction b as [|c b IH]; simpl; [done|].
  intros [Hc Hb]%orb_false_elim. rewrite Hc. by rewrite IH.
Qed.

Lemma after_slash_app (b k : string) :
  Utils.contains_slash b = false ->
  Utils.after_slash (b +:+ "/" +:+ k) = Some k.
Proof.
  induction b as [|c b IH]; simpl; [done|].
  intros [Hc Hb]%orb_false_elim. rewrite Hc. by apply IH.
Qed.

(** X29.  With credentials and a client at hand, [s3_to_fh] on [s3://b/k] asks
    S3 for bucket [b] and key [k], slashes in [k] included, and returns the
    body or raises what S3 raised.  Here [b] holds no slash and neither
    part holds a colon. *)
Theorem s3_to_fh_fetches_bucket_and_key (env : Utils.environment)
    (creds : Utils.s3_credentials) (b k : string) :
  Utils.get_credentials env None = Utils.Returns creds ->
  Utils.make_client env creds = None ->
  Utils.contains_slash b = false ->
  contains_colon b = false ->
  contains_colon k = false ->
  Utils.s3_to_fh env ("s3://" +:+ b +:+ "/" +:+ k)
  = match Utils.get_object env b k with
    | Ret content => Utils.Returns content
    | Raise e => Utils.Raises e
    end.
Proof.
  intros Hcreds Hclient Hslash Hb Hk. unfold Utils.s3_to_fh.
  rewrite Hcreds.
  assert (Hstrip :
    Utils.strip_scheme ("s3://" +:+ b +:+ "/" +:+ k) = b +:+ "/" +:+ k).
  { change (Utils.strip_scheme ("s3://" +:+ b +:+ "/" +:+ k))
      with (Utils.strip_scheme (b +:+ "/" +:+ k)).
    apply strip_scheme_without_colon.
    rewrite !contains_colon_app, Hb, Hk. reflexivity. }
  rewrite Hstrip, before_slash_app, after_slash_app by done.
  by rewrite Hclient.
Qed.

Lemma s3_to_fh_fetches_bucket_and_key_witness :
  let env :=
    Utils.mkEnvironment None true (fun _ _ => Ret "from-file")
      (fun _ => None) (fun _ => None)
      (fun bucket key => Ret (bucket +:+ " " +:+ key)) in
  Utils.s3_to_fh env ("s3://" +:+ "mscape-birm-ont-prod" +:+ "/"
                      +:+ "run1/reads.csv")
  = Utils.Returns "mscape-birm-ont-prod run1/reads.csv".
Proof.
  intros env.
  apply (s3_to_fh_fetches_bucket_and_key env
           (Utils.mkCredentials "from-file" "from-file"
              "https://s3.climb.ac.uk" "s3" "default")
           "mscape-birm-ont-prod" "run1/reads.csv");
    reflexivity.
Defined.

Lemma after_slash_none (s : string) :
  Utils.contains_slash s = false -> Utils.after_slash s = None.
Proof.
  induction s as [|c s IH]; simpl; [done|].
  intros [Hc Hs]%orb_false_elim. rewrite Hc. by apply IH.
Qed.

(** X30.  A URI that names a bucket and no key makes [s3_to_fh] raise
    [IndexError], before a client is made or S3 is asked. *)
Theorem s3_to_fh_needs_a_key (env : Utils.environment)
    (creds : Utils.s3_credentials) (b : string) :
  Utils.get_credentials env None = Utils.Returns creds ->
  Utils.contains_slash b = false ->
  contains_colon b = false ->
  Utils.s3_to_fh env ("s3://" +:+ b)
  = Utils.Raises (IndexError "list index out of range").
Proof.
  intros Hcreds Hslash Hb. unfold Utils.s3_to_fh. rewrite Hcreds.
  change (Utils.strip_scheme ("s3://" +:+ b)) with (Utils.strip_scheme b).
  rewrite strip_scheme_without_colon by done.
  by rewrite after_slash_none.
Qed.

Lemma s3_to_fh_needs_a_key_witness :
  let env :=
    Utils.mkEnvironment None true (fun _ _ => Ret "from-file")
      (fun _ => None) (fun _ => Some (OtherError "unreachable"))
      (fun _ _ => Raise (OtherError "unreachable")) in
  Utils.s3_to_fh env ("s3://" +:+ "mscape-birm-ont-prod")
  = Utils.Raises (IndexError "list index out of range").
Proof.
  intros env.
  apply (s3_to_fh_needs_a_key env
           (Utils.mkCredentials "from-file" "from-file"
              "https://s3.climb.ac.uk" "s3" "default")
           "mscape-birm-ont-prod");
    reflexivity.
Defined.

(** ** A trace that broke off *)

(** X9.  When reading the trace fails part-way, the payload is sent at once with
    the one error about the trace; the rows read before the failure are
    then examined as usual, so the reasons for their failed processes are
    on the payload that is returned but not in the message that was sent.
    The result is [(True, payload)]. *)
Theorem ret_0_parser_partial_read (w : world)
    (message_site result_path : string) (ingest_fail : bool) (st : state)
    (rows : list trace_row) (e : exn) :
  read_trace w (trace_path result_path (uuid (st_payload st)))
    = TraceRows rows (Some e) ->
  let p := st_payload st in
  let unreadable := "couldn't open nxf ingest pipeline trace" in
  let failed := List.filter row_failed (build_trace_dict rows) in
  ret_0_parser w message_site result_path ingest_fail st
  = (Ret true,
     mkState
       (set_ingest_errors
          (ingest_errors p ++ [unreadable] ++ map row_reason failed) p)
       (st_events st
        ++ [Send (results_exchange message_site)
              (PayloadBody
                 (set_ingest_errors (ingest_errors p ++ [unreadable]) p))])
       (st_frame st)).
Proof.
  intros H p unreadable failed.
  unfold ret_0_parser, append_ingest_error, send_payload, modify, bind,
    get_payload, emit, ret.
  cbn -[trace_path build_trace_dict for_each results_exchange]. rewrite H.
  cbn -[trace_path build_trace_dict for_each results_exchange].
  rewrite for_each_check_process_closed.
  cbn -[trace_path build_trace_dict for_each results_exchange].
  fold p. by rewrite <- app_assoc.
Qed.

Lemma ret_0_parser_partial_read_witness :
  let rows := [mkTraceRow "SCYLLA:CLASSIFY:kraken2_client" "137" "FAILED"] in
  let w :=
    with_trace (TraceRows rows (Some (OtherError "invalid start byte")))
      calm_world in
  let unreadable := "couldn't open nxf ingest pipeline trace" in
  ret_0_parser w "birm" "/res/uuid-1" false (start (ont_payload true))
  = (Ret true,
     mkState
       (set_ingest_errors
          ([] ++ [unreadable]
           ++ map row_reason (List.filter row_failed (build_trace_dict rows)))
          (ont_payload true))
       ([] ++ [Send (results_exchange "birm")
                 (PayloadBody
                    (set_ingest_errors ([] ++ [unreadable])
                       (ont_payload true)))])
       []).
Proof.
  intros rows w unreadable.
  apply (ret_0_parser_partial_read w "birm" "/res/uuid-1" false
           (start (ont_payload true)) rows
           (OtherError "invalid start byte")).
  reflexivity.
Defined.

(** ** The parameters of the pipeline *)

Lemma ont_parameters (w : world) (result_dir : string)
    (ingest_pipe : pipeline) (st : state) (fastq : file_ref) :
  let p := st_payload st in
  platform p = "ont" ->
  files p !! ".fastq.gz" = Some fastq ->
  execute_validation_pipeline w result_dir ingest_pipe st
  = execute w ingest_pipe
      (base_parameters result_dir p ++ [("fastq", uri fastq)]) st.
Proof.
  intros p Hplatform Hfile.
  unfold execute_validation_pipeline, file_uri, bind, get_payload, ret.
  cbn -[execute]. fold p. rewrite Hplatform. cbn -[execute]. fold p.
  by rewrite Hfile.
Qed.

(** X4.  For an illumina artifact the pipeline gets the seven base parameters
    followed by [--fastq1] and [--fastq2] with the URIs of the two read
    files and by [--paired] with an empty argument, in that order. *)
Theorem illumina_parameters (w : world) (result_dir : string)
    (ingest_pipe : pipeline) (st : state) (fastq1 fastq2 : file_ref) :
  let p := st_payload st in
  platform p = "illumina" ->
  files p !! ".1.fastq.gz" = Some fastq1 ->
  files p !! ".2.fastq.gz" = Some fastq2 ->
  execute_validation_pipeline w result_dir ingest_pipe st
  = execute w ingest_pipe
      (base_parameters result_dir p
       ++ [("fastq1", uri fastq1); ("fastq2", uri fastq2); ("paired", "")])
      st.
Proof.
  intros p Hplatform Hfile1 Hfile2.
  unfold execute_validation_pipeline, file_uri, bind, get_payload, ret.
  cbn -[execute]. fold p. rewrite Hplatform. cbn -[execute]. fold p.
  rewrite Hfile1. cbn -[execute]. fold p. by rewrite Hfile2.
Qed.

Lemma illumina_parameters_witness :
  let p :=
    mkPayload "uuid-6" "mscapetest.run6" "mscapetest" "birm" None "illumina"
      (<[".1.fastq.gz" := mkFileRef "s3://b/run6.1.fastq.gz" "e1"]>
         (<[".2.fastq.gz" := mkFileRef "s3://b/run6.2.fastq.gz" "e2"]> ∅))
      None false false true None ∅ false [] true false in
  (execute_validation_pipeline calm_world "/res"
     (ingest_pipe None "nextflow") (start p)).2
  = mkState p
      [Subprocess
         ["nextflow"; "run"; "-r"; "main"; "-latest"; "snowy-leopard/scylla";
          "-profile"; "docker"; "--out_dir"; "/res"; "--unique_id"; "uuid-6";
          "--climb"; ""; "--max_human_reads_before_rejection"; "10000";
          "--k2_host"; "10.1.185.58"; "--k2_port"; "8080"; "--db";
          "/shared/public/db/kraken2/k2_pluspf/"; "--fastq1";
          "s3://b/run6.1.fastq.gz"; "--fastq2"; "s3://b/run6.2.fastq.gz";
          "--paired"; ""]
         3600]
      [].
Proof.
  intros p.
  rewrite (illumina_parameters calm_world "/res"
             (ingest_pipe None "nextflow") (start p)
             (mkFileRef "s3://b/run6.1.fastq.gz" "e1")
             (mkFileRef "s3://b/run6.2.fastq.gz" "e2")).
  - reflexivity.
  - reflexivity.
  - vm_compute. reflexivity.
  - vm_compute. reflexivity.
Defined.
